(** * FoundryChat: the service discovery module (foundry-service.js)

    A shallow embedding of the discovery-and-liveness subsystem
    ([queryServiceFromCLI], [verifyEndpoint], [readCachedEndpoint],
    [cacheEndpoint], [normalizeEndpoint], [startFoundryService],
    [discoverFoundryService]) together with the parts of the JavaScript
    platform these functions call: JSON.parse / JSON.stringify, the
    regular expressions of the module, the WHATWG URL parser, and a world
    of external effects (the status command, the HTTP probe, the clock and
    the file system).

    With it come [getAvailableModels] of the same module and the part of
    main.js that uses the module or the file system alone: the cloud
    configuration file ([loadCloudConfig], [saveCloudConfigToFile],
    [clearCloudConfigFile] and the handlers get-cloud-config,
    save-cloud-config and clear-cloud-config), the handlers
    set-foundry-endpoint, test-foundry-connection and get-local-models, and
    [initializeFoundryService].  The variables of main.js that these read
    and assign are arguments and results.

    Conventions of the model.
    - A JavaScript string is a [string]: a sequence of code units below
      256.  A JSON escape that denotes a code unit above that range is
      outside the model ([JSON.parse] rejects it).
    - A JavaScript number is an exact decimal [Dec neg m e] (that is
      (-1)^neg * m * 10^e), [NaN] or an infinity.  Arithmetic is exact; this
      agrees with IEEE doubles on integers below 2^53 (ports, epoch
      milliseconds) and on printing literals of at most 15 digits.
    - A value is what JSON.parse can build ([JSValue]); a missing property
      ([undefined]) is [None].  An object is the list of its members as
      written; reading a property takes its last binding.
    - ToString throws on an object with a [toString] property of its own
      and on an array that holds one ([JS.convertible]).  A template
      literal that takes a parsed value is [JS.toText], with the exception;
      under [new URL] the exception and a text that is no URL lead to the
      same [catch], and [JS.toString] gives the empty text there.
    - A promise that nothing settles is [Pending]: that of
      getAvailableModels when the response is cut short.
    - An effect is a step on a [State] that may throw ([M]); the clock is
      moved by the delays only, the time a command or a request takes is
      not counted.
    - console.log / console.warn / console.error have no observable effect
      here and are left out. *)

From Stdlib Require Import Ascii String ZArith NArith Lia List Bool.
From Stdlib Require Import Decimal DecimalString DecimalN.
From stdpp Require Import base gmap strings.
Import ListNotations.

Local Open Scope Z_scope.

(** ** Characters and strings *)

Module Chars.

Definition code (c : ascii) : N := N_of_ascii c.

Definition between (lo hi : N) (c : ascii) : bool :=
  (lo <=? code c)%N && (code c <=? hi)%N.

Definition isChar (x : ascii) (c : ascii) : bool := Ascii.eqb x c.

(** [\d] *)
Definition isDigit : ascii -> bool := between 48 57.
Definition isUpper : ascii -> bool := between 65 90.
Definition isLower : ascii -> bool := between 97 122.
Definition isAlpha (c : ascii) : bool := isUpper c || isLower c.
Definition isAlnum (c : ascii) : bool := isAlpha c || isDigit c.
Definition isHexDigit (c : ascii) : bool :=
  isDigit c || between 65 70 c || between 97 102 c.

(** [\s] restricted to code units below 256: TAB LF VT FF CR SP NBSP. *)
Definition isSpace (c : ascii) : bool :=
  between 9 13 c || (code c =? 32)%N || (code c =? 160)%N.

(** Line terminators below 256: LF and CR ([.] matches anything else). *)
Definition isLineTerminator (c : ascii) : bool :=
  (code c =? 10)%N || (code c =? 13)%N.

Definition toLower (c : ascii) : ascii :=
  if isUpper c then ascii_of_N (code c + 32) else c.

(** Equality of code units under the [i] flag (ASCII letters only fold). *)
Definition isCI (x : ascii) (c : ascii) : bool :=
  Ascii.eqb (toLower x) (toLower c).

Definition hexVal (c : ascii) : option N :=
  if isDigit c then Some (code c - 48)%N
  else if between 65 70 c then Some (code c - 55)%N
  else if between 97 102 c then Some (code c - 87)%N
  else None.

Definition hexChar (n : N) : ascii :=
  if (n <? 10)%N then ascii_of_N (48 + n) else ascii_of_N (87 + n).

End Chars.

Module Str.

Definition isEmpty (s : string) : bool :=
  match s with EmptyString => true | _ => false end.

Fixpoint startsWith (p s : string) : bool :=
  match p, s with
  | EmptyString, _ => true
  | String a p', String b s' => Ascii.eqb a b && startsWith p' s'
  | String _ _, EmptyString => false
  end.

Fixpoint drop (n : nat) (s : string) : string :=
  match n, s with
  | O, _ => s
  | S n', String _ s' => drop n' s'
  | S _, EmptyString => EmptyString
  end.

Fixpoint take (n : nat) (s : string) : string :=
  match n, s with
  | O, _ => EmptyString
  | S n', String c s' => String c (take n' s')
  | S _, EmptyString => EmptyString
  end.

(** Length of the longest prefix whose characters all satisfy [p]. *)
Fixpoint run (p : ascii -> bool) (s : string) : nat :=
  match s with
  | String c s' => if p c then S (run p s') else O
  | EmptyString => O
  end.

Definition span (p : ascii -> bool) (s : string) : string * string :=
  (take (run p s) s, drop (run p s) s).

Fixpoint all (p : ascii -> bool) (s : string) : bool :=
  match s with
  | String c s' => p c && all p s'
  | EmptyString => true
  end.

Fixpoint map (f : ascii -> ascii) (s : string) : string :=
  match s with
  | String c s' => String (f c) (map f s')
  | EmptyString => EmptyString
  end.

Fixpoint filter (p : ascii -> bool) (s : string) : string :=
  match s with
  | String c s' => if p c then String c (filter p s') else filter p s'
  | EmptyString => EmptyString
  end.

Fixpoint dropWhile (p : ascii -> bool) (s : string) : string :=
  match s with
  | String c s' => if p c then dropWhile p s' else s
  | EmptyString => EmptyString
  end.

(** Removes the longest suffix whose characters all satisfy [p]. *)
Fixpoint dropWhileEnd (p : ascii -> bool) (s : string) : string :=
  match s with
  | String c s' =>
      let r := dropWhileEnd p s' in
      if isEmpty r && p c then EmptyString else String c r
  | EmptyString => EmptyString
  end.

Fixpoint repeat (c : ascii) (n : nat) : string :=
  match n with O => EmptyString | S n' => String c (repeat c n') end.

Fixpoint join (sep : string) (l : list string) : string :=
  match l with
  | [] => ""
  | [x] => x
  | x :: l' => x +:+ sep +:+ join sep l'
  end.

(** Splits at every character satisfying [p] (the separators are dropped). *)
Fixpoint splitOn (p : ascii -> bool) (s : string) : list string :=
  match s with
  | EmptyString => [""]
  | String c s' =>
      if p c then "" :: splitOn p s'
      else match splitOn p s' with
           | x :: l => String c x :: l
           | [] => [String c ""]
           end
  end.

(** Decimal digits of a natural number, ["0"] for zero. *)
Definition ofN (n : N) : string := NilEmpty.string_of_uint (N.to_uint n).

(** Value of a string of decimal digits (0 for the empty string). *)
Definition toN (ds : string) : N :=
  match NilEmpty.uint_of_string ds with
  | Some u => N.of_uint u
  | None => 0%N
  end.

(** Writes a text that contains double quotes with apostrophes instead:
    every apostrophe of the argument stands for a double quote. *)
Definition q (s : string) : string :=
  map (fun c => if Ascii.eqb c "'" then "034"%char else c) s.

End Str.

(** ** JavaScript numbers *)

Module Num.

Inductive JSNumber : Type :=
| NaN
| Infinity (neg : bool)
| Dec (neg : bool) (m : N) (e : Z).

Definition ofZ (z : Z) : JSNumber := Dec (z <? 0) (Z.abs_N z) 0.
Definition ofN (n : N) : JSNumber := Dec false n 0.

(** ToBoolean on numbers: false for +0, -0 and NaN. *)
Definition truthy (x : JSNumber) : bool :=
  match x with
  | NaN => false
  | Infinity _ => true
  | Dec _ m _ => negb (m =? 0)%N
  end.

Definition signed (neg : bool) (m : N) : Z :=
  if neg then - Z.of_N m else Z.of_N m.

(** Both mantissas brought to the smaller of the two exponents. *)
Definition align (z1 e1 z2 e2 : Z) : Z * Z * Z :=
  let e := Z.min e1 e2 in
  (z1 * 10 ^ (e1 - e), z2 * 10 ^ (e2 - e), e).

Definition sub (x y : JSNumber) : JSNumber :=
  match x, y with
  | NaN, _ | _, NaN => NaN
  | Infinity a, Infinity b => if Bool.eqb a b then NaN else Infinity a
  | Infinity a, Dec _ _ _ => Infinity a
  | Dec _ _ _, Infinity b => Infinity (negb b)
  | Dec n1 m1 e1, Dec n2 m2 e2 =>
      let '(a, b, e) := align (signed n1 m1) e1 (signed n2 m2) e2 in
      Dec (a - b <? 0) (Z.abs_N (a - b)) e
  end.

(** The relational operator [x < y] (false as soon as one side is NaN). *)
Definition ltb (x y : JSNumber) : bool :=
  match x, y with
  | NaN, _ | _, NaN => false
  | Infinity a, Infinity b => a && negb b
  | Infinity a, Dec _ _ _ => a
  | Dec _ _ _, Infinity b => negb b
  | Dec n1 m1 e1, Dec n2 m2 e2 =>
      let '(a, b, _) := align (signed n1 m1) e1 (signed n2 m2) e2 in
      a <? b
  end.

(** Trailing zeros of a digit string, split off and counted. *)
Fixpoint stripZeros (s : string) : string * nat :=
  match s with
  | EmptyString => (EmptyString, O)
  | String c r =>
      let '(r', z) := stripZeros r in
      if Str.isEmpty r' && Ascii.eqb c "0" then (EmptyString, S z)
      else (String c r', z)
  end.

(** Number::toString (radix 10), ECMA-262 6.1.6.1.20. *)
Definition toString (x : JSNumber) : string :=
  match x with
  | NaN => "NaN"
  | Infinity neg => (if neg then "-" else "") +:+ "Infinity"
  | Dec neg m e =>
      if (m =? 0)%N then "0" else
      let '(s, z) := stripZeros (Str.ofN m) in
      let k := Z.of_nat (String.length s) in
      let n := k + Z.of_nat z + e in
      (if neg then "-" else "") +:+
      (if (k <=? n) && (n <=? 21) then
         s +:+ Str.repeat "0" (Z.to_nat (n - k))
       else if (0 <? n) && (n <=? 21) then
         Str.take (Z.to_nat n) s +:+ "." +:+ Str.drop (Z.to_nat n) s
       else if (-6 <? n) && (n <=? 0) then
         "0." +:+ Str.repeat "0" (Z.to_nat (- n)) +:+ s
       else
         let ex := n - 1 in
         let es := (if ex <? 0 then "-" else "+") +:+ Str.ofN (Z.abs_N ex) in
         match s with
         | String d EmptyString => String d ("e" +:+ es)
         | String d ds => String d ("." +:+ ds +:+ "e" +:+ es)
         | EmptyString => EmptyString
         end)
  end.

(** An optional exponent part [[eE][+-]?\d+]; absent when malformed. *)
Definition readExponent (s : string) : Z * string :=
  match s with
  | String c r =>
      if Chars.isCI "e" c then
        let '(sg, r1) :=
          match r with
          | String "+" r' => (1, r')
          | String "-" r' => (-1, r')
          | _ => (1, r)
          end in
        let '(ds, r2) := Str.span Chars.isDigit r1 in
        if Str.isEmpty ds then (0, s) else (sg * Z.of_N (Str.toN ds), r2)
      else (0, s)
  | EmptyString => (0, s)
  end.

(** [digits [. digits] [exponent]] or [. digits [exponent]], with what
    follows; [None] when there is no digit at all. *)
Definition readDecimal (s : string) : option (N * Z * string) :=
  let '(ip, r1) := Str.span Chars.isDigit s in
  let '(fp, r2) :=
    match r1 with
    | String "." r => Str.span Chars.isDigit r
    | _ => (EmptyString, r1)
    end in
  if Str.isEmpty ip && Str.isEmpty fp then None else
  let '(ex, r3) := readExponent r2 in
  Some (Str.toN (ip +:+ fp), ex - Z.of_nat (String.length fp), r3).

Definition radixLiteral (s : string) : option JSNumber :=
  match s with
  | String "0" (String x ds) =>
      let lit (ok : ascii -> bool) (bits : N) :=
        if negb (Str.isEmpty ds) && Str.all ok ds then
          Some (Dec false
                  (fold_left (fun a c => a * bits + default 0 (Chars.hexVal c))%N
                             (list_ascii_of_string ds) 0%N) 0)
        else None in
      if Chars.isCI "x" x then lit Chars.isHexDigit 16%N
      else if Chars.isCI "o" x then lit (Chars.between 48 55) 8%N
      else if Chars.isCI "b" x then lit (Chars.between 48 49) 2%N
      else None
  | _ => None
  end.

(** StringToNumber, ECMA-262 7.1.4.1.1. *)
Definition ofString (s : string) : JSNumber :=
  let t := Str.dropWhileEnd Chars.isSpace (Str.dropWhile Chars.isSpace s) in
  if Str.isEmpty t then Dec false 0 0 else
  match radixLiteral t with
  | Some x => x
  | None =>
      let '(neg, u) :=
        match t with
        | String "+" r => (false, r)
        | String "-" r => (true, r)
        | _ => (false, t)
        end in
      if String.eqb u "Infinity" then Infinity neg else
      match readDecimal u with
      | Some (m, e, EmptyString) => Dec neg m e
      | _ => NaN
      end
  end.

End Num.

(** ** JavaScript values: what JSON.parse can produce *)

(** A completion: a value, or a thrown exception with its message. *)
Inductive Outcome (A : Type) : Type :=
| Returns (a : A)
| Throws (err : string).
Arguments Returns {A} a.
Arguments Throws {A} err.

#[local] Set Warnings "-register-all".

Inductive JSValue : Type :=
| JNull
| JBool (b : bool)
| JNum (n : Num.JSNumber)
| JStr (s : string)
| JArr (l : list JSValue)
| JObj (l : list (string * JSValue)).

Module JS.

(** ToBoolean. *)
Definition truthy (v : JSValue) : bool :=
  match v with
  | JNull => false
  | JBool b => b
  | JNum n => Num.truthy n
  | JStr s => negb (Str.isEmpty s)
  | JArr _ | JObj _ => true
  end.

(** Own property of an object built by JSON.parse: the last binding wins. *)
Fixpoint lookup (k : string) (l : list (string * JSValue)) : option JSValue :=
  match l with
  | [] => None
  | (k', v) :: l' =>
      match lookup k l' with
      | Some w => Some w
      | None => if String.eqb k k' then Some v else None
      end
  end.

(** Whether ToString returns.  It throws a TypeError for an object that has
    a property of its own named [toString]: what JSON.parse builds is never
    callable, and the [valueOf] that is tried next gives no primitive.  An
    array is joined, so it throws when one of its elements does. *)
Fixpoint convertible (v : JSValue) : bool :=
  match v with
  | JObj l => negb (bool_decide (is_Some (lookup "toString" l)))
  | JArr l => forallb convertible l
  | JNull | JBool _ | JNum _ | JStr _ => true
  end.

(** ToString, as applied by template literals and by [new URL(x)].  Where
    ToString throws this is the empty text, which is no URL: [new URL] of
    it throws as [new URL] of the value does.  A template literal takes
    [toText] below. *)
Fixpoint toString (v : JSValue) : string :=
  match v with
  | JNull => "null"
  | JBool b => if b then "true" else "false"
  | JNum n => Num.toString n
  | JStr s => s
  | JArr l =>
      if forallb convertible l then
        Str.join ","
          (List.map (fun x => match x with JNull => "" | _ => toString x end) l)
      else EmptyString
  | JObj l => if convertible (JObj l) then "[object Object]" else EmptyString
  end.

(** ToString with its exception. *)
Definition toText (v : JSValue) : Outcome string :=
  if convertible v then Returns (toString v)
  else Throws "Cannot convert object to primitive value".

(** ToNumber.  Where it throws, as ToString does, this is NaN: the one
    subtraction that uses it stands in a [try] whose [catch] leads where
    the comparison with NaN leads. *)
Definition toNumber (v : JSValue) : Num.JSNumber :=
  match v with
  | JNull => Num.Dec false 0 0
  | JBool b => Num.Dec false (if b then 1 else 0) 0
  | JNum n => n
  | JStr s => Num.ofString s
  | JArr _ | JObj _ =>
      if convertible v then Num.ofString (toString v) else Num.NaN
  end.

(** [v.k] for a property name [k] that no prototype defines ([port], [url],
    [status], [running], [endpoint], [timestamp]): [None] is [undefined];
    reading a property of [null] throws a TypeError. *)
Definition getProp (v : JSValue) (k : string) : Outcome (option JSValue) :=
  match v with
  | JNull => Throws "Cannot read properties of null"
  | JObj l => Returns (lookup k l)
  | _ => Returns None
  end.

(** A property read on a value already known not to be [null]. *)
Definition prop (v : JSValue) (k : string) : option JSValue :=
  match getProp v k with Returns o => o | Throws _ => None end.

(** ToBoolean of a property read ([undefined] is falsy). *)
Definition truthyOpt (o : option JSValue) : bool :=
  match o with Some v => truthy v | None => false end.

(** [o === 'text'] *)
Definition isStr (o : option JSValue) (text : string) : bool :=
  match o with Some (JStr s) => String.eqb s text | _ => false end.

(** [o === true] *)
Definition isTrue (o : option JSValue) : bool :=
  match o with Some (JBool true) => true | _ => false end.

End JS.

(** ** JSON.parse and JSON.stringify (ECMA-262 25.5, ECMA-404) *)

Module JSON.

Definition dquote : ascii := "034".
Definition newline : ascii := "010".

Definition isWs (c : ascii) : bool :=
  let n := Chars.code c in
  (n =? 9)%N || (n =? 10)%N || (n =? 13)%N || (n =? 32)%N.

Definition skipWs : string -> string := Str.dropWhile isWs.

(** The character denoted by a one-letter escape. *)
Definition unescape (e : ascii) : option ascii :=
  if Ascii.eqb e dquote then Some dquote
  else if Ascii.eqb e "\" then Some "\"%char
  else if Ascii.eqb e "/" then Some "/"%char
  else if Ascii.eqb e "b" then Some "008"%char
  else if Ascii.eqb e "f" then Some "012"%char
  else if Ascii.eqb e "n" then Some "010"%char
  else if Ascii.eqb e "r" then Some "013"%char
  else if Ascii.eqb e "t" then Some "009"%char
  else None.

Definition hex4 (a b c d : ascii) : option N :=
  match Chars.hexVal a, Chars.hexVal b, Chars.hexVal c, Chars.hexVal d with
  | Some x, Some y, Some z, Some w => Some (((x * 16 + y) * 16 + z) * 16 + w)%N
  | _, _, _, _ => None
  end.

Definition consTo (c : ascii) (r : option (string * string))
  : option (string * string) :=
  match r with Some (s, rest) => Some (String c s, rest) | None => None end.

(** The characters of a string literal after its opening quote, up to and
    including the closing quote; returns the denoted string and what
    follows.  A [\uXXXX] escape must denote a code unit below 256. *)
Fixpoint parseStringBody (s : string) : option (string * string) :=
  match s with
  | EmptyString => None
  | String c r =>
      if Ascii.eqb c dquote then Some (EmptyString, r)
      else if Ascii.eqb c "\" then
        match r with
        | EmptyString => None
        | String e r' =>
            if Ascii.eqb e "u" then
              match r' with
              | String h1 (String h2 (String h3 (String h4 r''))) =>
                  match hex4 h1 h2 h3 h4 with
                  | Some n =>
                      if (n <? 256)%N
                      then consTo (ascii_of_N n) (parseStringBody r'')
                      else None
                  | None => None
                  end
              | _ => None
              end
            else
              match unescape e with
              | Some ch => consTo ch (parseStringBody r')
              | None => None
              end
        end
      else if (Chars.code c <? 32)%N then None
      else consTo c (parseStringBody r)
  end.

(** A JSON number: an optional minus, an integer part without a leading
    zero, an optional fraction and an optional exponent. *)
Definition parseNumber (s : string) : option (Num.JSNumber * string) :=
  let '(neg, r0) :=
    match s with String "-" r => (true, r) | _ => (false, s) end in
  let '(ip, r1) :=
    match r0 with
    | String "0" r => ("0", r)
    | _ => Str.span Chars.isDigit r0
    end in
  if Str.isEmpty ip then None else
  let frac :=
    match r1 with
    | String "." r =>
        let '(fp, r2) := Str.span Chars.isDigit r in
        if Str.isEmpty fp then None else Some (fp, r2)
    | _ => Some (EmptyString, r1)
    end in
  match frac with
  | None => None
  | Some (fp, r2) =>
      let expo :=
        match r2 with
        | String c r =>
            if Chars.isCI "e" c then
              let '(sg, r3) :=
                match r with
                | String "+" r' => (1, r')
                | String "-" r' => (-1, r')
                | _ => (1, r)
                end in
              let '(ds, r4) := Str.span Chars.isDigit r3 in
              if Str.isEmpty ds then None
              else Some (sg * Z.of_N (Str.toN ds), r4)
            else Some (0, r2)
        | EmptyString => Some (0, r2)
        end in
      match expo with
      | None => None
      | Some (ex, r4) =>
          Some (Num.Dec neg (Str.toN (ip +:+ fp))
                        (ex - Z.of_nat (String.length fp)), r4)
      end
  end.

(** Recursive descent.  A value, a member and an element each take one
    unit of fuel and at least one character, so that fuel above twice the
    length of the text is never exhausted ([parse_fuel_enough] below). *)
Fixpoint parseValue (fuel : nat) (s : string) : option (JSValue * string) :=
  match fuel with
  | O => None
  | S f =>
      match skipWs s with
      | EmptyString => None
      | String c r =>
          if Ascii.eqb c "{" then
            match skipWs r with
            | String "}" r' => Some (JObj [], r')
            | _ =>
                match parseMembers f r with
                | Some (l, r') => Some (JObj l, r')
                | None => None
                end
            end
          else if Ascii.eqb c "[" then
            match skipWs r with
            | String "]" r' => Some (JArr [], r')
            | _ =>
                match parseElements f r with
                | Some (l, r') => Some (JArr l, r')
                | None => None
                end
            end
          else if Ascii.eqb c dquote then
            match parseStringBody r with
            | Some (str, r') => Some (JStr str, r')
            | None => None
            end
          else if Str.startsWith "true" (String c r) then
            Some (JBool true, Str.drop 4 (String c r))
          else if Str.startsWith "false" (String c r) then
            Some (JBool false, Str.drop 5 (String c r))
          else if Str.startsWith "null" (String c r) then
            Some (JNull, Str.drop 4 (String c r))
          else
            match parseNumber (String c r) with
            | Some (n, r') => Some (JNum n, r')
            | None => None
            end
      end
  end
with parseMembers (fuel : nat) (s : string)
  : option (list (string * JSValue) * string) :=
  match fuel with
  | O => None
  | S f =>
      match skipWs s with
      | EmptyString => None
      | String c r =>
          if Ascii.eqb c dquote then
            match parseStringBody r with
            | None => None
            | Some (k, r1) =>
                match skipWs r1 with
                | String ":" r2 =>
                    match parseValue f r2 with
                    | None => None
                    | Some (v, r3) =>
                        match skipWs r3 with
                        | String "," r4 =>
                            match parseMembers f r4 with
                            | Some (l, r5) => Some ((k, v) :: l, r5)
                            | None => None
                            end
                        | String "}" r4 => Some ([(k, v)], r4)
                        | _ => None
                        end
                    end
                | _ => None
                end
            end
          else None
      end
  end
with parseElements (fuel : nat) (s : string)
  : option (list JSValue * string) :=
  match fuel with
  | O => None
  | S f =>
      match parseValue f s with
      | None => None
      | Some (v, r1) =>
          match skipWs r1 with
          | String "," r2 =>
              match parseElements f r2 with
              | Some (l, r3) => Some (v :: l, r3)
              | None => None
              end
          | String "]" r2 => Some ([v], r2)
          | _ => None
          end
      end
  end.

(** JSON.parse(text): throws a SyntaxError on anything but one JSON value
    surrounded by white space. *)
Definition parse (text : string) : Outcome JSValue :=
  match parseValue (S (String.length text + String.length text)) text with
  | Some (v, r) =>
      if Str.isEmpty (skipWs r) then Returns v
      else Throws "SyntaxError"
  | None => Throws "SyntaxError"
  end.

(** QuoteJSONString on one code unit. *)
Definition escapeChar (c : ascii) : string :=
  let n := Chars.code c in
  if Ascii.eqb c dquote then String "\" (String dquote "")
  else if Ascii.eqb c "\" then "\\"
  else if (n =? 8)%N then "\b"
  else if (n =? 12)%N then "\f"
  else if (n =? 10)%N then "\n"
  else if (n =? 13)%N then "\r"
  else if (n =? 9)%N then "\t"
  else if (n <? 32)%N then
    "\u00" +:+ String (Chars.hexChar (n / 16)) (String (Chars.hexChar (n mod 16)) "")
  else String c "".

Fixpoint escape (s : string) : string :=
  match s with
  | EmptyString => EmptyString
  | String c r => escapeChar c +:+ escape r
  end.

Definition quote (s : string) : string :=
  String dquote (escape s +:+ String dquote "").

(** SerializeJSONProperty with the given gap and current indentation.  The
    members of an object are written in the order of the list. *)
Fixpoint serialize (gap indent : string) (v : JSValue) : string :=
  let inner := indent +:+ gap in
  let wrap (l r : string) (parts : list string) : string :=
    match parts with
    | [] => l +:+ r
    | _ =>
        if Str.isEmpty gap then l +:+ Str.join "," parts +:+ r
        else
          l +:+ String newline inner
            +:+ Str.join ("," +:+ String newline inner) parts
            +:+ String newline indent +:+ r
    end in
  match v with
  | JNull => "null"
  | JBool b => if b then "true" else "false"
  | JNum (Num.Dec neg m e) => Num.toString (Num.Dec neg m e)
  | JNum _ => "null"
  | JStr s => quote s
  | JArr l => wrap "[" "]" (List.map (serialize gap inner) l)
  | JObj l =>
      wrap "{" "}"
        (List.map
           (fun kv =>
              quote (fst kv) +:+ (if Str.isEmpty gap then ":" else ": ")
                +:+ serialize gap inner (snd kv)) l)
  end.

(** JSON.stringify(value, null, spaces) *)
Definition stringify (v : JSValue) (spaces : nat) : string :=
  serialize (Str.repeat " " (Nat.min spaces 10)) "" v.

End JSON.

(** ** Regular expressions

    The patterns of the module are sequences of quantified character
    classes and anchors; [matchHere] is the backtracking matcher of
    ECMA-262 on that fragment: quantifiers are greedy and give back one
    character at a time. *)

Module Regex.

Inductive quant : Type := One | Opt | Star | Plus.

Inductive item : Type :=
| Atom (capture : bool) (cls : ascii -> bool) (q : quant)
| Bol
| Eol.

Record MatchResult : Type := mkMatch {
  index : nat;
  matched : string;
  group1 : option string
}.

Definition least (q : quant) : nat :=
  match q with One | Plus => 1%nat | Opt | Star => 0%nat end.

Definition most (q : quant) (avail : nat) : nat :=
  match q with One | Opt => Nat.min 1 avail | Star | Plus => avail end.

(** The match of pattern [p] that starts at the head of [s], which sits at
    offset [pos] of the subject: the matched text and capture group 1. *)
Fixpoint matchHere (p : list item) (pos : nat) (s : string)
  : option (string * option string) :=
  match p with
  | [] => Some (EmptyString, None)
  | Bol :: p' => if (pos =? 0)%nat then matchHere p' pos s else None
  | Eol :: p' => if Str.isEmpty s then matchHere p' pos s else None
  | Atom cap cls q :: p' =>
      (fix try (n : nat) : option (string * option string) :=
         let here :=
           if (least q <=? n)%nat then
             match matchHere p' (pos + n)%nat (Str.drop n s) with
             | Some (m, g) =>
                 Some (Str.take n s +:+ m,
                       if cap then Some (Str.take n s) else g)
             | None => None
             end
           else None in
         match here with
         | Some r => Some r
         | None => match n with O => None | S n' => try n' end
         end) (most q (Str.run cls s))
  end.

Fixpoint searchFrom (p : list item) (pos : nat) (s : string)
  : option MatchResult :=
  match matchHere p pos s with
  | Some (m, g) => Some (mkMatch pos m g)
  | None =>
      match s with
      | String _ s' => searchFrom p (S pos) s'
      | EmptyString => None
      end
  end.

(** [s.match(p)] for a pattern without the [g] flag: the leftmost match. *)
Definition search (p : list item) (s : string) : option MatchResult :=
  searchFrom p 0 s.

(** [s.replace(p, by)] for a pattern without the [g] flag. *)
Definition replace (p : list item) (by_ : string) (s : string) : string :=
  match search p s with
  | Some m =>
      Str.take (index m) s +:+ by_
        +:+ Str.drop (index m + String.length (matched m)) s
  | None => s
  end.

Definition lit (c : ascii) : item := Atom false (Ascii.eqb c) One.
Definition litCI (c : ascii) : item := Atom false (Chars.isCI c) One.
Definition digits (capture : bool) : item := Atom capture Chars.isDigit Plus.

(** [/http[s]?:\/\/[^\s/]+:\d+/i] *)
Definition fullUrlRe : list item :=
  [ litCI "h"; litCI "t"; litCI "t"; litCI "p"; Atom false (Chars.isCI "s") Opt;
    lit ":"; lit "/"; lit "/";
    Atom false (fun c => negb (Chars.isSpace c || Ascii.eqb c "/")) Plus;
    lit ":"; digits false ].

(** [/:(\d+)$/] *)
Definition trailingPortRe : list item := [ lit ":"; digits true; Eol ].

(** [/:\s*(\d+)/] *)
Definition barePortRe : list item :=
  [ lit ":"; Atom false Chars.isSpace Star; digits true ].

(** [/http[s]?:\/\/[^\s]+/i] *)
Definition anyUrlRe : list item :=
  [ litCI "h"; litCI "t"; litCI "t"; litCI "p"; Atom false (Chars.isCI "s") Opt;
    lit ":"; lit "/"; lit "/";
    Atom false (fun c => negb (Chars.isSpace c)) Plus ].

(** [/\/$/] *)
Definition trailingSlashRe : list item := [ lit "/"; Eol ].

(** [/\/.*$/] *)
Definition pathRe : list item :=
  [ lit "/"; Atom false (fun c => negb (Chars.isLineTerminator c)) Star; Eol ].

(** [/^https:/] *)
Definition httpsPrefixRe : list item :=
  [ Bol; lit "h"; lit "t"; lit "t"; lit "p"; lit "s"; lit ":" ].

End Regex.

(** ** The URL parser ([new URL(input)], WHATWG URL standard, no base URL)

    The state machine (scheme, authority, host and port states, the file
    states) and the host parser for opaque hosts and IPv4 addresses are
    written out.  Three steps of the platform stay parameters of the model,
    so that every statement below holds whatever they compute:
    - [domainToASCII]: percent-decoding followed by the Unicode
      domain-to-ASCII conversion of a host of a special URL;
    - [ipv6]: parsing and serializing what stands between the brackets
      of an IPv6 literal;
    - [pathnameOf]: the [pathname] that the path states produce from the
      scheme and the input left when they are entered. *)

Module URL.

Class Platform : Type := {
  domainToASCII : string -> option string;
  ipv6 : string -> option string;
  pathnameOf : string -> string -> string
}.

(** The getters of a URL object that the module reads. *)
Record Loc : Type := mkLoc {
  protocol : string;
  hostname : string;
  port : string;
  pathname : string
}.

Definition isC0OrSpace (c : ascii) : bool := (Chars.code c <=? 32)%N.

Definition isTabOrNewline (c : ascii) : bool :=
  let n := Chars.code c in (n =? 9)%N || (n =? 10)%N || (n =? 13)%N.

Definition isSlash (c : ascii) : bool := Ascii.eqb c "/" || Ascii.eqb c "\".

Definition isSchemeChar (c : ascii) : bool :=
  Chars.isAlnum c || Ascii.eqb c "+" || Ascii.eqb c "-" || Ascii.eqb c ".".

Definition defaultPort (scheme : string) : option N :=
  if String.eqb scheme "http" then Some 80%N
  else if String.eqb scheme "https" then Some 443%N
  else if String.eqb scheme "ws" then Some 80%N
  else if String.eqb scheme "wss" then Some 443%N
  else if String.eqb scheme "ftp" then Some 21%N
  else None.

Definition isSpecial (scheme : string) : bool :=
  String.eqb scheme "file" || bool_decide (is_Some (defaultPort scheme)).

(** Scheme start state and scheme state: the lower-cased scheme and what
    follows its colon. *)
Definition splitScheme (s : string) : option (string * string) :=
  match s with
  | String c r =>
      if Chars.isAlpha c then
        match Str.drop (Str.run isSchemeChar r) r with
        | String ":" rest =>
            Some (Str.map Chars.toLower
                    (String c (Str.take (Str.run isSchemeChar r) r)), rest)
        | _ => None
        end
      else None
  | EmptyString => None
  end.

Definition isForbiddenHost (c : ascii) : bool :=
  let n := Chars.code c in
  (n =? 0)%N || (n =? 9)%N || (n =? 10)%N || (n =? 13)%N || (n =? 32)%N
  || Ascii.eqb c "#" || Ascii.eqb c "/" || Ascii.eqb c ":" || Ascii.eqb c "<"
  || Ascii.eqb c ">" || Ascii.eqb c "?" || Ascii.eqb c "@" || Ascii.eqb c "["
  || Ascii.eqb c "\" || Ascii.eqb c "]" || Ascii.eqb c "^" || Ascii.eqb c "|".

Definition isForbiddenDomain (c : ascii) : bool :=
  isForbiddenHost c || (Chars.code c <=? 31)%N || Ascii.eqb c "%"
  || (Chars.code c =? 127)%N.

Definition upperHex (n : N) : ascii :=
  if (n <? 10)%N then ascii_of_N (48 + n) else ascii_of_N (55 + n).

Definition percentByte (n : N) : string :=
  String "%" (String (upperHex (n / 16)) (String (upperHex (n mod 16)) "")).

(** UTF-8 percent-encoding with the C0 control percent-encode set. *)
Definition percentEncodeC0 (c : ascii) : string :=
  let n := Chars.code c in
  if (n <? 32)%N || (n =? 127)%N then percentByte n
  else if (n <? 128)%N then String c ""
  else percentByte (192 + n / 64) +:+ percentByte (128 + n mod 64).

Fixpoint concatMap (f : ascii -> string) (s : string) : string :=
  match s with
  | EmptyString => EmptyString
  | String c r => f c +:+ concatMap f r
  end.

Definition digitValue (c : ascii) : N := default 0%N (Chars.hexVal c).

Definition valueIn (radix : N) (ds : string) : N :=
  fold_left (fun a c => a * radix + digitValue c)%N (list_ascii_of_string ds) 0%N.

(** The IPv4 number parser. *)
Definition ipv4Number (s : string) : option N :=
  if Str.isEmpty s then None else
  let '(radix, ds) :=
    match s with
    | String "0" (String x r) =>
        if Chars.isCI "x" x then (16%N, r) else (8%N, String x r)
    | _ => (10%N, s)
    end in
  if Str.all (fun c => Chars.isHexDigit c && (digitValue c <? radix)%N) ds
  then Some (valueIn radix ds) else None.

(** The parts of a host between dots, a trailing empty part removed. *)
Definition hostParts (s : string) : list string :=
  let parts := Str.splitOn (Ascii.eqb ".") s in
  match List.rev parts with
  | EmptyString :: (_ :: _) as others => List.rev others
  | _ => parts
  end.

Definition endsInNumber (s : string) : bool :=
  match List.rev (hostParts s) with
  | lastPart :: _ =>
      (negb (Str.isEmpty lastPart) && Str.all Chars.isDigit lastPart)
      || bool_decide (is_Some (ipv4Number lastPart))
  | [] => false
  end.

Fixpoint sequence {A : Type} (l : list (option A)) : option (list A) :=
  match l with
  | [] => Some []
  | Some x :: l' =>
      match sequence l' with Some r => Some (x :: r) | None => None end
  | None :: _ => None
  end.

(** The IPv4 parser followed by the IPv4 serializer. *)
Definition ipv4 (s : string) : option string :=
  let parts := hostParts s in
  if (4 <? List.length parts)%nat then None else
  match sequence (List.map ipv4Number parts) with
  | None => None
  | Some numbers =>
      match List.rev numbers with
      | [] => None
      | lastNumber :: firstNumbers =>
          if existsb (fun n => 255 <? n)%N firstNumbers then None
          else if (256 ^ (5 - N.of_nat (List.length numbers)) <=? lastNumber)%N
          then None
          else
            let addr :=
              (lastNumber
               + fold_left N.add
                   (imap (fun i n => n * 256 ^ (3 - N.of_nat i))
                      (List.rev firstNumbers)) 0)%N in
            Some (Str.join "."
                    [ Str.ofN (addr / 16777216);
                      Str.ofN ((addr / 65536) mod 256);
                      Str.ofN ((addr / 256) mod 256);
                      Str.ofN (addr mod 256) ])
      end
  end.

Fixpoint lastChar (s : string) : option ascii :=
  match s with
  | EmptyString => None
  | String c EmptyString => Some c
  | String _ r => lastChar r
  end.

Section Parser.
Context `{Platform}.

(** The host parser followed by the host serializer. *)
Definition parseHost (isOpaque : bool) (input : string) : option string :=
  match input with
  | String "[" r =>
      match lastChar r with
      | Some "]"%char =>
          match ipv6 (Str.take (String.length r - 1) r) with
          | Some a => Some ("[" +:+ a +:+ "]")
          | None => None
          end
      | _ => None
      end
  | _ =>
      if isOpaque then
        if Str.all (fun c => negb (isForbiddenHost c)) input
        then Some (concatMap percentEncodeC0 input) else None
      else
        match domainToASCII input with
        | None => None
        | Some d =>
            if negb (Str.all (fun c => negb (isForbiddenDomain c)) d) then None
            else if endsInNumber d then ipv4 d
            else Some d
        end
  end.

(** Host state: the text before the first colon that is not inside
    brackets, and the text after that colon if there is one. *)
Fixpoint splitHostPort (inBrackets : bool) (s : string)
  : string * option string :=
  match s with
  | EmptyString => (EmptyString, None)
  | String c r =>
      if Ascii.eqb c ":" && negb inBrackets then (EmptyString, Some r)
      else
        let inBrackets' :=
          if Ascii.eqb c "[" then true
          else if Ascii.eqb c "]" then false else inBrackets in
        let '(h, p) := splitHostPort inBrackets' r in (String c h, p)
  end.

(** Port state: the [port] getter, empty for the default port. *)
Definition parsePort (scheme : string) (ds : string) : option string :=
  if negb (Str.all Chars.isDigit ds) then None
  else if Str.isEmpty ds then Some EmptyString
  else
    let n := Str.toN ds in
    if (65535 <? n)%N then None
    else if bool_decide (defaultPort scheme = Some n) then Some EmptyString
    else Some (Str.ofN n).

Definition isAuthorityEnd (special : bool) (c : ascii) : bool :=
  Ascii.eqb c "/" || Ascii.eqb c "?" || Ascii.eqb c "#"
  || (special && Ascii.eqb c "\").

(** Authority state, host state and port state. *)
Definition parseAuthority (scheme : string) (special : bool) (r : string)
  : option Loc :=
  let '(auth, after) := Str.span (fun c => negb (isAuthorityEnd special c)) r in
  let parts := Str.splitOn (Ascii.eqb "@") auth in
  let hostport := List.last parts EmptyString in
  if (1 <? List.length parts)%nat && Str.isEmpty hostport then None else
  let '(h, p) := splitHostPort false hostport in
  if Str.isEmpty h && (special || bool_decide (is_Some p)) then None else
  match parseHost (negb special) h with
  | None => None
  | Some host =>
      match parsePort scheme (default EmptyString p) with
      | None => None
      | Some prt =>
          Some (mkLoc (scheme +:+ ":") host prt (pathnameOf scheme after))
      end
  end.

Definition isWindowsDriveLetter (s : string) : bool :=
  match s with
  | String a (String b EmptyString) =>
      Chars.isAlpha a && (Ascii.eqb b ":" || Ascii.eqb b "|")
  | _ => false
  end.

(** File state, file slash state and file host state. *)
Definition parseFile (rest : string) : option Loc :=
  let noHost (path : string) :=
    Some (mkLoc "file:" EmptyString EmptyString (pathnameOf "file" path)) in
  match rest with
  | String a (String b r) =>
      if isSlash a && isSlash b then
        let '(buf, after) :=
          Str.span (fun c => negb (isSlash c || Ascii.eqb c "?" || Ascii.eqb c "#")) r in
        if isWindowsDriveLetter buf then noHost r
        else if Str.isEmpty buf then noHost after
        else
          match parseHost false buf with
          | None => None
          | Some host =>
              Some (mkLoc "file:"
                      (if String.eqb host "localhost" then EmptyString else host)
                      EmptyString (pathnameOf "file" after))
          end
      else if isSlash a then noHost (String b r)
      else noHost rest
  | String a EmptyString => if isSlash a then noHost EmptyString else noHost rest
  | EmptyString => noHost rest
  end.

(** The basic URL parser without a base URL; [None] is failure. *)
Definition parse (input : string) : option Loc :=
  let s :=
    Str.filter (fun c => negb (isTabOrNewline c))
      (Str.dropWhileEnd isC0OrSpace (Str.dropWhile isC0OrSpace input)) in
  match splitScheme s with
  | None => None
  | Some (scheme, rest) =>
      if String.eqb scheme "file" then parseFile rest
      else if isSpecial scheme then
        parseAuthority scheme true (Str.dropWhile isSlash rest)
      else
        match rest with
        | String "/" (String "/" r) => parseAuthority scheme false r
        | _ =>
            Some (mkLoc (scheme +:+ ":") EmptyString EmptyString
                    (pathnameOf scheme rest))
        end
  end.

(** [new URL(input)]: throws a TypeError when parsing fails. *)
Definition new (input : string) : Outcome Loc :=
  match parse input with
  | Some u => Returns u
  | None => Throws "Invalid URL"
  end.

End Parser.

(** A platform for plain ASCII host names without percent escapes and
    without punycode labels, and for paths that need no normalisation;
    it is what the platform computes on the inputs evaluated below. *)
Definition asciiDomain (s : string) : option string :=
  let labelOk (l : string) := negb (Str.startsWith "xn--" l) in
  let lower := Str.map Chars.toLower s in
  if Str.isEmpty s then None
  else if Str.all (fun c => (Chars.code c <? 128)%N && negb (Ascii.eqb c "%")) s
          && forallb labelOk (Str.splitOn (Ascii.eqb ".") lower)
  then Some lower else None.

Definition plainPathname (scheme rest : string) : string :=
  let p :=
    Str.take (Str.run (fun c => negb (Ascii.eqb c "?" || Ascii.eqb c "#")) rest)
      rest in
  if isSpecial scheme && Str.isEmpty p then "/" else p.

Definition ascii : Platform :=
  {| domainToASCII := asciiDomain;
     ipv6 := fun _ => None;
     pathnameOf := plainPathname |}.

End URL.

(** ** The world outside the module

    The environment of one run is fixed ([Env]): the operating system, the
    home directory, what the n-th awaited command returns and how the n-th
    HTTP request ends.  What a run changes is the [State]: the clock, the
    file system, the counters of the two oracles and the trace of the
    effects performed.  A path is the list of its segments. *)

Inductive OS : Type := Win32 | Darwin | OtherOS.

(** How an awaited [exec] ends: exit code 0 with the text written to
    stdout, or a rejection (non-zero exit, time-out, command not found). *)
Inductive ExecResult : Type :=
| ExecOk (stdout : string)
| ExecFailed (msg : string).

(** The options object given to http.request. *)
Record RequestOptions : Type := mkRequest {
  reqHostname : string;
  reqPort : JSValue;
  reqPath : string;
  reqMethod : string;
  reqTimeout : Z
}.

(** The first event of a request: the response callback (with the status
    code), the error event, the timeout event; or http.request itself
    throws. *)
Inductive ProbeOutcome : Type :=
| Response (status : Z)
| NetworkError (msg : string)
| TimedOut
| RequestThrew (msg : string).

Inductive Event : Type :=
| EvExecAwaited (cmd : string)
| EvExecDetached (cmd : string)
| EvSleep (ms : Z)
| EvRequest (opts : RequestOptions)
| EvMkdir (path : list string)
| EvWriteFile (path : list string) (content : string).

Record Env : Type := mkEnv {
  platform : OS;
  homedir : list string;
  appdata : option (list string);
  fsReadOnly : bool;
  commandResult : nat -> string -> ExecResult;
  requestResult : nat -> RequestOptions -> ProbeOutcome
}.

Record State : Type := mkState {
  clock : Z;
  files : gmap (list string) string;
  dirs : gset (list string);
  execCount : nat;
  requestCount : nat;
  trace : list Event
}.

(** A computation with effects: from a state to a completion and a state. *)
Definition M (A : Type) : Type := State -> Outcome A * State.

Definition ret {A : Type} (a : A) : M A := fun w => (Returns a, w).

Definition throw {A : Type} (err : string) : M A := fun w => (Throws err, w).

Definition bind {A B : Type} (m : M A) (k : A -> M B) : M B :=
  fun w =>
    match m w with
    | (Returns a, w') => k a w'
    | (Throws err, w') => (Throws err, w')
    end.

(** [try { body } catch (error) { handler }], the message of the error
    being given to the handler. *)
Definition tryCatch {A : Type} (body : M A) (handler : string -> M A) : M A :=
  fun w =>
    match body w with
    | (Returns a, w') => (Returns a, w')
    | (Throws err, w') => handler err w'
    end.

Definition lift {A : Type} (o : Outcome A) : M A := fun w => (o, w).

Notation "x <- m ;; k" := (bind m (fun x => k))
  (at level 100, m at level 99, k at level 200, right associativity).
Notation "m ;;; k" := (bind m (fun _ => k))
  (at level 100, k at level 200, right associativity).

Definition emit (e : Event) (w : State) : State :=
  mkState (clock w) (files w) (dirs w) (execCount w) (requestCount w)
          (trace w ++ [e]).

Module Sys.
Section WithEnv.
Variable env : Env.

(** [await execAsync(cmd, ...)]: resolves with stdout or rejects. *)
Definition execAsync (cmd : string) : M string :=
  fun w =>
    let w' :=
      mkState (clock w) (files w) (dirs w) (S (execCount w)) (requestCount w)
              (trace w ++ [EvExecAwaited cmd]) in
    match commandResult env (execCount w) cmd with
    | ExecOk stdout => (Returns stdout, w')
    | ExecFailed msg => (Throws msg, w')
    end.

(** [exec(cmd, callback)]: started and not waited for. *)
Definition exec (cmd : string) : M unit :=
  fun w => (Returns tt, emit (EvExecDetached cmd) w).

(** [await new Promise(resolve => setTimeout(resolve, ms))] *)
Definition sleep (ms : Z) : M unit :=
  fun w =>
    (Returns tt,
     mkState (clock w + ms) (files w) (dirs w) (execCount w) (requestCount w)
             (trace w ++ [EvSleep ms])).

(** [Date.now()] *)
Definition dateNow : M Z := fun w => (Returns (clock w), w).

(** [fs.existsSync(path)] *)
Definition existsSync (path : list string) : M bool :=
  fun w =>
    (Returns (bool_decide (is_Some (files w !! path))
              || bool_decide (path ∈ dirs w)), w).

(** [fs.readFileSync(path, 'utf8')] *)
Definition readFileSync (path : list string) : M string :=
  fun w =>
    match files w !! path with
    | Some text => (Returns text, w)
    | None => (Throws "ENOENT", w)
    end.

(** The path itself and the paths above it. *)
Definition ancestors (path : list string) : list (list string) :=
  List.map (fun n => take n path) (seq 1 (List.length path)).

(** [fs.mkdirSync(path, { recursive: true })] *)
Definition mkdirSync (path : list string) : M unit :=
  fun w =>
    if fsReadOnly env then (Throws "EACCES", w)
    else if existsb (fun p => bool_decide (is_Some (files w !! p))) (ancestors path)
    then (Throws "EEXIST", w)
    else
      (Returns tt,
       mkState (clock w) (files w) (dirs w ∪ list_to_set (ancestors path))
               (execCount w) (requestCount w) (trace w ++ [EvMkdir path])).

(** [fs.writeFileSync(path, content)] *)
Definition writeFileSync (path : list string) (content : string) : M unit :=
  fun w =>
    if fsReadOnly env then (Throws "EACCES", w)
    else if bool_decide (path ∈ dirs w) then (Throws "EISDIR", w)
    else if negb (bool_decide (removelast path ∈ dirs w)) then (Throws "ENOENT", w)
    else
      (Returns tt,
       mkState (clock w) (<[path := content]> (files w)) (dirs w)
               (execCount w) (requestCount w)
               (trace w ++ [EvWriteFile path content])).

(** [http.request(options, ...)] up to the first event of the request. *)
Definition httpRequest (options : RequestOptions) : M ProbeOutcome :=
  fun w =>
    (Returns (requestResult env (requestCount w) options),
     mkState (clock w) (files w) (dirs w) (execCount w) (S (requestCount w))
             (trace w ++ [EvRequest options])).

End WithEnv.
End Sys.

(** ** foundry-service.js *)

(** What [queryServiceFromCLI] resolves to. *)
Record QueryResult : Type := mkQuery {
  endpoint : JSValue;
  port : JSValue;
  isRunning : bool;
  raw : string
}.

(** What [startFoundryService] resolves to. *)
Record StartOutcome : Type := mkStart {
  started : bool;
  wasAlreadyRunning : bool;
  message : string
}.

(** What [discoverFoundryService] resolves to (the same field names as
    [QueryResult] in the source, without [raw]). *)
Module Discovery.
Record Result : Type := mk {
  endpoint : JSValue;
  port : JSValue;
  isRunning : bool
}.
End Discovery.

(** [parseInt(digits, 10)] on a string of decimal digits: the number the
    digits write, which is what JavaScript gives below 2^53. *)
Definition parseInt (ds : string) : Num.JSNumber := Num.ofN (Str.toN ds).

(** *** queryServiceFromCLI: reading the output of the status command *)

(** The inner [try] block: [Some] when one of its two [return]s is
    reached; [None] when JSON.parse, the first property read or a template
    literal throws (the inner [catch]) or when neither [port] nor [url] is
    truthy.  The template literals are the one that builds the endpoint
    from [port] and the one that logs [url]. *)
Definition parseStatusJson (stdout : string) : option QueryResult :=
  match JSON.parse stdout with
  | Throws _ => None
  | Returns jsonOutput =>
      match JS.getProp jsonOutput "port" with
      | Throws _ => None
      | Returns p =>
          if JS.truthyOpt p then
            match JS.toText (default JNull p) with
            | Throws _ => None
            | Returns portText =>
                Some (mkQuery
                        (JStr ("http://127.0.0.1:" +:+ portText))
                        (default JNull p)
                        (JS.isStr (JS.prop jsonOutput "status") "running"
                         || JS.isTrue (JS.prop jsonOutput "running"))
                        stdout)
            end
          else if JS.truthyOpt (JS.prop jsonOutput "url") then
            match JS.toText (default JNull (JS.prop jsonOutput "url")) with
            | Throws _ => None
            | Returns _logged =>
                Some (mkQuery (default JNull (JS.prop jsonOutput "url")) JNull
                              true stdout)
            end
          else None
      end
  end.

(** The three text scans that follow. *)
Definition parseStatusText (stdout : string) : QueryResult :=
  match Regex.search Regex.fullUrlRe stdout with
  | Some fullUrlMatch =>
      let fullUrl := Regex.matched fullUrlMatch in
      let port :=
        match Regex.search Regex.trailingPortRe fullUrl with
        | Some portMatch =>
            JNum (parseInt (default EmptyString (Regex.group1 portMatch)))
        | None => JNull
        end in
      mkQuery (JStr fullUrl) port true stdout
  | None =>
      let lastResort :=
        match Regex.search Regex.anyUrlRe stdout with
        | Some urlMatch => mkQuery (JStr (Regex.matched urlMatch)) JNull true stdout
        | None => mkQuery JNull JNull false stdout
        end in
      match Regex.search Regex.barePortRe stdout with
      | Some portMatch =>
          match Regex.group1 portMatch with
          | Some g =>
              if negb (Str.isEmpty g) then
                let port := parseInt g in
                mkQuery (JStr ("http://127.0.0.1:" +:+ Num.toString port))
                        (JNum port) true stdout
              else lastResort
          | None => lastResort
          end
      | None => lastResort
      end
  end.

Definition parseStatus (stdout : string) : QueryResult :=
  match parseStatusJson stdout with
  | Some r => r
  | None => parseStatusText stdout
  end.

Section Service.
Context `{URL.Platform}.
Variable env : Env.

Definition queryServiceFromCLI : M QueryResult :=
  tryCatch
    (stdout <- Sys.execAsync env "foundry service status" ;;
     ret (parseStatus stdout))
    (fun _ => ret (mkQuery JNull JNull false EmptyString)).

(** *** verifyEndpoint *)

Definition verifyEndpoint (url : JSValue) (timeout : option Z) : M bool :=
  let timeout := default 3000 timeout in
  tryCatch
    (parsedUrl <- lift (URL.new (JS.toString url)) ;;
     let path :=
       if negb (Str.isEmpty (URL.pathname parsedUrl))
          && negb (String.eqb (URL.pathname parsedUrl) "/")
       then URL.pathname parsedUrl
       else "/v1/models" in
     let options :=
       mkRequest (URL.hostname parsedUrl)
                 (if negb (Str.isEmpty (URL.port parsedUrl))
                  then JStr (URL.port parsedUrl) else JNum (Num.ofN 80))
                 path "GET" timeout in
     first <- Sys.httpRequest env options ;;
     match first with
     | Response _ => ret true
     | NetworkError _ => ret false
     | TimedOut => ret false
     | RequestThrew msg => throw msg
     end)
    (fun _ => ret false).

(** *** The endpoint cache *)

Definition getFoundryCacheDir : list string :=
  match platform env with
  | Win32 => default (homedir env) (appdata env) ++ ["Foundry"]
  | Darwin => homedir env ++ ["Library"; "Application Support"; "Foundry"]
  | OtherOS => homedir env ++ [".foundry"]
  end.

Definition cacheFile : list string :=
  getFoundryCacheDir ++ ["endpoint-cache.json"].

Definition dayMs : Z := 24 * 60 * 60 * 1000.

Definition readCachedEndpoint : M JSValue :=
  tryCatch
    (present <- Sys.existsSync cacheFile ;;
     if present : bool then
       text <- Sys.readFileSync cacheFile ;;
       data <- lift (JSON.parse text) ;;
       cachedEndpoint <- lift (JS.getProp data "endpoint") ;;
       timestamp <- lift (JS.getProp data "timestamp") ;;
       if JS.truthyOpt cachedEndpoint && JS.truthyOpt timestamp then
         now <- Sys.dateNow ;;
         let age := Num.sub (Num.ofZ now) (JS.toNumber (default JNull timestamp)) in
         if Num.ltb age (Num.ofZ dayMs)
         then
           _logged <- lift (JS.toText (default JNull cachedEndpoint)) ;;
           ret (default JNull cachedEndpoint)
         else ret JNull
       else ret JNull
     else ret JNull)
    (fun _ => ret JNull).

Definition cacheEndpoint (endpoint : JSValue) : M unit :=
  tryCatch
    (if negb (JS.truthy endpoint) then ret tt
     else
       present <- Sys.existsSync getFoundryCacheDir ;;
       (if present : bool then ret tt else Sys.mkdirSync env getFoundryCacheDir) ;;;
       now <- Sys.dateNow ;;
       Sys.writeFileSync env cacheFile
         (JSON.stringify
            (JObj [("endpoint", endpoint); ("timestamp", JNum (Num.ofZ now))]) 2))
    (fun _ => ret tt).

(** *** normalizeEndpoint *)

(** The [catch] branch: the textual fallback. *)
Definition normalizeFallback (endpoint : string) : string :=
  let endpoint := Regex.replace Regex.trailingSlashRe "" endpoint in
  let endpoint := Regex.replace Regex.pathRe "" endpoint in
  let endpoint :=
    if negb (Str.startsWith "http://" endpoint)
       && negb (Str.startsWith "https://" endpoint)
    then "http://" +:+ endpoint else endpoint in
  Regex.replace Regex.httpsPrefixRe "http:" endpoint.

(** A value that is not a string has no [replace] method: the fallback
    then throws out of the function. *)
Definition normalizeEndpoint (endpoint : JSValue) : Outcome JSValue :=
  if negb (JS.truthy endpoint) then Returns JNull else
  match URL.new (JS.toString endpoint) with
  | Returns url =>
      Returns
        (JStr (URL.protocol url +:+ "//" +:+ URL.hostname url
               +:+ (if negb (Str.isEmpty (URL.port url))
                    then ":" +:+ URL.port url else "")))
  | Throws _ =>
      match endpoint with
      | JStr text => Returns (JStr (normalizeFallback text))
      | _ => Throws "endpoint.replace is not a function"
      end
  end.

(** *** startFoundryService *)

Definition maxRetries : nat := 60.

(** [statusResult.isRunning && statusResult.endpoint] *)
Definition reportsRunning (r : QueryResult) : bool :=
  isRunning r && JS.truthy (endpoint r).

Definition timedOut : StartOutcome :=
  mkStart false false "Service start timeout - please check manually".

(** The [while (retryCount < maxRetries)] loop, by the number of attempts
    that are left ([maxRetries - retryCount]). *)
Fixpoint pollLoop (attemptsLeft : nat) : M StartOutcome :=
  match attemptsLeft with
  | O => ret timedOut
  | S k =>
      checkResult <- queryServiceFromCLI ;;
      if reportsRunning checkResult then
        ret (mkStart true false
               ("Service started on " +:+ JS.toString (endpoint checkResult)))
      else
        Sys.sleep 1000 ;;; pollLoop k
  end.

Definition startFoundryService : M StartOutcome :=
  tryCatch
    (statusResult <- queryServiceFromCLI ;;
     if reportsRunning statusResult then
       ret (mkStart false true
              ("Service already running on "
               +:+ JS.toString (endpoint statusResult)))
     else
       Sys.exec "foundry service start" ;;;
       Sys.sleep 2000 ;;;
       pollLoop maxRetries)
    (fun err => ret (mkStart false false ("Error: " +:+ err))).

(** *** discoverFoundryService *)

(** Steps 4 and 5: verify the endpoint of the status query, then cache it. *)
Definition verifyAndCache (cliResult : QueryResult) : M Discovery.Result :=
  isValid <- verifyEndpoint (endpoint cliResult) None ;;
  if negb isValid then
    ret (Discovery.mk (endpoint cliResult) (port cliResult) false)
  else
    cacheEndpoint (endpoint cliResult) ;;;
    ret (Discovery.mk (endpoint cliResult) (port cliResult) true).

(** The settle delay and step 3, then steps 4 and 5. *)
Definition queryVerifyCache : M Discovery.Result :=
  Sys.sleep 1000 ;;;
  cliResult <- queryServiceFromCLI ;;
  if negb (JS.truthy (endpoint cliResult)) then
    ret (Discovery.mk JNull (port cliResult) false)
  else verifyAndCache cliResult.

(** Step 2 and what follows it. *)
Definition discoverFromCLI : M Discovery.Result :=
  _started <- startFoundryService ;;
  queryVerifyCache.

Definition discoverFoundryService : M Discovery.Result :=
  cachedEndpoint <- readCachedEndpoint ;;
  if JS.truthy cachedEndpoint then
    isValid <- verifyEndpoint cachedEndpoint None ;;
    if isValid : bool then ret (Discovery.mk cachedEndpoint JNull true)
    else discoverFromCLI
  else discoverFromCLI.

End Service.

(** ** Vocabulary of the statements *)

Definition statusCmd : string := "foundry service status".
Definition launchCmd : string := "foundry service start".

Definition isLaunch (e : Event) : bool :=
  match e with EvExecDetached cmd => String.eqb cmd launchCmd | _ => false end.

Definition isFsWrite (e : Event) : bool :=
  match e with EvMkdir _ | EvWriteFile _ _ => true | _ => false end.

(** [w'] is reached from [w] by performing the events [evs]. *)
Definition performs (w w' : State) (evs : list Event) : Prop :=
  trace w' = trace w ++ evs.

(** A computation never throws. *)
Definition neverThrows {A : Type} (m : M A) : Prop :=
  forall w, exists a, fst (m w) = Returns a.

(** Every step of a computation relates the state before to the state after. *)
Definition steps (R : State -> State -> Prop) {A : Type} (m : M A) : Prop :=
  forall w, R w (snd (m w)).

(** Only events satisfying [ok] are performed. *)
Definition onlyEvents (ok : Event -> bool) (w w' : State) : Prop :=
  exists evs, performs w w' evs /\ forallb ok evs = true.

(** The file system is left as it was. *)
Definition sameFs (w w' : State) : Prop :=
  files w' = files w /\ dirs w' = dirs w.

Definition afterExec (cmd : string) (w : State) : State :=
  mkState (clock w) (files w) (dirs w) (S (execCount w)) (requestCount w)
          (trace w ++ [EvExecAwaited cmd]).

Definition afterRequest (options : RequestOptions) (w : State) : State :=
  mkState (clock w) (files w) (dirs w) (execCount w) (S (requestCount w))
          (trace w ++ [EvRequest options]).

Definition afterSleep (ms : Z) (w : State) : State :=
  mkState (clock w + ms) (files w) (dirs w) (execCount w) (requestCount w)
          (trace w ++ [EvSleep ms]).

(** The request that [verifyEndpoint] sends for a parsed URL. *)
Definition requestFor (u : URL.Loc) (timeout : option Z) : RequestOptions :=
  mkRequest (URL.hostname u)
            (if negb (Str.isEmpty (URL.port u))
             then JStr (URL.port u) else JNum (Num.ofN 80))
            (if negb (Str.isEmpty (URL.pathname u))
                && negb (String.eqb (URL.pathname u) "/")
             then URL.pathname u else "/v1/models")
            "GET" (default 3000 timeout).

Definition isResponse (o : ProbeOutcome) : bool :=
  match o with Response _ => true | _ => false end.

(** What [queryServiceFromCLI] resolves to when it is the n-th command
    awaited in the environment. *)
Definition queryOutcome (env : Env) (n : nat) : QueryResult :=
  match commandResult env n statusCmd with
  | ExecOk stdout => parseStatus stdout
  | ExecFailed _ => mkQuery JNull JNull false EmptyString
  end.

(** One round of the polling loop that does not see the service. *)
Definition pollRound : list Event := [EvExecAwaited statusCmd; EvSleep 1000].

Fixpoint pollRounds (n : nat) : list Event :=
  match n with O => [] | S k => pollRound ++ pollRounds k end.

(** The state after [n] such rounds. *)
Fixpoint afterRounds (n : nat) (w : State) : State :=
  match n with
  | O => w
  | S k => afterRounds k (afterSleep 1000 (afterExec statusCmd w))
  end.

(** The state after the first query, the launch and the grace delay. *)
Definition afterLaunch (w : State) : State :=
  afterSleep 2000 (emit (EvExecDetached launchCmd) (afterExec statusCmd w)).

(** [protocol//hostname[:port]] of a parsed URL. *)
Definition origin (u : URL.Loc) : string :=
  URL.protocol u +:+ "//" +:+ URL.hostname u
  +:+ (if negb (Str.isEmpty (URL.port u)) then ":" +:+ URL.port u else "").

(** The text written to the cache file for an endpoint at a time. *)
Definition cacheText (e : string) (T : Z) : string :=
  JSON.stringify (JObj [("endpoint", JStr e); ("timestamp", JNum (Num.ofZ T))]) 2.

(** Step 1 of [discoverFoundryService] as a computation of its own: is
    there a cached endpoint that answers the probe? *)
Definition cacheCheck `{URL.Platform} (env : Env) : M bool :=
  cachedEndpoint <- readCachedEndpoint env ;;
  if JS.truthy cachedEndpoint then verifyEndpoint env cachedEndpoint None
  else ret false.

Definition notLaunch (e : Event) : bool := negb (isLaunch e).
Definition notFsWrite (e : Event) : bool := negb (isFsWrite e).

(** Nothing is written and the file system is left as it was. *)
Definition readsOnly (w w' : State) : Prop :=
  sameFs w w' /\ onlyEvents notFsWrite w w'.

(** The digits of a positive number start with a digit other than 0. *)
Definition leadsNonZero (d : Decimal.uint) : Prop :=
  match d with Decimal.Nil | Decimal.D0 _ => False | _ => True end.

(** The cache file can be written: the file system is writable, no file
    stands where a directory of the cache path is needed, and no directory
    stands in the place of the cache file. *)
Definition cacheWritable (env : Env) (w : State) : bool :=
  negb (fsReadOnly env)
  && negb (existsb (fun p => bool_decide (is_Some (files w !! p)))
             (Sys.ancestors (getFoundryCacheDir env)))
  && negb (bool_decide (cacheFile env ∈ dirs w)).

(** The characters of a plain host name: letters, digits, hyphen, dot. *)
Definition isPlainHostChar (c : ascii) : bool :=
  Chars.isAlnum c || Ascii.eqb c "-" || Ascii.eqb c ".".

(** Neither a control character nor a space. *)
Definition isVisible (c : ascii) : bool := (32 <? Chars.code c)%N.


(** The integer that a number is, when it is one. *)
Definition integerValue (x : Num.JSNumber) : option Z :=
  match x with
  | Num.Dec neg m e =>
      if 0 <=? e then Some (Num.signed neg (m * 10 ^ Z.to_N e))
      else if (m mod 10 ^ Z.to_N (- e) =? 0)%N
           then Some (Num.signed neg (m / 10 ^ Z.to_N (- e)))
           else None
  | Num.NaN | Num.Infinity _ => None
  end.

(** An integer in decimal digits. *)
Definition decimalText (z : Z) : string :=
  (if z <? 0 then "-" else "") +:+ Str.ofN (Z.abs_N z).

(** Worlds on which the statements are tried. *)
Module Example.

Definition atStart : State := mkState 1700000000000 ∅ ∅ 0 0 [].

Definition runningJson : string := Str.q "{'port': 55329, 'status': 'running'}".

(** The status command always prints [runningJson]; every probe ends the
    given way. *)
Definition serviceUp (probe : ProbeOutcome) : Env :=
  mkEnv OtherOS ["home"; "user"] None false
        (fun _ _ => ExecOk runningJson) (fun _ _ => probe).

(** The status command fails 61 times -- the first query of
    [startFoundryService] and the 60 queries of its polling loop -- and
    prints [runningJson] from then on; every probe is answered. *)
Definition serviceLate : Env :=
  mkEnv OtherOS ["home"; "user"] None false
        (fun n _ => if (n <? 61)%nat then ExecFailed "foundry: not ready"
                    else ExecOk runningJson)
        (fun _ _ => Response 200).

(** The status command always fails. *)
Definition serviceDown : Env :=
  mkEnv OtherOS ["home"; "user"] None false
        (fun _ _ => ExecFailed "foundry: command not found")
        (fun _ _ => TimedOut).

(** A state that differs from [w] by its clock only. *)
Definition atTime (t : Z) (w : State) : State :=
  mkState t (files w) (dirs w) (execCount w) (requestCount w) (trace w).

End Example.

(** ** getAvailableModels *)

(** The [host] getter of a URL object: the host name and, when the URL has
    a port other than the default one of its scheme, a colon and the port. *)
Module Loc.

Definition host (u : URL.Loc) : string :=
  URL.hostname u
  +:+ (if negb (Str.isEmpty (URL.port u)) then ":" +:+ URL.port u else "").

End Loc.

(** An object written as an object literal: its properties in the order
    they are written, the value [undefined] being [None].  As for [JObj],
    reading a property takes its last binding. *)
Definition JSObject : Type := list (string * option JSValue).

Module Obj.

Fixpoint lookup (k : string) (o : JSObject) : option (option JSValue) :=
  match o with
  | [] => None
  | (k', v) :: o' =>
      match lookup k o' with
      | Some later => Some later
      | None => if String.eqb k k' then Some v else None
      end
  end.

(** [o.k]: [undefined] when the property is missing or holds [undefined]. *)
Definition get (k : string) (o : JSObject) : option JSValue :=
  match lookup k o with Some v => v | None => None end.

(** The own enumerable properties of a value, which [{...v}] copies: the
    members of an object, the elements of an array and the characters of a
    string under their indices, nothing for a number, a boolean or null. *)
Definition ownProps (v : JSValue) : list (string * JSValue) :=
  match v with
  | JObj l => l
  | JArr l => imap (fun i x => (Str.ofN (N.of_nat i), x)) l
  | JStr s =>
      imap (fun i c => (Str.ofN (N.of_nat i), JStr (String c EmptyString)))
           (list_ascii_of_string s)
  | JNull | JBool _ | JNum _ => []
  end.

(** [{...v}] *)
Definition spread (v : JSValue) : JSObject :=
  List.map (fun kv => (fst kv, Some (snd kv))) (ownProps v).

End Obj.

(** How a request of [getAvailableModels] goes on: the response callback
    with its data events and the end event; the response callback with data
    events and then the connection closed before the response is complete,
    which gives neither the end event nor the error event of the request;
    the error event of the request; its timeout event; or http.request
    itself throws.  A chunk is the text that [data += chunk] appends. *)
Inductive Exchange : Type :=
| Answered (status : Z) (chunks : list string)
| Aborted (status : Z) (chunks : list string)
| Errored (msg : string)
| Idle
| SendFailed (msg : string).

(** What a promise that is never rejected comes to: it is resolved with a
    value, or nothing ever settles it and whoever awaits it waits for
    ever. *)
Inductive Settled (A : Type) : Type :=
| Resolved (a : A)
| Pending.
Arguments Resolved {A} a.
Arguments Pending {A}.

(** [await m] followed by [k]: nothing follows a promise that stays
    pending. *)
Definition await {A B : Type} (m : M (Settled A)) (k : A -> M (Settled B))
  : M (Settled B) :=
  r <- m ;;
  match r with
  | Resolved a => k a
  | Pending => ret Pending
  end.

(** [array.map(f)] with a callback that may throw. *)
Fixpoint mapOutcome {A B : Type} (f : A -> Outcome B) (l : list A)
  : Outcome (list B) :=
  match l with
  | [] => Returns []
  | x :: l' =>
      match f x with
      | Throws err => Throws err
      | Returns y =>
          match mapOutcome f l' with
          | Throws err => Throws err
          | Returns ys => Returns (y :: ys)
          end
      end
  end.

(** The callback given to [models.map]: reading [model.id] throws on null. *)
Definition decorate (model : JSValue) : Outcome JSObject :=
  match JS.getProp model "id" with
  | Throws err => Throws err
  | Returns displayName =>
      Returns (Obj.spread model
               ++ [("alias", displayName); ("displayName", displayName);
                   ("status", Some (JStr "running"))])
  end.

(** The handler of the end event: what the promise is resolved with.  A
    value that is not an array has no callable [map]. *)
Definition onEnd (data : string) : list JSObject :=
  match JSON.parse data with
  | Throws _ => []
  | Returns json =>
      match JS.getProp json "data" with
      | Throws _ => []
      | Returns d =>
          match (if JS.truthyOpt d then default JNull d else JArr []) with
          | JArr models =>
              match mapOutcome decorate models with
              | Returns decorated => decorated
              | Throws _ => []
              end
          | _ => []
          end
      end
  end.

Section Models.
Context `{URL.Platform}.

(** How the n-th request ends when it is sent with these options and
    these headers. *)
Variable exchange : nat -> RequestOptions -> list (string * string) -> Exchange.

(** [http.request(options, ...)] with [options.headers], followed up to
    the event that settles the promise. *)
Definition httpExchange (options : RequestOptions)
    (headers : list (string * string)) : M Exchange :=
  fun w =>
    (Returns (exchange (requestCount w) options headers),
     mkState (clock w) (files w) (dirs w) (execCount w) (S (requestCount w))
             (trace w ++ [EvRequest options])).

(** The only handlers that resolve the promise are those of the end event
    of the response, of the error event and of the timeout event of the
    request, and the [catch]: a response that is cut short leaves it
    pending. *)
Definition getAvailableModels (endpoint : JSValue)
  : M (Settled (list JSObject)) :=
  tryCatch
    (if negb (JS.truthy endpoint) then ret (Resolved [])
     else
       match URL.new (JS.toString endpoint) with
       | Throws _ => ret (Resolved [])
       | Returns parsedUrl =>
           let baseUrl := URL.protocol parsedUrl +:+ "//" +:+ Loc.host parsedUrl in
           parsedUrl <- lift (URL.new baseUrl) ;;
           let options :=
             mkRequest (URL.hostname parsedUrl)
                       (if negb (Str.isEmpty (URL.port parsedUrl))
                        then JNum (parseInt (URL.port parsedUrl))
                        else JNum (Num.ofN 80))
                       "/v1/models" "GET" 5000 in
           outcome <- httpExchange options [("Accept", "application/json")] ;;
           match outcome with
           | Answered _ chunks =>
               ret (Resolved (onEnd (fold_left String.append chunks EmptyString)))
           | Aborted _ _ => ret Pending
           | Errored _ => ret (Resolved [])
           | Idle => ret (Resolved [])
           | SendFailed msg => throw msg
           end
       end)
    (fun _ => ret (Resolved [])).

End Models.

(** ** main.js: the cloud configuration file, the handlers of the Foundry
    endpoint and the initialization *)

Module Main.

(** [a || b] *)
Definition orElse (a b : JSValue) : JSValue := if JS.truthy a then a else b.

(** The variables [cloudApiKey], [cloudEndpoint] and [cloudModelName];
    [None] is [undefined]. *)
Record Cloud : Type := mkCloud {
  cloudApiKey : option JSValue;
  cloudEndpoint : option JSValue;
  cloudModelName : option JSValue
}.

(** What a handler answers: [{ success: true, message }] or
    [{ success: false, error }]. *)
Inductive Reply : Type :=
| Success (message : string)
| Failure (error : string).

(** The answer of test-foundry-connection:
    [{ success: true, message, endpoint, modelCount }] or
    [{ success: false, error }]. *)
Inductive TestReply : Type :=
| Connected (message : string) (endpoint : JSValue) (modelCount : nat)
| NotConnected (error : string).

(** The answer of get-local-models: [{ success: false, error, models: [] }],
    [{ success: true, models: [], warning }] or [{ success: true, models }]. *)
Inductive ModelsReply : Type :=
| Unavailable (error : string)
| NoModels (warning : string)
| Models (models : list JSObject).

(** The object sent on the channel foundry-init-status: [status],
    [message], [endpoint] and, when the status is ready, [models] and
    [modelCount]. *)
Record InitStatus : Type := mkInitStatus {
  status : string;
  statusMessage : string;
  statusEndpoint : JSValue;
  statusModels : option (list JSObject);
  statusModelCount : option nat
}.

Section WithEnv.
Context `{URL.Platform}.
Variable env : Env.
Variable exchange : nat -> RequestOptions -> list (string * string) -> Exchange.

(** *** The cloud configuration file *)

(** [fs.unlinkSync(path)].  The trace keeps the events of the discovery
    module; what unlinking does is seen in [files]. *)
Definition unlinkSync (path : list string) : M unit :=
  fun w =>
    if fsReadOnly env then (Throws "EACCES", w)
    else
      match files w !! path with
      | Some _ =>
          (Returns tt,
           mkState (clock w) (delete path (files w)) (dirs w) (execCount w)
                   (requestCount w) (trace w))
      | None =>
          (Throws (if bool_decide (path ∈ dirs w) then "EPERM" else "ENOENT"), w)
      end.

Definition loadCloudConfig (cloud : Cloud) : M (bool * Cloud) :=
  tryCatch
    (let configPath := homedir env ++ [".foundry-chat"; "cloud-config.json"] in
     present <- Sys.existsSync configPath ;;
     if present : bool then
       text <- Sys.readFileSync configPath ;;
       config <- lift (JSON.parse text) ;;
       apiKey <- lift (JS.getProp config "apiKey") ;;
       if JS.truthyOpt apiKey
          && JS.truthyOpt (JS.prop config "endpoint")
          && JS.truthyOpt (JS.prop config "modelName")
       then
         ret (true,
              mkCloud apiKey (JS.prop config "endpoint")
                      (JS.prop config "modelName"))
       else ret (false, cloud)
     else ret (false, cloud))
    (fun _ => ret (false, cloud)).

Definition saveCloudConfigToFile (config : JSValue) : M bool :=
  tryCatch
    (let configDir := homedir env ++ [".foundry-chat"] in
     present <- Sys.existsSync configDir ;;
     (if present : bool then ret tt else Sys.mkdirSync env configDir) ;;;
     let configPath := configDir ++ ["cloud-config.json"] in
     Sys.writeFileSync env configPath (JSON.stringify config 2) ;;;
     ret true)
    (fun _ => ret false).

Definition clearCloudConfigFile : M bool :=
  tryCatch
    (let configPath := homedir env ++ [".foundry-chat"; "cloud-config.json"] in
     present <- Sys.existsSync configPath ;;
     (if present : bool then unlinkSync configPath else ret tt) ;;;
     ret true)
    (fun _ => ret false).

(** The handler of get-cloud-config: [apiKey], [endpoint], [modelName]. *)
Definition getCloudConfig (cloud : Cloud) : JSValue * JSValue * JSValue :=
  let orEmpty (x : option JSValue) :=
    if JS.truthyOpt x then default JNull x else JStr EmptyString in
  (orEmpty (cloudApiKey cloud), orEmpty (cloudEndpoint cloud),
   orEmpty (cloudModelName cloud)).

(** The handler of save-cloud-config, with the cloud variables before and
    after. *)
Definition saveCloudConfig (cloud : Cloud) (config : JSValue)
  : M (Reply * Cloud) :=
  tryCatch
    (apiKey <- lift (JS.getProp config "apiKey") ;;
     if negb (JS.truthyOpt apiKey)
        || negb (JS.truthyOpt (JS.prop config "endpoint"))
        || negb (JS.truthyOpt (JS.prop config "modelName"))
     then ret (Failure "All fields are required", cloud)
     else
       saved <- saveCloudConfigToFile config ;;
       if saved : bool then
         ret (Success "Cloud configuration saved successfully",
              mkCloud apiKey (JS.prop config "endpoint")
                      (JS.prop config "modelName"))
       else ret (Failure "Failed to save configuration", cloud))
    (fun err => ret (Failure err, cloud)).

(** The handler of clear-cloud-config. *)
Definition clearCloudConfig (cloud : Cloud) : M (Reply * Cloud) :=
  tryCatch
    (cleared <- clearCloudConfigFile ;;
     if cleared : bool then
       ret (Success "Cloud configuration cleared successfully",
            mkCloud (Some JNull) (Some JNull) (Some JNull))
     else ret (Failure "Failed to clear configuration", cloud))
    (fun err => ret (Failure err, cloud)).

(** *** The handlers of the Foundry endpoint *)

(** The handler of set-foundry-endpoint, with the value of
    [customServiceEndpoint] before and after.  The variable is assigned
    before the endpoint is cached: the handler of the exception sees the
    value it has then. *)
Definition setFoundryEndpoint (customServiceEndpoint endpoint : JSValue)
  : M (Reply * JSValue) :=
  let failed (current : JSValue) (err : string) :=
    ret (Failure err, current) in
  tryCatch
    (if negb (JS.truthy endpoint) then
       ret (Success "Custom endpoint cleared", JNull)
     else
       normalized <- lift (normalizeEndpoint endpoint) ;;
       isValid <- verifyEndpoint env normalized None ;;
       if negb isValid then
         ret (Failure "Endpoint is not responding", customServiceEndpoint)
       else
         let customServiceEndpoint := normalized in
         tryCatch
           (cacheEndpoint env normalized ;;;
            ret (Success ("Connected to: " +:+ JS.toString normalized),
                 customServiceEndpoint))
           (failed customServiceEndpoint))
    (failed customServiceEndpoint).

(** The handler of test-foundry-connection: what it answers, if it
    does. *)
Definition testFoundryConnection
    (customServiceEndpoint foundryServiceEndpoint endpoint : JSValue)
  : M (Settled TestReply) :=
  tryCatch
    (let testEndpoint :=
       orElse (orElse endpoint customServiceEndpoint) foundryServiceEndpoint in
     if negb (JS.truthy testEndpoint) then
       ret (Resolved (NotConnected "No endpoint configured"))
     else
       isValid <- verifyEndpoint env testEndpoint None ;;
       if negb isValid then ret (Resolved (NotConnected "Connection failed"))
       else
         await (getAvailableModels exchange testEndpoint) (fun models =>
         ret (Resolved
                (Connected
                   ("Connected! " +:+ Str.ofN (N.of_nat (List.length models))
                    +:+ " model(s) available")
                   testEndpoint (List.length models)))))
    (fun err => ret (Resolved (NotConnected err))).

(** The handler of get-local-models: what it answers, if it does. *)
Definition getLocalModels (customServiceEndpoint foundryServiceEndpoint : JSValue)
  : M (Settled ModelsReply) :=
  tryCatch
    (let endpoint := orElse customServiceEndpoint foundryServiceEndpoint in
     if negb (JS.truthy endpoint) then
       ret (Resolved (Unavailable "Foundry service not available"))
     else
       await (getAvailableModels exchange endpoint) (fun models =>
       if (List.length models =? 0)%nat then
         ret (Resolved
                (NoModels
                   "No models available. Please check Foundry Local service."))
       else ret (Resolved (Models models))))
    (fun err => ret (Resolved (Unavailable err))).

(** *** initializeFoundryService *)

(** [mainWindow && !mainWindow.isDestroyed()] when a status is to be sent. *)
Variable windowAlive : bool.

(** [mainWindow.webContents.send('foundry-init-status', s)] under that
    guard: the list of the objects sent. *)
Definition notify (s : InitStatus) : list InitStatus :=
  if windowAlive then [s] else [].

(** [`${m.id}`]: a property that is missing reads undefined. *)
Definition idText (m : JSObject) : Outcome string :=
  match Obj.get "id" m with
  | Some v => JS.toText v
  | None => Returns "undefined"
  end.

(** [models.forEach((m, idx) => console.log(`... ${m.id}`))]: nothing is
    seen of it unless a template literal throws. *)
Definition logIds (models : list JSObject) : Outcome unit :=
  match mapOutcome idText models with
  | Returns _ => Returns tt
  | Throws err => Throws err
  end.

(** With the value of [foundryServiceEndpoint] before; returns the value
    the function returns, if it returns, the value of
    [foundryServiceEndpoint] after, and what was sent to the window.  The
    variable is assigned between the discovery and the listing of the
    models: the handler of the exception sees the value it has then.  Of
    the logging, the template literals of values that are not texts are
    kept: the endpoint, the port and the [id] of each model. *)
Definition initializeFoundryService (foundryServiceEndpoint : JSValue)
  : M (Settled bool * JSValue * list InitStatus) :=
  let failed (current : JSValue) (err : string) :=
    ret (Resolved false, current,
         notify (mkInitStatus "error" ("Initialization error: " +:+ err)
                              JNull None None)) in
  tryCatch
    (_startResult <- startFoundryService env ;;
     discoverResult <- discoverFoundryService env ;;
     if negb (JS.truthy (Discovery.endpoint discoverResult)) then
       ret (Resolved false, foundryServiceEndpoint,
            notify (mkInitStatus "failed"
                      "Failed to discover Foundry Local service" JNull None
                      None))
     else
       let foundryServiceEndpoint := Discovery.endpoint discoverResult in
       tryCatch
         (_logged <- lift (JS.toText foundryServiceEndpoint) ;;
          _logged <- lift (if JS.truthy (Discovery.port discoverResult)
                           then JS.toText (Discovery.port discoverResult)
                           else Returns EmptyString) ;;
          listing <- getAvailableModels exchange foundryServiceEndpoint ;;
          match listing with
          | Pending => ret (Pending, foundryServiceEndpoint, [])
          | Resolved models =>
              _logged <- lift (logIds models) ;;
              ret (Resolved true, foundryServiceEndpoint,
                   notify (mkInitStatus "ready" "Foundry Local service ready"
                             foundryServiceEndpoint (Some models)
                             (Some (List.length models))))
          end)
         (failed foundryServiceEndpoint))
    (failed foundryServiceEndpoint).

End WithEnv.
End Main.

(** ** Vocabulary of the statements on the models, the URLs and main.js *)

(** The request that [getAvailableModels] sends for the URL it parses
    again, and the headers it sends with it. *)
Definition modelsRequest (u : URL.Loc) : RequestOptions :=
  mkRequest (URL.hostname u)
            (if negb (Str.isEmpty (URL.port u))
             then JNum (parseInt (URL.port u)) else JNum (Num.ofN 80))
            "/v1/models" "GET" 5000.

Definition acceptJson : list (string * string) :=
  [("Accept", "application/json")].

(** The text of a body received in chunks. *)
Definition bodyText (chunks : list string) : string :=
  fold_left String.append chunks EmptyString.

(** The object that [getAvailableModels] makes of a model of the list. *)
Definition decorated (model : JSValue) : JSObject :=
  Obj.spread model
  ++ [("alias", JS.prop model "id"); ("displayName", JS.prop model "id");
      ("status", Some (JStr "running"))].

(** A service that answers the request for the models with two models, in
    two chunks -- and with the status code 404. *)
Module ExampleModels.

Definition body : list string :=
  [ Str.q "{'object': 'list', 'data': [{'id': 'phi-3-mini', 'alias': 'phi', ";
    Str.q "'status': 'stopped'}, {'id': 'qwen2.5', 'owned_by': 'me'}]}" ].

Definition items : list JSValue :=
  [ JObj [("id", JStr "phi-3-mini"); ("alias", JStr "phi");
          ("status", JStr "stopped")];
    JObj [("id", JStr "qwen2.5"); ("owned_by", JStr "me")] ].

Definition json : JSValue :=
  JObj [("object", JStr "list"); ("data", JArr items)].

Definition answers : nat -> RequestOptions -> list (string * string) -> Exchange :=
  fun _ _ _ => Answered 404 body.

Definition local : URL.Loc := URL.mkLoc "http:" "127.0.0.1" "55329" "/".

End ExampleModels.

(** The text of an authority made of a host and an optional port. *)
Definition authorityText (host : string) (portDigits : option string) : string :=
  host +:+ match portDigits with Some ds => String ":" ds | None => EmptyString end.

(** The [port] getter for the digits written in a URL of a scheme: empty
    when there are none or when they are the default port of the scheme. *)
Definition portGetter (scheme : string) (portDigits : option string) : string :=
  match portDigits with
  | None => EmptyString
  | Some ds =>
      if bool_decide (URL.defaultPort scheme = Some (Str.toN ds))
      then EmptyString else Str.ofN (Str.toN ds)
  end.

(** The digits of a port, if any: not empty, and at most 65535. *)
Definition isPortText (portDigits : option string) : bool :=
  match portDigits with
  | None => true
  | Some ds =>
      negb (Str.isEmpty ds) && Str.all Chars.isDigit ds
      && (Str.toN ds <=? 65535)%N
  end.

(** What may follow the authority of a URL: nothing, or a path, a query
    or a fragment, written without spaces or control characters. *)
Definition isUrlTail (rest : string) : bool :=
  Str.all isVisible rest
  && match rest with
     | String c _ => URL.isAuthorityEnd true c
     | EmptyString => true
     end.

(** The text of an http or https URL: scheme, host, optional port, and
    what follows. *)
Definition webUrl (scheme host : string) (portDigits : option string)
    (rest : string) : string :=
  scheme +:+ "://" +:+ authorityText host portDigits +:+ rest.

(** A plain host name that the host parser leaves as it is. *)
Definition isStableHost `{URL.Platform} (h : string) : Prop :=
  h <> EmptyString /\ Str.all isPlainHostChar h = true
  /\ URL.parseHost false h = Some h.

(** An object whose members are texts, as a form sends it. *)
Definition recordOf (fields : list (string * string)) : JSValue :=
  JObj (List.map (fun kv => (fst kv, JStr (snd kv))) fields).

(** A file [name] can be written in the directory [dir], created if need
    be: the file system is writable, no file stands where a directory of
    the path is needed, and no directory stands in the place of the file. *)
Definition writableIn (env : Env) (w : State) (dir : list string)
    (name : string) : bool :=
  negb (fsReadOnly env)
  && negb (existsb (fun p => bool_decide (is_Some (files w !! p)))
             (Sys.ancestors dir))
  && negb (bool_decide (dir ++ [name] ∈ dirs w)).

(** The path of the cloud configuration file. *)
Definition cloudConfigPath (env : Env) : list string :=
  homedir env ++ [".foundry-chat"; "cloud-config.json"].

(** Every file but the one at [path] is as it was. *)
Definition keepsOtherFiles (path : list string) (w w' : State) : Prop :=
  forall other, other <> path -> files w' !! other = files w !! other.

(** How many times the launch command is executed. *)
Definition launches (evs : list Event) : nat :=
  List.length (List.filter isLaunch evs).

(** * Properties *)

(** ** The effect monad *)

Lemma bind_returns {A B : Type} (m : M A) (k : A -> M B) w a w' :
  m w = (Returns a, w') -> bind m k w = k a w'.
Proof. intros E. unfold bind. now rewrite E. Qed.

Lemma bind_throws {A B : Type} (m : M A) (k : A -> M B) w err w' :
  m w = (Throws err, w') -> bind m k w = (Throws err, w').
Proof. intros E. unfold bind. now rewrite E. Qed.

Lemma tryCatch_returns {A : Type} (m : M A) h w a w' :
  m w = (Returns a, w') -> tryCatch m h w = (Returns a, w').
Proof. intros E. unfold tryCatch. now rewrite E. Qed.

Lemma tryCatch_throws {A : Type} (m : M A) h w err w' :
  m w = (Throws err, w') -> tryCatch m h w = h err w'.
Proof. intros E. unfold tryCatch. now rewrite E. Qed.

Section Preorder.
Variable R : State -> State -> Prop.
Hypothesis R_refl : forall w, R w w.
Hypothesis R_trans : forall a b c, R a b -> R b c -> R a c.

Lemma steps_ret {A : Type} (a : A) : steps R (ret a).
Proof. intros w. apply R_refl. Qed.

Lemma steps_throw {A : Type} err : steps R (@throw A err).
Proof. intros w. apply R_refl. Qed.

Lemma steps_lift {A : Type} (o : Outcome A) : steps R (lift o).
Proof. intros w. apply R_refl. Qed.

Lemma steps_bind {A B : Type} (m : M A) (k : A -> M B) :
  steps R m -> (forall a, steps R (k a)) -> steps R (bind m k).
Proof.
  intros Hm Hk w. unfold bind. specialize (Hm w).
  destruct (m w) as [[a|err] w']; simpl in *; [|exact Hm].
  eapply R_trans; [exact Hm | apply Hk].
Qed.

Lemma steps_tryCatch {A : Type} (m : M A) h :
  steps R m -> (forall err, steps R (h err)) -> steps R (tryCatch m h).
Proof.
  intros Hm Hh w. unfold tryCatch. specialize (Hm w).
  destruct (m w) as [[a|err] w']; simpl in *; [exact Hm|].
  eapply R_trans; [exact Hm | apply Hh].
Qed.

End Preorder.

Lemma onlyEvents_refl ok w : onlyEvents ok w w.
Proof. exists []. split; [unfold performs; now rewrite app_nil_r | reflexivity]. Qed.

Lemma onlyEvents_trans ok a b c :
  onlyEvents ok a b -> onlyEvents ok b c -> onlyEvents ok a c.
Proof.
  intros (e1 & P1 & F1) (e2 & P2 & F2). exists (e1 ++ e2). split.
  - unfold performs in *. now rewrite P2, P1, app_assoc.
  - rewrite forallb_app, F1, F2. reflexivity.
Qed.

Lemma onlyEvents_one ok w w' e :
  trace w' = trace w ++ [e] -> ok e = true -> onlyEvents ok w w'.
Proof. intros T E. exists [e]. split; [exact T | simpl; now rewrite E]. Qed.

Lemma sameFs_refl w : sameFs w w.
Proof. split; reflexivity. Qed.

Lemma sameFs_trans a b c : sameFs a b -> sameFs b c -> sameFs a c.
Proof. intros [F1 D1] [F2 D2]. split; congruence. Qed.

Lemma neverThrows_tryCatch {A : Type} (m : M A) h :
  (forall err, neverThrows (h err)) -> neverThrows (tryCatch m h).
Proof.
  intros Hh w. unfold tryCatch.
  destruct (m w) as [[a|err] w']; [exists a; reflexivity | apply Hh].
Qed.

Lemma neverThrows_ret {A : Type} (a : A) : neverThrows (ret a).
Proof. intros w. exists a. reflexivity. Qed.

Lemma neverThrows_bind {A B : Type} (m : M A) (k : A -> M B) :
  neverThrows m -> (forall a, neverThrows (k a)) -> neverThrows (bind m k).
Proof.
  intros Hm Hk w. unfold bind. destruct (Hm w) as [a Ha].
  destruct (m w) as [[a'|err] w']; simpl in Ha; [|discriminate].
  apply Hk.
Qed.

(** ** Strings *)

#[local] Arguments String.append !_ _ /.

Lemma append_nil_r s : s +:+ "" = s.
Proof. induction s as [|c s IH]; cbn; [reflexivity | now rewrite IH]. Qed.

Lemma append_assoc (a b c : string) : (a +:+ b) +:+ c = a +:+ (b +:+ c).
Proof. induction a as [|x a IH]; cbn; [reflexivity | now rewrite IH]. Qed.

Lemma length_append (a b : string) :
  String.length (a +:+ b) = (String.length a + String.length b)%nat.
Proof. induction a as [|c a IH]; cbn; [reflexivity | now rewrite IH]. Qed.

Lemma span_all p s rest :
  Str.all p s = true ->
  match rest with String c _ => p c = false | EmptyString => True end ->
  Str.span p (s +:+ rest) = (s, rest).
Proof.
  intros Hall Hrest. unfold Str.span.
  assert (E : Str.run p (s +:+ rest) = String.length s).
  { induction s as [|c s IH]; cbn in *.
    - destruct rest as [|c r]; cbn; [reflexivity | now rewrite Hrest].
    - apply andb_true_iff in Hall as [Hc Hs]. rewrite Hc. f_equal. now apply IH. }
  rewrite E. clear. induction s as [|c s IH]; cbn.
  - destruct rest; reflexivity.
  - injection IH as E1 E2. now rewrite E1, E2.
Qed.

Lemma all_append p (a b : string) :
  Str.all p (a +:+ b) = Str.all p a && Str.all p b.
Proof.
  induction a as [|c a IH]; cbn; [reflexivity|].
  now rewrite IH, andb_assoc.
Qed.

Lemma all_impl (p q : ascii -> bool) s :
  (forall c, p c = true -> q c = true) -> Str.all p s = true -> Str.all q s = true.
Proof.
  intros Hpq. induction s as [|c s IH]; cbn; [reflexivity|].
  intros H. apply andb_true_iff in H as [Hc Hs].
  now rewrite (Hpq c Hc), IH.
Qed.

Lemma filter_all p s : Str.all p s = true -> Str.filter p s = s.
Proof.
  induction s as [|c s IH]; cbn; [reflexivity|].
  intros H. apply andb_true_iff in H as [Hc Hs]. now rewrite Hc, IH.
Qed.

Lemma dropWhileEnd_none p s :
  Str.all (fun c => negb (p c)) s = true -> Str.dropWhileEnd p s = s.
Proof.
  induction s as [|c s IH]; cbn; [reflexivity|].
  intros H. apply andb_true_iff in H as [Hc Hs]. rewrite IH by exact Hs.
  apply negb_true_iff in Hc. rewrite Hc, andb_false_r. reflexivity.
Qed.

Lemma dropWhile_head p c s : p c = false -> Str.dropWhile p (String c s) = String c s.
Proof. intros H. cbn. now rewrite H. Qed.

Lemma splitOn_none p s :
  Str.all (fun c => negb (p c)) s = true -> Str.splitOn p s = [s].
Proof.
  induction s as [|c s IH]; cbn; [reflexivity|].
  intros H. apply andb_true_iff in H as [Hc Hs].
  apply negb_true_iff in Hc. now rewrite Hc, IH.
Qed.

Lemma length_dropWhile p s :
  (String.length (Str.dropWhile p s) <= String.length s)%nat.
Proof.
  induction s as [|c s IH]; cbn; [lia|]. destruct (p c); cbn; lia.
Qed.

Lemma length_drop n s :
  String.length (Str.drop n s) = (String.length s - n)%nat.
Proof.
  revert s. induction n as [|n IH]; intros [|c s]; cbn; try lia. apply IH.
Qed.

Lemma run_le p s : (Str.run p s <= String.length s)%nat.
Proof. induction s as [|c s IH]; cbn; [lia|]. destruct (p c); lia. Qed.

Lemma take_empty n s : Str.isEmpty (Str.take n s) = false -> (0 < n)%nat.
Proof. destruct n; [destruct s; discriminate | lia]. Qed.

Lemma span_length p s a b :
  Str.span p s = (a, b) ->
  (String.length b <= String.length s)%nat
  /\ (Str.isEmpty a = false -> (String.length b < String.length s)%nat).
Proof.
  unfold Str.span. intros E. injection E as <- <-.
  rewrite length_drop. pose proof (run_le p s). split; [lia|].
  intros Ha. apply take_empty in Ha. lia.
Qed.

(** ** Decimal digits *)

Lemma string_of_uint_digits d :
  Str.all Chars.isDigit (NilEmpty.string_of_uint d) = true.
Proof. induction d; cbn; auto. Qed.

Lemma string_of_uint_length d :
  N.of_nat (String.length (NilEmpty.string_of_uint d))
  = DecimalPos.Unsigned.usize d.
Proof.
  induction d; cbn [NilEmpty.string_of_uint String.length DecimalPos.Unsigned.usize];
    rewrite ?Nat2N.inj_succ, ?IHd; reflexivity.
Qed.

Lemma to_uint_leadsNonZero p : leadsNonZero (Pos.to_uint p).
Proof.
  pose proof (DecimalPos.Unsigned.to_of (Pos.to_uint p)) as E.
  rewrite DecimalPos.Unsigned.of_to in E. cbn [N.to_uint] in E.
  pose proof (DecimalPos.Unsigned.to_uint_nonzero p) as Hnz.
  pose proof (DecimalPos.Unsigned.to_uint_nonnil p) as Hnn.
  destruct (Pos.to_uint p) as [|d'| | | | | | | | |]; cbn; auto.
  rewrite DecimalFacts.unorm_D0 in E. unfold Decimal.unorm in E.
  destruct (Decimal.nzhead d') eqn:Hh.
  all: try discriminate.
  - injection E as ->. now apply Hnz.
  - rewrite <- Hh in E. symmetry in E. now apply DecimalFacts.nzhead_nonzero in E.
Qed.

Lemma of_uint_lower d :
  leadsNonZero d ->
  (10 ^ (DecimalPos.Unsigned.usize d - 1) <= N.of_uint d)%N.
Proof.
  destruct d as [|l|l|l|l|l|l|l|l|l|l]; cbn [leadsNonZero]; try contradiction;
    intros _; cbn [N.of_uint Pos.of_uint DecimalPos.Unsigned.usize];
    rewrite DecimalPos.Unsigned.of_uint_acc_rev;
    replace (N.succ (DecimalPos.Unsigned.usize l) - 1)%N
      with (DecimalPos.Unsigned.usize l) by lia;
    nia.
Qed.

Lemma ofN_length m :
  (0 < m < 10 ^ 21)%N -> (String.length (Str.ofN m) <= 21)%nat.
Proof.
  intros [Hpos Hlt]. unfold Str.ofN.
  destruct m as [|p]; [lia|]. cbn [N.to_uint].
  pose proof (of_uint_lower _ (to_uint_leadsNonZero p)) as Hlow.
  change (N.of_uint (Pos.to_uint p)) with (Pos.of_uint (Pos.to_uint p)) in Hlow.
  rewrite DecimalPos.Unsigned.of_to in Hlow.
  rewrite <- string_of_uint_length in Hlow.
  set (len := String.length _) in *.
  destruct (Nat.le_gt_cases len 21) as [|Hbig]; [assumption|exfalso].
  assert (10 ^ 21 <= 10 ^ (N.of_nat len - 1))%N by (apply N.pow_le_mono_r; lia).
  lia.
Qed.

Lemma toN_ofN m : Str.toN (Str.ofN m) = m.
Proof.
  unfold Str.toN, Str.ofN. rewrite NilEmpty.usu.
  apply DecimalN.Unsigned.of_to.
Qed.

Lemma ofN_digits m : Str.all Chars.isDigit (Str.ofN m) = true.
Proof. apply string_of_uint_digits. Qed.

Lemma ofN_head m :
  (0 < m)%N ->
  exists c r, Str.ofN m = String c r
    /\ Chars.isDigit c = true /\ Ascii.eqb c "0" = false.
Proof.
  intros Hpos. destruct m as [|p]; [lia|]. unfold Str.ofN. cbn [N.to_uint].
  pose proof (to_uint_leadsNonZero p) as Hl.
  destruct (Pos.to_uint p); cbn [leadsNonZero] in Hl; try contradiction;
    cbn [NilEmpty.string_of_uint]; eexists _, _; repeat split; reflexivity.
Qed.

(** ** Printing and reading numbers *)

Lemma stripZeros_spec s :
  s = fst (Num.stripZeros s) +:+ Str.repeat "0" (snd (Num.stripZeros s))
  /\ String.length s
     = (String.length (fst (Num.stripZeros s)) + snd (Num.stripZeros s))%nat.
Proof.
  induction s as [|c s [IH1 IH2]]; cbn [Num.stripZeros]; [split; reflexivity|].
  destruct (Num.stripZeros s) as [r z]. cbn [fst snd] in *.
  destruct (Str.isEmpty r && Ascii.eqb c "0") eqn:E; cbn [fst snd].
  - apply andb_true_iff in E as [Er Ec]. apply Ascii.eqb_eq in Ec. subst c.
    destruct r; [|discriminate]. cbn in *. split; congruence.
  - cbn. split; congruence.
Qed.

(** An integer below 10^21 prints as its decimal digits. *)
Lemma toString_integer m :
  (0 < m < 10 ^ 21)%N -> Num.toString (Num.Dec false m 0) = Str.ofN m.
Proof.
  intros Hm. unfold Num.toString.
  destruct (N.eqb_spec m 0) as [->|_]; [lia|].
  pose proof (stripZeros_spec (Str.ofN m)) as [Hs Hl].
  pose proof (ofN_length m Hm) as Hlen.
  destruct (Num.stripZeros (Str.ofN m)) as [s z]. cbn [fst snd] in *.
  set (k := Z.of_nat (String.length s)).
  assert (Hk : (k <=? k + Z.of_nat z + 0) && (k + Z.of_nat z + 0 <=? 21) = true).
  { apply andb_true_iff. split; apply Z.leb_le; lia. }
  rewrite Hk. cbn [String.append].
  replace (Z.to_nat (k + Z.of_nat z + 0 - k)) with z by lia.
  now rewrite <- Hs.
Qed.

Lemma string_of_revapp (l acc : Decimal.uint) :
  NilEmpty.string_of_uint (Decimal.revapp l acc)
  = NilEmpty.string_of_uint (Decimal.revapp l Decimal.Nil)
    +:+ NilEmpty.string_of_uint acc.
Proof.
  revert acc.
  induction l as [|l IH|l IH|l IH|l IH|l IH|l IH|l IH|l IH|l IH|l IH];
    intros acc; cbn [Decimal.revapp]; [reflexivity|..];
    rewrite IH; symmetry; rewrite IH; rewrite append_assoc; reflexivity.
Qed.

Lemma ofN_tenfold (m : N) : (0 < m)%N -> Str.ofN (10 * m) = Str.ofN m +:+ "0".
Proof.
  intros Hm. destruct m as [|p]; [lia|].
  pose proof (DecimalPos.Unsigned.to_ldec_tenfold p) as E.
  unfold Str.ofN.
  change (10 * N.pos p)%N with (N.pos (10 * p)) in *.
  cbn [N.to_uint]. unfold Pos.to_uint, Decimal.rev.
  unfold DecimalPos.Unsigned.to_lu in E. rewrite E. cbn [Decimal.revapp].
  now rewrite string_of_revapp.
Qed.

Lemma repeat_snoc (c : ascii) (n : nat) :
  Str.repeat c (S n) = Str.repeat c n +:+ String c EmptyString.
Proof. induction n as [|n IH]; [reflexivity|]. cbn in *. now rewrite <- IH. Qed.

Lemma repeat_add (c : ascii) (a b : nat) :
  Str.repeat c (a + b) = Str.repeat c a +:+ Str.repeat c b.
Proof. induction a as [|a IH]; [reflexivity|]. cbn. now rewrite IH. Qed.

Lemma ofN_shift (m : N) (j : nat) :
  (0 < m)%N ->
  Str.ofN (m * 10 ^ N.of_nat j) = Str.ofN m +:+ Str.repeat "0" j.
Proof.
  intros Hm. induction j as [|j IH].
  - cbn [N.of_nat N.pow Str.repeat]. now rewrite N.mul_1_r, append_nil_r.
  - rewrite Nat2N.inj_succ, N.pow_succ_r'.
    replace (m * (10 * 10 ^ N.of_nat j))%N with (10 * (m * 10 ^ N.of_nat j))%N
      by lia.
    rewrite ofN_tenfold by nia.
    rewrite IH, repeat_snoc, append_assoc. reflexivity.
Qed.

Lemma stripZeros_zero (a : string) :
  Num.stripZeros (a +:+ "0")
  = (fst (Num.stripZeros a), S (snd (Num.stripZeros a))).
Proof.
  induction a as [|c a IH]; [reflexivity|].
  change (String c a +:+ "0") with (String c (a +:+ "0")).
  cbn [Num.stripZeros]. rewrite IH.
  destruct (Num.stripZeros a) as [r z]. cbn [fst snd].
  destruct (Str.isEmpty r && Ascii.eqb c "0"); reflexivity.
Qed.

Lemma stripZeros_zeros (a : string) (j : nat) :
  Num.stripZeros (a +:+ Str.repeat "0" j)
  = (fst (Num.stripZeros a), (snd (Num.stripZeros a) + j)%nat).
Proof.
  induction j as [|j IH].
  - cbn [Str.repeat]. rewrite append_nil_r, Nat.add_0_r.
    now destruct (Num.stripZeros a).
  - rewrite repeat_snoc, <- append_assoc, stripZeros_zero, IH. cbn [fst snd].
    f_equal. lia.
Qed.

(** A number that is an integer other than zero, below 10^21 in absolute
    value, prints as that integer in decimal digits. *)
Lemma toString_integerValue (x : Num.JSNumber) (z : Z) :
  integerValue x = Some z ->
  z <> 0 ->
  Z.abs z < 10 ^ 21 ->
  Num.truthy x = true /\ Num.toString x = decimalText z.
Proof.
  destruct x as [|neg|neg m e]; try discriminate.
  cbn [integerValue Num.truthy].
  assert (Hprint : forall (v : N) (j : nat),
            (0 < v < 10 ^ 21)%N ->
            e = - Z.of_nat j \/ (j = 0%nat /\ 0 <= e) ->
            forall i : nat,
              Z.of_nat i = Z.of_nat j + e ->
              m = (v * 10 ^ N.of_nat j)%N ->
              (v * 10 ^ N.of_nat i < 10 ^ 21)%N ->
              Num.toString (Num.Dec neg m e)
              = (if neg then "-" else "")
                +:+ Str.ofN (v * 10 ^ N.of_nat i)).
  { intros v j Hv _ i Hi -> Hbound. unfold Num.toString.
    assert (Hpj : (0 < 10 ^ N.of_nat j)%N)
      by (apply N.neq_0_lt_0, N.pow_nonzero; lia).
    assert (Hpi : (0 < 10 ^ N.of_nat i)%N)
      by (apply N.neq_0_lt_0, N.pow_nonzero; lia).
    assert (Hpos : (0 < v * 10 ^ N.of_nat j)%N) by nia.
    destruct (N.eqb_spec (v * 10 ^ N.of_nat j) 0) as [E|_]; [lia|].
    rewrite (ofN_shift v j) by lia. rewrite stripZeros_zeros.
    pose proof (stripZeros_spec (Str.ofN v)) as [Hs Hl].
    destruct (Num.stripZeros (Str.ofN v)) as [s zc]. cbn [fst snd] in *.
    assert (Hlen : (String.length (Str.ofN (v * 10 ^ N.of_nat i)) <= 21)%nat)
      by (apply ofN_length; split; [nia | exact Hbound]).
    rewrite (ofN_shift v i) in * by lia.
    rewrite length_append in Hlen.
    assert (Hrep : forall n, String.length (Str.repeat "0" n) = n)
      by (induction n; cbn; congruence).
    rewrite Hrep in Hlen.
    set (k := Z.of_nat (String.length s)).
    set (n := k + Z.of_nat (zc + j) + e).
    assert (Hn : n = k + Z.of_nat zc + Z.of_nat i) by (unfold n; lia).
    assert (Hk : (k <=? n) && (n <=? 21) = true).
    { apply andb_true_iff. split; apply Z.leb_le; lia. }
    rewrite Hk. f_equal.
    replace (Z.to_nat (n - k)) with (zc + i)%nat by lia.
    rewrite repeat_add, <- append_assoc, <- Hs. reflexivity. }
  destruct (Z.leb_spec 0 e) as [He|He].
  - intros E Hz Hb. injection E as <-.
    assert (Hm : (0 < m)%N).
    { destruct (N.eq_0_gt_0_cases m) as [->|]; [|assumption].
      exfalso. apply Hz. destruct neg; reflexivity. }
    assert (Hv : (m * 10 ^ Z.to_N e < 10 ^ 21)%N).
    { unfold Num.signed in Hb. destruct neg; lia. }
    split; [destruct m; [lia | reflexivity]|].
    rewrite (Hprint m 0%nat) with (i := Z.to_nat e).
    + unfold decimalText, Num.signed. rewrite Z_nat_N.
      destruct neg.
      * replace (- Z.of_N (m * 10 ^ Z.to_N e) <? 0) with true
          by (symmetry; apply Z.ltb_lt; nia).
        f_equal. f_equal. lia.
      * replace (Z.of_N (m * 10 ^ Z.to_N e) <? 0) with false
          by (symmetry; apply Z.ltb_ge; lia).
        f_equal. f_equal. lia.
    + split; [exact Hm|].
      assert (1 <= 10 ^ Z.to_N e)%N by (apply N.pow_lower_bound; lia). nia.
    + right. split; [reflexivity | exact He].
    + lia.
    + cbn [N.of_nat N.pow]. lia.
    + now rewrite Z_nat_N.
  - destruct (N.eqb_spec (m mod 10 ^ Z.to_N (- e)) 0) as [Hdiv|]; [|discriminate].
    intros E Hz Hb. injection E as <-.
    set (p := (10 ^ Z.to_N (- e))%N) in *.
    assert (Hp : (0 < p)%N) by (unfold p; apply N.neq_0_lt_0, N.pow_nonzero; lia).
    set (v := (m / p)%N) in *.
    assert (Em : m = (v * p)%N).
    { unfold v. rewrite N.mul_comm. apply N.Div0.div_exact. exact Hdiv. }
    assert (Hvpos : (0 < v)%N).
    { destruct (N.eq_0_gt_0_cases v) as [E0|]; [|assumption].
      exfalso. apply Hz. rewrite E0. destruct neg; reflexivity. }
    assert (Hv : (v < 10 ^ 21)%N).
    { unfold Num.signed in Hb. destruct neg; lia. }
    split; [destruct m; [lia | reflexivity]|].
    rewrite (Hprint v (Z.to_nat (- e))) with (i := 0%nat).
    + cbn [N.of_nat N.pow]. rewrite N.mul_1_r.
      unfold decimalText, Num.signed. destruct neg.
      * replace (- Z.of_N v <? 0) with true by (symmetry; apply Z.ltb_lt; lia).
        f_equal. f_equal. lia.
      * replace (Z.of_N v <? 0) with false by (symmetry; apply Z.ltb_ge; lia).
        f_equal. f_equal. lia.
    + split; assumption.
    + left. lia.
    + lia.
    + rewrite Em. unfold p. f_equal. f_equal. lia.
    + cbn [N.of_nat N.pow]. lia.
Qed.

Lemma parseNumber_integer m rest :
  (0 < m)%N ->
  match rest with
  | String c _ =>
      Chars.isDigit c = false /\ Ascii.eqb c "." = false
      /\ Chars.isCI "e" c = false
  | EmptyString => True
  end ->
  JSON.parseNumber (Str.ofN m +:+ rest) = Some (Num.Dec false m 0, rest).
Proof.
  intros Hm Hrest. destruct (ofN_head m Hm) as (c & r & E & Hd & H0).
  pose proof (ofN_digits m) as Hall.
  assert (Hspan : Str.span Chars.isDigit (Str.ofN m +:+ rest) = (Str.ofN m, rest)).
  { apply span_all; [exact Hall|]. destruct rest; [exact I | apply Hrest]. }
  unfold JSON.parseNumber. rewrite E in *. cbn [String.append].
  assert (Hminus : Ascii.eqb c "-" = false).
  { destruct (Ascii.eqb_spec c "-") as [->|]; [discriminate | reflexivity]. }
  change (String c r +:+ rest) with (String c (r +:+ rest)) in Hspan.
  assert (Step1 :
    (match String c (r +:+ rest) with
     | String "-" r0 => (true, r0)
     | _ => (false, String c (r +:+ rest))
     end) = (false, String c (r +:+ rest))).
  { destruct (Ascii.eqb_spec c "-") as [->|Hne]; [discriminate|].
    destruct c as [[] [] [] [] [] [] [] []]; try reflexivity. now elim Hne. }
  rewrite Step1.
  assert (Step2 :
    (match String c (r +:+ rest) with
     | String "0" r0 => ("0", r0)
     | _ => Str.span Chars.isDigit (String c (r +:+ rest))
     end) = (String c r, rest)).
  { rewrite <- Hspan.
    destruct c as [[] [] [] [] [] [] [] []]; try reflexivity. discriminate. }
  rewrite Step2. cbn [Str.isEmpty].
  assert (Step3 :
    (match rest with
     | String "." r0 =>
         let '(fp, r2) := Str.span Chars.isDigit r0 in
         if Str.isEmpty fp then None else Some (fp, r2)
     | _ => Some (EmptyString, rest)
     end) = Some (EmptyString, rest)).
  { destruct rest as [|x rest']; [reflexivity|]. destruct Hrest as (_ & Hdot & _).
    destruct x as [[] [] [] [] [] [] [] []]; try reflexivity. discriminate. }
  rewrite Step3.
  assert (Step4 :
    (match rest with
     | String c0 r0 =>
         if Chars.isCI "e" c0 then
           let '(sg, r3) :=
             match r0 with
             | String "+" r' => (1, r')
             | String "-" r' => (-1, r')
             | _ => (1, r0)
             end in
           let '(ds, r4) := Str.span Chars.isDigit r3 in
           if Str.isEmpty ds then None
           else Some (sg * Z.of_N (Str.toN ds), r4)
         else Some (0, rest)
     | EmptyString => Some (0, rest)
     end) = Some (0, rest)).
  { destruct rest as [|x rest']; [reflexivity|]. destruct Hrest as (_ & _ & He).
    now rewrite He. }
  rewrite Step4. rewrite append_nil_r, <- E, toN_ofN. reflexivity.
Qed.

(** ** Arithmetic on whole numbers *)

Lemma signed_ofZ z : Num.signed (z <? 0) (Z.abs_N z) = z.
Proof. unfold Num.signed. destruct (Z.ltb_spec z 0); lia. Qed.

Lemma sub_ofZ a b : Num.sub (Num.ofZ a) (Num.ofZ b) = Num.ofZ (a - b).
Proof.
  unfold Num.sub, Num.ofZ, Num.align. rewrite !signed_ofZ.
  cbn [Z.min Z.compare Z.sub Z.opp Z.add Z.pow Z.pow_pos Pos.iter].
  rewrite !Z.mul_1_r. reflexivity.
Qed.

Lemma ltb_ofZ a b : Num.ltb (Num.ofZ a) (Num.ofZ b) = (a <? b).
Proof.
  unfold Num.ltb, Num.ofZ, Num.align. rewrite !signed_ofZ.
  cbn [Z.min Z.compare Z.sub Z.opp Z.add Z.pow Z.pow_pos Pos.iter].
  rewrite !Z.mul_1_r. reflexivity.
Qed.

(** ** JSON.parse never runs out of fuel *)

Lemma parseStringBody_length n : forall s x r,
  (String.length s <= n)%nat ->
  JSON.parseStringBody s = Some (x, r) ->
  (String.length r < String.length s)%nat.
Proof.
  induction n as [|n IH]; intros s x r Hn E.
  - destruct s; [discriminate | cbn in Hn; lia].
  - destruct s as [|c s]; [discriminate|]. cbn [JSON.parseStringBody] in E.
    cbn [String.length] in *.
    assert (Hrec : forall ch t, (String.length t <= n)%nat ->
              JSON.consTo ch (JSON.parseStringBody t) = Some (x, r) ->
              (String.length r < String.length t)%nat).
    { intros ch t Ht Ec. unfold JSON.consTo in Ec.
      destruct (JSON.parseStringBody t) as [[x' r']|] eqn:Et; [|discriminate].
      injection Ec as _ <-. eapply IH; eassumption. }
    destruct (Ascii.eqb c JSON.dquote).
    { injection E as _ <-. lia. }
    destruct (Ascii.eqb c "\").
    + destruct s as [|e s]; [discriminate|]. cbn [String.length] in *.
      destruct (Ascii.eqb e "u").
      * destruct s as [|h1 [|h2 [|h3 [|h4 s]]]]; try discriminate.
        cbn [String.length] in *.
        destruct (JSON.hex4 h1 h2 h3 h4) as [k|]; [|discriminate].
        destruct (k <? 256)%N; [|discriminate].
        apply Hrec in E; lia.
      * destruct (JSON.unescape e); [|discriminate]. apply Hrec in E; lia.
    + destruct (Chars.code c <? 32)%N; [discriminate|]. apply Hrec in E; lia.
Qed.

Lemma parseNumber_length s x r :
  JSON.parseNumber s = Some (x, r) ->
  (String.length r < String.length s)%nat.
Proof.
  unfold JSON.parseNumber.
  destruct (match s with String "-" r0 => (true, r0) | _ => (false, s) end)
    as [neg r0] eqn:E0.
  assert (H0 : (String.length r0 <= String.length s)%nat).
  { destruct s as [|c s]; [injection E0 as _ <-; lia|].
    destruct c as [[] [] [] [] [] [] [] []]; injection E0 as _ <-; cbn; lia. }
  destruct (match r0 with
            | String "0" r1 => ("0", r1)
            | _ => Str.span Chars.isDigit r0
            end) as [ip r1] eqn:E1.
  assert (H1 : (String.length r1 <= String.length r0)%nat
               /\ (Str.isEmpty ip = false ->
                   (String.length r1 < String.length r0)%nat)).
  { destruct r0 as [|c r0']; [now apply span_length in E1|].
    destruct c as [[] [] [] [] [] [] [] []];
      try (now apply span_length in E1).
    injection E1 as <- <-. cbn. split; [lia | intros _; lia]. }
  destruct (Str.isEmpty ip) eqn:Hip; [discriminate|].
  destruct H1 as [_ H1]. specialize (H1 eq_refl).
  destruct (match r1 with
            | String "." r2 =>
                let '(fp, r3) := Str.span Chars.isDigit r2 in
                if Str.isEmpty fp then None else Some (fp, r3)
            | _ => Some (EmptyString, r1)
            end) as [[fp r2]|] eqn:E2; [|discriminate].
  assert (H2 : (String.length r2 <= String.length r1)%nat).
  { destruct r1 as [|c r1']; [injection E2 as _ <-; lia|].
    destruct c as [[] [] [] [] [] [] [] []];
      try (injection E2 as _ <-; cbn; lia).
    destruct (Str.span Chars.isDigit r1') as [fp' r3] eqn:Es.
    destruct (Str.isEmpty fp'); [discriminate|]. injection E2 as _ <-.
    apply span_length in Es. cbn. lia. }
  match goal with
  | |- match ?e with _ => _ end = _ -> _ => destruct e as [[ex r4]|] eqn:E3
  end; [|discriminate].
  assert (H3 : (String.length r4 <= String.length r2)%nat).
  { destruct r2 as [|c r2']; [injection E3 as _ <-; lia|].
    destruct (Chars.isCI "e" c); [|injection E3 as _ <-; lia].
    destruct (match r2' with
              | String "+" r' => (1, r')
              | String "-" r' => (-1, r')
              | _ => (1, r2')
              end) as [sg r3] eqn:Esg.
    assert (Hsg : (String.length r3 <= String.length r2')%nat).
    { destruct r2' as [|d r2'']; [injection Esg as _ <-; lia|].
      destruct d as [[] [] [] [] [] [] [] []]; injection Esg as _ <-; cbn; lia. }
    destruct (Str.span Chars.isDigit r3) as [ds r5] eqn:Es.
    destruct (Str.isEmpty ds); [discriminate|]. injection E3 as _ <-.
    apply span_length in Es. cbn. lia. }
  intros E. injection E as _ <-. lia.
Qed.

Ltac each_char c := destruct c as [[] [] [] [] [] [] [] []].

Lemma skipWs_cons s c r :
  JSON.skipWs s = String c r -> (String.length r < String.length s)%nat.
Proof.
  intros E. pose proof (length_dropWhile JSON.isWs s) as H.
  unfold JSON.skipWs in E. rewrite E in H. cbn in H. lia.
Qed.

Lemma parse_length f :
  (forall s v r, JSON.parseValue f s = Some (v, r) ->
     (String.length r < String.length s)%nat)
  /\ (forall s l r, JSON.parseMembers f s = Some (l, r) ->
        (String.length r < String.length s)%nat)
  /\ (forall s l r, JSON.parseElements f s = Some (l, r) ->
        (String.length r < String.length s)%nat).
Proof.
  induction f as [|f (IHv & IHm & IHe)]; [repeat split; discriminate|].
  repeat split.
  - intros s v r E. cbn [JSON.parseValue] in E.
    destruct (JSON.skipWs s) as [|c r0] eqn:Ews; [discriminate|].
    apply skipWs_cons in Ews.
    destruct (Ascii.eqb c "{").
    { destruct (JSON.skipWs r0) as [|c1 r1] eqn:Ews1.
      - destruct (JSON.parseMembers f r0) as [[l r']|] eqn:Em; [|discriminate].
        injection E as _ <-. apply IHm in Em. lia.
      - apply skipWs_cons in Ews1.
        each_char c1;
          try (destruct (JSON.parseMembers f r0) as [[l r']|] eqn:Em;
               [injection E as _ <-; apply IHm in Em; lia | discriminate]).
        injection E as _ <-. lia. }
    destruct (Ascii.eqb c "[").
    { destruct (JSON.skipWs r0) as [|c1 r1] eqn:Ews1.
      - destruct (JSON.parseElements f r0) as [[l r']|] eqn:Em; [|discriminate].
        injection E as _ <-. apply IHe in Em. lia.
      - apply skipWs_cons in Ews1.
        each_char c1;
          try (destruct (JSON.parseElements f r0) as [[l r']|] eqn:Em;
               [injection E as _ <-; apply IHe in Em; lia | discriminate]).
        injection E as _ <-. lia. }
    destruct (Ascii.eqb c JSON.dquote).
    { destruct (JSON.parseStringBody r0) as [[str r']|] eqn:Es; [|discriminate].
      injection E as _ <-.
      apply (parseStringBody_length _ _ _ _ (Nat.le_refl _)) in Es. lia. }
    destruct (Str.startsWith "true" (String c r0)).
    { injection E as _ <-.
      change (String.length (Str.drop 3 r0) < String.length s)%nat.
      rewrite length_drop. lia. }
    destruct (Str.startsWith "false" (String c r0)).
    { injection E as _ <-.
      change (String.length (Str.drop 4 r0) < String.length s)%nat.
      rewrite length_drop. lia. }
    destruct (Str.startsWith "null" (String c r0)).
    { injection E as _ <-.
      change (String.length (Str.drop 3 r0) < String.length s)%nat.
      rewrite length_drop. lia. }
    destruct (JSON.parseNumber (String c r0)) as [[n r']|] eqn:En; [|discriminate].
    injection E as _ <-. apply parseNumber_length in En. cbn in En. lia.
  - intros s l r E. cbn [JSON.parseMembers] in E.
    destruct (JSON.skipWs s) as [|c r0] eqn:Ews; [discriminate|].
    apply skipWs_cons in Ews.
    destruct (Ascii.eqb c JSON.dquote); [|discriminate].
    destruct (JSON.parseStringBody r0) as [[k r1]|] eqn:Es; [|discriminate].
    apply (parseStringBody_length _ _ _ _ (Nat.le_refl _)) in Es.
    destruct (JSON.skipWs r1) as [|c1 r2] eqn:Ews1; [discriminate|].
    apply skipWs_cons in Ews1.
    each_char c1; try discriminate.
    destruct (JSON.parseValue f r2) as [[v r3]|] eqn:Ev; [|discriminate].
    apply IHv in Ev.
    destruct (JSON.skipWs r3) as [|c3 r4] eqn:Ews3; [discriminate|].
    apply skipWs_cons in Ews3.
    each_char c3; try discriminate.
    + injection E as _ <-. lia.
    + destruct (JSON.parseMembers f r4) as [[l' r5]|] eqn:Em; [|discriminate].
      injection E as _ <-. apply IHm in Em. lia.
  - intros s l r E. cbn [JSON.parseElements] in E.
    destruct (JSON.parseValue f s) as [[v r1]|] eqn:Ev; [|discriminate].
    apply IHv in Ev.
    destruct (JSON.skipWs r1) as [|c r2] eqn:Ews; [discriminate|].
    apply skipWs_cons in Ews.
    each_char c; try discriminate.
    + injection E as _ <-. lia.
    + destruct (JSON.parseElements f r2) as [[l' r3]|] eqn:Em; [|discriminate].
      injection E as _ <-. apply IHe in Em. lia.
Qed.

Lemma parse_fuel f :
  (forall s f', (2 * String.length s < f)%nat -> (f <= f')%nat ->
     JSON.parseValue f' s = JSON.parseValue f s)
  /\ (forall s f', (2 * String.length s < f)%nat -> (f <= f')%nat ->
        JSON.parseMembers f' s = JSON.parseMembers f s)
  /\ (forall s f', (2 * String.length s + 1 < f)%nat -> (f <= f')%nat ->
        JSON.parseElements f' s = JSON.parseElements f s).
Proof.
  induction f as [|f (IHv & IHm & IHe)]; [repeat split; intros; lia|].
  repeat split; intros s f' Hlen Hle; (destruct f' as [|f']; [lia|]).
  - cbn [JSON.parseValue].
    destruct (JSON.skipWs s) as [|c r0] eqn:Ews; [reflexivity|].
    apply skipWs_cons in Ews.
    rewrite (IHm r0 f') by lia. rewrite (IHe r0 f') by lia. reflexivity.
  - cbn [JSON.parseMembers].
    destruct (JSON.skipWs s) as [|c r0] eqn:Ews; [reflexivity|].
    apply skipWs_cons in Ews.
    destruct (Ascii.eqb c JSON.dquote); [|reflexivity].
    destruct (JSON.parseStringBody r0) as [[k r1]|] eqn:Es; [|reflexivity].
    apply (parseStringBody_length _ _ _ _ (Nat.le_refl _)) in Es.
    destruct (JSON.skipWs r1) as [|c1 r2] eqn:Ews1; [reflexivity|].
    apply skipWs_cons in Ews1.
    rewrite (IHv r2 f') by lia.
    destruct (JSON.parseValue f r2) as [[v r3]|] eqn:Ev;
      [|each_char c1; reflexivity].
    apply (proj1 (parse_length f)) in Ev.
    destruct (JSON.skipWs r3) as [|c3 r4] eqn:Ews3; [reflexivity|].
    apply skipWs_cons in Ews3.
    rewrite (IHm r4 f') by lia. reflexivity.
  - cbn [JSON.parseElements].
    rewrite (IHv s f') by lia.
    destruct (JSON.parseValue f s) as [[v r1]|] eqn:Ev; [|reflexivity].
    apply (proj1 (parse_length f)) in Ev.
    destruct (JSON.skipWs r1) as [|c r2] eqn:Ews; [reflexivity|].
    apply skipWs_cons in Ews.
    rewrite (IHe r2 f') by lia. reflexivity.
Qed.

(** More fuel than [JSON.parse] gives changes nothing. *)
Lemma parse_fuel_enough text f :
  (S (String.length text + String.length text) <= f)%nat ->
  JSON.parseValue f text
  = JSON.parseValue (S (String.length text + String.length text)) text.
Proof. intros Hf. apply (proj1 (parse_fuel _)); lia. Qed.

(** ** JSON: what is written is read back *)

Lemma parse_escapeChar c rest :
  JSON.parseStringBody (JSON.escapeChar c +:+ rest)
  = JSON.consTo c (JSON.parseStringBody rest).
Proof.
  destruct c as [[] [] [] [] [] [] [] []]; reflexivity.
Qed.

Lemma parse_escape s rest :
  JSON.parseStringBody (JSON.escape s +:+ String JSON.dquote rest)
  = Some (s, rest).
Proof.
  induction s as [|c s IH]; cbn [JSON.escape].
  - reflexivity.
  - rewrite append_assoc, parse_escapeChar, IH. reflexivity.
Qed.

Lemma parseValue_ws f c r :
  JSON.isWs c = true -> JSON.parseValue f (String c r) = JSON.parseValue f r.
Proof.
  intros Hc. destruct f as [|f]; [reflexivity|].
  cbn [JSON.parseValue]. unfold JSON.skipWs. cbn [Str.dropWhile].
  now rewrite Hc.
Qed.

Lemma parseMembers_ws f c r :
  JSON.isWs c = true -> JSON.parseMembers f (String c r) = JSON.parseMembers f r.
Proof.
  intros Hc. destruct f as [|f]; [reflexivity|].
  cbn [JSON.parseMembers]. unfold JSON.skipWs. cbn [Str.dropWhile].
  now rewrite Hc.
Qed.

Lemma parseValue_string f s rest :
  JSON.parseValue (S f)
    (String JSON.dquote (JSON.escape s +:+ String JSON.dquote rest))
  = Some (JStr s, rest).
Proof.
  change (JSON.parseValue (S f)
            (String JSON.dquote (JSON.escape s +:+ String JSON.dquote rest)))
    with (match JSON.parseStringBody
                  (JSON.escape s +:+ String JSON.dquote rest) with
          | Some (str, r') => Some (JStr str, r')
          | None => None
          end).
  now rewrite parse_escape.
Qed.

Lemma parseValue_integer f m rest :
  (0 < m)%N ->
  match rest with
  | String c _ =>
      Chars.isDigit c = false /\ Ascii.eqb c "." = false
      /\ Chars.isCI "e" c = false
  | EmptyString => True
  end ->
  JSON.parseValue (S f) (Str.ofN m +:+ rest)
  = Some (JNum (Num.Dec false m 0), rest).
Proof.
  intros Hm Hrest.
  pose proof (parseNumber_integer m rest Hm Hrest) as Hnum.
  destruct (ofN_head m Hm) as (c & r & E & Hd & H0). rewrite E in *.
  change (String c r +:+ rest) with (String c (r +:+ rest)) in *.
  destruct c as [[] [] [] [] [] [] [] []]; try discriminate Hd;
    match goal with
    | |- JSON.parseValue (S ?f) ?text = _ =>
        change (JSON.parseValue (S f) text)
          with (match JSON.parseNumber text with
                | Some (n, r') => Some (JNum n, r')
                | None => None
                end)
    end;
    now rewrite Hnum.
Qed.

Lemma parseMembers_member f k r :
  JSON.parseMembers (S f)
    (String JSON.dquote (JSON.escape k +:+ String JSON.dquote (String ":" r)))
  = match JSON.parseValue f r with
    | None => None
    | Some (v, r3) =>
        match JSON.skipWs r3 with
        | String "," r4 =>
            match JSON.parseMembers f r4 with
            | Some (l, r5) => Some ((k, v) :: l, r5)
            | None => None
            end
        | String "}" r4 => Some ([(k, v)], r4)
        | _ => None
        end
    end.
Proof.
  change (JSON.parseMembers (S f)
            (String JSON.dquote
               (JSON.escape k +:+ String JSON.dquote (String ":" r))))
    with (match JSON.parseStringBody
                  (JSON.escape k +:+ String JSON.dquote (String ":" r)) with
          | None => None
          | Some (k', r1) =>
              match JSON.skipWs r1 with
              | String ":" r2 =>
                  match JSON.parseValue f r2 with
                  | None => None
                  | Some (v, r3) =>
                      match JSON.skipWs r3 with
                      | String "," r4 =>
                          match JSON.parseMembers f r4 with
                          | Some (l, r5) => Some ((k', v) :: l, r5)
                          | None => None
                          end
                      | String "}" r4 => Some ([(k', v)], r4)
                      | _ => None
                      end
                  end
              | _ => None
              end
          end).
  rewrite parse_escape. reflexivity.
Qed.

Lemma parse_cacheText e T :
  0 < T < 10 ^ 21 ->
  JSON.parse (cacheText e T)
  = Returns (JObj [("endpoint", JStr e); ("timestamp", JNum (Num.ofZ T))]).
Proof.
  intros HT.
  assert (Hm : (0 < Z.abs_N T < 10 ^ 21)%N) by lia.
  assert (HofZ : Num.ofZ T = Num.Dec false (Z.abs_N T) 0).
  { unfold Num.ofZ. destruct (Z.ltb_spec T 0); [lia | reflexivity]. }
  unfold cacheText, JSON.stringify. rewrite HofZ.
  cbn [JSON.serialize List.map fst snd Str.repeat Nat.min Str.isEmpty Str.join].
  rewrite (toString_integer _ Hm).
  unfold JSON.quote.
  repeat rewrite append_assoc. cbn [String.append].
  repeat rewrite append_assoc. cbn [String.append].
  unfold JSON.parse. cbn [String.length Nat.add].
  match goal with
  | |- context [JSON.parseValue (S ?f) (String "{" ?r)] =>
      change (JSON.parseValue (S f) (String "{" r))
        with (match JSON.parseMembers f r with
              | Some (l, r') => Some (JObj l, r')
              | None => None
              end)
  end.
  rewrite !parseMembers_ws by reflexivity.
  rewrite parseMembers_member.
  rewrite parseValue_ws by reflexivity.
  rewrite parseValue_string.
  change (JSON.skipWs (String "," ?r)) with (String "," r).
  cbn [JSON.skipWs Str.dropWhile].
  rewrite !parseMembers_ws by reflexivity.
  rewrite parseMembers_member.
  rewrite parseValue_ws by reflexivity.
  rewrite (parseValue_integer _ _ _ (proj1 Hm)) by (repeat split; reflexivity).
  reflexivity.
Qed.

(** ** queryServiceFromCLI *)

Lemma queryServiceFromCLI_run env w :
  queryServiceFromCLI env w
  = (Returns (queryOutcome env (execCount w)), afterExec statusCmd w).
Proof.
  unfold queryServiceFromCLI, tryCatch, bind, Sys.execAsync, queryOutcome,
    statusCmd, afterExec.
  destruct (commandResult env (execCount w) _); reflexivity.
Qed.

Lemma isStr_true o text : JS.isStr o text = true <-> o = Some (JStr text).
Proof.
  unfold JS.isStr. split.
  - destruct o as [[| | |s| |]|]; try discriminate.
    intros E. apply String.eqb_eq in E. now subst.
  - intros ->. apply String.eqb_refl.
Qed.

Lemma isTrue_true o : JS.isTrue o = true <-> o = Some (JBool true).
Proof.
  unfold JS.isTrue. split.
  - destruct o as [[|[]| | | |]|]; try discriminate. reflexivity.
  - intros ->. reflexivity.
Qed.

(** C6 (as amended).  For every output of the status command that is a
    JSON object whose [port] field is a number P that is an integer other
    than zero and below 2^53 in absolute value, however it is written, the
    parser returns the endpoint http://127.0.0.1:P, with P in decimal
    digits, and the port P, and [isRunning] is true exactly when the
    [status] field is the string running or the [running] field is the
    boolean true.  The outputs are those that JSON.parse reads here: a
    text with an escape of a character above U+00FF is not among them. *)
Theorem json_port_endpoint (stdout : string)
    (fields : list (string * JSValue)) (P : Num.JSNumber) (z : Z) :
  JSON.parse stdout = Returns (JObj fields) ->
  JS.lookup "port" fields = Some (JNum P) ->
  integerValue P = Some z ->
  z <> 0 ->
  Z.abs z < 2 ^ 53 ->
  endpoint (parseStatus stdout) = JStr ("http://127.0.0.1:" +:+ decimalText z)
  /\ port (parseStatus stdout) = JNum P
  /\ (isRunning (parseStatus stdout) = true <->
      JS.lookup "status" fields = Some (JStr "running")
      \/ JS.lookup "running" fields = Some (JBool true)).
Proof.
  intros Hparse Hport Hint Hz Hsafe.
  destruct (toString_integerValue P z Hint Hz ltac:(lia)) as [Htruthy Hprint].
  unfold parseStatus, parseStatusJson. rewrite Hparse.
  unfold JS.prop. cbn [JS.getProp]. rewrite Hport.
  cbn [JS.truthyOpt JS.truthy]. rewrite Htruthy.
  unfold JS.toText. cbn [default from_option]. unfold id.
  cbn [JS.convertible JS.toString]. rewrite Hprint.
  cbn [endpoint port isRunning].
  repeat split; try reflexivity.
  - intros E. apply orb_true_iff in E. destruct E as [E|E].
    + left. now apply isStr_true.
    + right. now apply isTrue_true.
  - intros [E|E]; apply orb_true_iff.
    + left. now apply isStr_true.
    + right. now apply isTrue_true.
Qed.

Lemma json_port_endpoint_witness :
  let stdout := Str.q "{'port': 55329.0, 'status': 'running'}" in
  endpoint (parseStatus stdout) = JStr "http://127.0.0.1:55329"
  /\ port (parseStatus stdout) = JNum (Num.Dec false 553290 (-1))
  /\ (isRunning (parseStatus stdout) = true <->
      JS.lookup "status"
        [("port", JNum (Num.Dec false 553290 (-1))); ("status", JStr "running")]
      = Some (JStr "running")
      \/ JS.lookup "running"
        [("port", JNum (Num.Dec false 553290 (-1))); ("status", JStr "running")]
      = Some (JBool true)).
Proof.
  refine (json_port_endpoint (Str.q "{'port': 55329.0, 'status': 'running'}")
            [("port", JNum (Num.Dec false 553290 (-1)));
             ("status", JStr "running")]
            (Num.Dec false 553290 (-1)) 55329 _ eq_refl eq_refl _ _).
  - vm_compute. reflexivity.
  - discriminate.
  - reflexivity.
Defined.

(** C6 fails for the port 0: the object is then not read as JSON at all (0
    is falsy), the scan for a colon followed by digits finds the port field
    in the raw text, and the result is running whatever [status] says. *)
Lemma json_port_zero_counterexample :
  let stdout := Str.q "{'port': 0, 'status': 'stopped'}" in
  let fields := [("port", JNum (Num.ofN 0)); ("status", JStr "stopped")] in
  JSON.parse stdout = Returns (JObj fields)
  /\ JS.lookup "port" fields = Some (JNum (Num.ofN 0))
  /\ ~ (isRunning (parseStatus stdout) = true <->
        JS.lookup "status" fields = Some (JStr "running")
        \/ JS.lookup "running" fields = Some (JBool true)).
Proof.
  cbv zeta. split; [vm_compute; reflexivity|]. split; [reflexivity|].
  intros [Hrun _].
  assert (E : isRunning (parseStatus (Str.q "{'port': 0, 'status': 'stopped'}")) = true)
    by (vm_compute; reflexivity).
  destruct (Hrun E) as [F|F]; vm_compute in F; discriminate.
Qed.

(** *** The scan for a URL in free text *)

(** *** A pattern on a text and on the text followed by more *)







Section Truncation.
Variable more : string.
Variable first : ascii.
Variable rest : string.
Hypothesis more_first : more = String first rest.


End Truncation.






(** ** The invariant between [isRunning] and [endpoint] *)

(** C10 (code defect).  A status output whose [url] field is the number 5
    makes [queryServiceFromCLI] resolve to a result with [isRunning] true
    whose endpoint is that number, not a string. *)
Theorem query_endpoint_not_a_string :
  let stdout := Str.q "{'url': 5}" in
  let env :=
    mkEnv OtherOS ["home"] None false (fun _ _ => ExecOk stdout)
          (fun _ _ => TimedOut) in
  fst (queryServiceFromCLI env (mkState 0 ∅ ∅ 0 0 []))
  = Returns (mkQuery (JNum (Num.ofN 5)) JNull true stdout).
Proof. vm_compute. reflexivity. Qed.

Lemma parseStatusText_running_not_null (stdout : string) :
  isRunning (parseStatusText stdout) = true ->
  endpoint (parseStatusText stdout) <> JNull.
Proof.
  unfold parseStatusText.
  repeat match goal with
         | |- context [match ?x with _ => _ end] => destruct x
         end; cbn; discriminate.
Qed.

Lemma parseStatus_running_not_null (stdout : string) :
  isRunning (parseStatus stdout) = true -> endpoint (parseStatus stdout) <> JNull.
Proof.
  pose proof (parseStatusText_running_not_null stdout) as Htext.
  unfold parseStatus, parseStatusJson.
  destruct (JSON.parse stdout) as [j|err]; [|exact Htext].
  destruct (JS.getProp j "port") as [p|err]; [|exact Htext].
  destruct (JS.truthyOpt p) eqn:Hp.
  - destruct (JS.toText (default JNull p)); [|exact Htext]. cbn. discriminate.
  - destruct (JS.truthyOpt (JS.prop j "url")) eqn:Hu; [|exact Htext].
    destruct (JS.toText _); [|exact Htext].
    cbn. intros _ E. destruct (JS.prop j "url") as [v|]; cbn in *.
    + subst v. discriminate.
    + discriminate.
Qed.

(** ** The URL parser on plain http URLs *)

Lemma plainHostChar_facts c :
  isPlainHostChar c = true ->
  isVisible c = true
  /\ URL.isTabOrNewline c = false
  /\ URL.isSlash c = false
  /\ URL.isAuthorityEnd true c = false
  /\ Ascii.eqb "@" c = false
  /\ Ascii.eqb c ":" = false /\ Ascii.eqb c "[" = false /\ Ascii.eqb c "]" = false.
Proof.
  destruct c as [[] [] [] [] [] [] [] []]; intros H; try discriminate H;
    repeat split; reflexivity.
Qed.

Lemma digit_facts c :
  Chars.isDigit c = true ->
  isVisible c = true
  /\ URL.isTabOrNewline c = false
  /\ URL.isAuthorityEnd true c = false
  /\ Ascii.eqb "@" c = false.
Proof.
  destruct c as [[] [] [] [] [] [] [] []]; intros H; try discriminate H;
    repeat split; reflexivity.
Qed.

Section HostPort.
Context `{URL.Platform}.

Lemma splitHostPort_plain host ds :
  Str.all isPlainHostChar host = true ->
  URL.splitHostPort false (host +:+ String ":" ds) = (host, Some ds).
Proof.
  induction host as [|c host IH]; cbn [String.append Str.all].
  - reflexivity.
  - intros Hall. apply andb_true_iff in Hall as [Hc Hhost].
    destruct (plainHostChar_facts c Hc) as (_ & _ & _ & _ & _ & H1 & H2 & H3).
    cbn [URL.splitHostPort]. rewrite H1, H2, H3. cbn [andb].
    now rewrite (IH Hhost).
Qed.

(** An http URL made of a plain host name, a port and a path, query or
    fragment parses to that host, as the host parser gives it, and to
    that port. *)
Lemma parse_http_host_port (host ds rest h : string) :
  host <> EmptyString ->
  Str.all isPlainHostChar host = true ->
  URL.parseHost false host = Some h ->
  ds <> EmptyString ->
  Str.all Chars.isDigit ds = true ->
  (Str.toN ds <= 65535)%N ->
  Str.all isVisible rest = true ->
  match rest with
  | String c _ => URL.isAuthorityEnd true c = true
  | EmptyString => True
  end ->
  URL.parse ("http://" +:+ host +:+ String ":" ds +:+ rest)
  = Some (URL.mkLoc "http:" h
            (if (Str.toN ds =? 80)%N then EmptyString else Str.ofN (Str.toN ds))
            (URL.pathnameOf "http" rest)).
Proof.
  intros Hne Hhost Hparse Hdne Hds Hport Hvis Hrest.
  set (auth := host +:+ String ":" ds).
  assert (Hauth_vis : Str.all isVisible auth = true).
  { unfold auth. rewrite all_append. cbn [Str.all].
    rewrite (all_impl _ _ _ (fun c Hc => proj1 (plainHostChar_facts c Hc)) Hhost).
    rewrite (all_impl _ _ _ (fun c Hc => proj1 (digit_facts c Hc)) Hds).
    reflexivity. }
  assert (Hauth_end :
    Str.all (fun c => negb (URL.isAuthorityEnd true c)) auth = true).
  { unfold auth. rewrite all_append. cbn [Str.all].
    rewrite (all_impl isPlainHostChar _ host); [|
      intros c Hc; destruct (plainHostChar_facts c Hc) as (_&_&_&E&_);
      now rewrite E | exact Hhost].
    rewrite (all_impl Chars.isDigit _ ds); [reflexivity|
      intros c Hc; destruct (digit_facts c Hc) as (_&_&E&_);
      now rewrite E | exact Hds]. }
  assert (Hauth_at : Str.all (fun c => negb (Ascii.eqb "@" c)) auth = true).
  { unfold auth. rewrite all_append. cbn [Str.all].
    rewrite (all_impl isPlainHostChar _ host); [|
      intros c Hc; destruct (plainHostChar_facts c Hc) as (_&_&_&_&E&_);
      now rewrite E | exact Hhost].
    rewrite (all_impl Chars.isDigit _ ds); [reflexivity|
      intros c Hc; destruct (digit_facts c Hc) as (_&_&_&E);
      now rewrite E | exact Hds]. }
  assert (Hclean :
    Str.filter (fun c => negb (URL.isTabOrNewline c))
      (Str.dropWhileEnd URL.isC0OrSpace
         (Str.dropWhile URL.isC0OrSpace ("http://" +:+ auth +:+ rest)))
    = "http://" +:+ auth +:+ rest).
  { assert (Hall : Str.all isVisible ("http://" +:+ auth +:+ rest) = true).
    { rewrite !all_append, Hauth_vis, Hvis. reflexivity. }
    change ("http://" +:+ auth +:+ rest)
      with (String "h" ("ttp://" +:+ auth +:+ rest)) in *.
    rewrite dropWhile_head by reflexivity.
    rewrite dropWhileEnd_none.
    - apply filter_all. revert Hall. apply all_impl.
      intros c Hc. unfold isVisible in Hc. unfold URL.isTabOrNewline.
      apply N.ltb_lt in Hc.
      destruct (N.eqb_spec (Chars.code c) 9); [lia|].
      destruct (N.eqb_spec (Chars.code c) 10); [lia|].
      destruct (N.eqb_spec (Chars.code c) 13); [lia|]. reflexivity.
    - revert Hall. apply all_impl. intros c Hc.
      unfold isVisible in Hc. unfold URL.isC0OrSpace.
      apply N.ltb_lt in Hc. apply negb_true_iff, N.leb_gt. exact Hc. }
  unfold URL.parse. fold auth.
  replace ("http://" +:+ host +:+ String ":" ds +:+ rest)
    with ("http://" +:+ auth +:+ rest)
    by (unfold auth; now rewrite append_assoc).
  rewrite Hclean.
  change (URL.splitScheme ("http://" +:+ auth +:+ rest))
    with (Some ("http", String "/" (String "/" (auth +:+ rest)))).
  change (String.eqb "http" "file") with false.
  change (URL.isSpecial "http") with true. cbv iota.
  assert (Hslashes :
    Str.dropWhile URL.isSlash (String "/" (String "/" (auth +:+ rest)))
    = auth +:+ rest).
  { cbn [Str.dropWhile]. change (URL.isSlash "/") with true. cbv iota.
    unfold auth. destruct host as [|c host]; [contradiction|].
    cbn [Str.all] in Hhost. apply andb_true_iff in Hhost as [Hc _].
    destruct (plainHostChar_facts c Hc) as (_ & _ & E & _).
    cbn [String.append]. apply dropWhile_head. exact E. }
  rewrite Hslashes. unfold URL.parseAuthority.
  rewrite (span_all _ auth rest Hauth_end).
  2:{ destruct rest; [exact I|]. now rewrite Hrest. }
  rewrite (splitOn_none _ _ Hauth_at). cbn [List.last List.length].
  change (1 <? 1)%nat with false. cbn [andb].
  unfold auth. rewrite (splitHostPort_plain host ds Hhost).
  assert (Hnonempty : Str.isEmpty host = false) by (destruct host; [contradiction | reflexivity]).
  rewrite Hnonempty. cbn [andb negb]. rewrite Hparse.
  unfold URL.parsePort. cbn [default from_option]. unfold id.
  rewrite Hds. cbn [negb].
  assert (Hdnonempty : Str.isEmpty ds = false) by (destruct ds; [contradiction | reflexivity]).
  rewrite Hdnonempty.
  destruct (N.ltb_spec 65535 (Str.toN ds)); [lia|].
  change (URL.defaultPort "http") with (Some 80%N).
  destruct (N.eqb_spec (Str.toN ds) 80) as [E|E].
  - rewrite bool_decide_eq_true_2 by (now rewrite E). reflexivity.
  - rewrite bool_decide_eq_false_2 by (intros [=]; congruence). reflexivity.
Qed.

End HostPort.

(** ** verifyEndpoint *)

Section Verify.
Context `{URL.Platform}.
Variable env : Env.

Lemma verifyEndpoint_run (url : JSValue) (timeout : option Z) (w : State) :
  verifyEndpoint env url timeout w
  = match URL.parse (JS.toString url) with
    | None => (Returns false, w)
    | Some u =>
        (Returns (isResponse
                    (requestResult env (requestCount w) (requestFor u timeout))),
         afterRequest (requestFor u timeout) w)
    end.
Proof.
  unfold verifyEndpoint, tryCatch, bind, lift, URL.new.
  destruct (URL.parse (JS.toString url)) as [u|]; [|reflexivity].
  unfold Sys.httpRequest. fold (requestFor u timeout).
  fold (afterRequest (requestFor u timeout) w).
  destruct (requestResult env (requestCount w) (requestFor u timeout));
    reflexivity.
Qed.

(** C7.  [verifyEndpoint] never throws; it resolves to true exactly when
    the URL parses and the first event of the request is a response,
    whatever its status code (404 included); a network error, a time-out,
    and a URL that does not parse give false; without a [timeout] argument
    the request is sent with a time-out of 3000 ms. *)
Theorem verifyEndpoint_alive_iff_response
    (url : JSValue) (timeout : option Z) (w : State) :
  exists (b : bool) (w' : State),
    verifyEndpoint env url timeout w = (Returns b, w')
    /\ (b = true <->
        exists u status,
          URL.parse (JS.toString url) = Some u
          /\ requestResult env (requestCount w) (requestFor u timeout)
             = Response status)
    /\ (URL.parse (JS.toString url) = None -> b = false /\ w' = w)
    /\ (forall u, URL.parse (JS.toString url) = Some u ->
          w' = afterRequest (requestFor u timeout) w
          /\ reqTimeout (requestFor u None) = 3000
          /\ (requestResult env (requestCount w) (requestFor u timeout)
              = Response 404 -> b = true)
          /\ (forall msg,
                requestResult env (requestCount w) (requestFor u timeout)
                = NetworkError msg -> b = false)
          /\ (requestResult env (requestCount w) (requestFor u timeout)
              = TimedOut -> b = false)).
Proof.
  rewrite verifyEndpoint_run.
  destruct (URL.parse (JS.toString url)) as [u|] eqn:Hparse.
  - eexists _, _. split; [reflexivity|]. split; [|split].
    + split.
      * intros E. destruct (requestResult env _ _) as [st| | |] eqn:Hr;
          try discriminate.
        exists u, st. split; [reflexivity | exact Hr].
      * intros (u' & st & Hu & Hr). injection Hu as <-. now rewrite Hr.
    + discriminate.
    + intros u' Hu. injection Hu as <-. split; [reflexivity|].
      split; [reflexivity|].
      split; [|split]; [intros -> | intros msg -> | intros ->]; reflexivity.
  - exists false, w. split; [reflexivity|]. split; [|split].
    + split; [discriminate|]. intros (u & st & Hu & _). discriminate.
    + intros _. split; reflexivity.
    + discriminate.
Qed.

End Verify.

(** ** normalizeEndpoint *)

Lemma normalizeEndpoint_parsed `{URL.Platform} (text : string) (u : URL.Loc) :
  URL.parse text = Some u ->
  normalizeEndpoint (JStr text) = Returns (JStr (origin u)).
Proof.
  intros Hparse. unfold normalizeEndpoint.
  destruct text as [|c text]; [discriminate|].
  cbn [JS.truthy Str.isEmpty negb JS.toString]. unfold URL.new.
  now rewrite Hparse.
Qed.

(** C1 (as amended).  For every endpoint string that parses as a URL,
    [normalizeEndpoint] returns a scheme, two slashes, the host name of the
    URL and, when the URL has a port other than the default one of its
    scheme, a colon and that port: the path, the query, the fragment and
    the credentials are gone.  The scheme is the one of the URL whenever
    that is not https. *)
Theorem normalizeEndpoint_origin `{URL.Platform} (text : string) (u : URL.Loc) :
  URL.parse text = Some u ->
  exists scheme,
    normalizeEndpoint (JStr text)
    = Returns
        (JStr (scheme +:+ "//" +:+ URL.hostname u
               +:+ (if negb (Str.isEmpty (URL.port u))
                    then ":" +:+ URL.port u else "")))
    /\ (URL.protocol u <> "https:" -> scheme = URL.protocol u).
Proof.
  intros Hparse. exists (URL.protocol u).
  split; [apply (normalizeEndpoint_parsed text u Hparse) | reflexivity].
Qed.

Lemma normalizeEndpoint_origin_witness :
  exists scheme,
    @normalizeEndpoint URL.ascii (JStr "http://h:443/some/path/")
    = Returns (JStr (scheme +:+ "//" +:+ "h" +:+ ":" +:+ "443"))
    /\ ("http:" <> "https:" -> scheme = "http:").
Proof.
  exact (@normalizeEndpoint_origin URL.ascii "http://h:443/some/path/"
           (URL.mkLoc "http:" "h" "443" "/some/path/") eq_refl).
Defined.

(** C1 fails as stated: the https scheme is kept by the URL branch, and 443,
    the default port of https, is not part of what the URL object gives. *)
Lemma normalizeEndpoint_https_counterexample :
  @normalizeEndpoint URL.ascii (JStr "https://h:443/some/path/")
  <> Returns (JStr "http://h:443").
Proof. vm_compute. discriminate. Qed.

Lemma normalizeEndpoint_https_value :
  @normalizeEndpoint URL.ascii (JStr "https://h:443/some/path/")
  = Returns (JStr "https://h").
Proof. vm_compute. reflexivity. Qed.

(** On the text of an http URL: whatever follows the port -- a path, a
    query, a fragment -- is dropped, the port is written without leading
    zeros, and port 80 is left out. *)
Lemma normalizeEndpoint_drops_path `{URL.Platform} (host ds rest h : string) :
  host <> EmptyString ->
  Str.all isPlainHostChar host = true ->
  URL.parseHost false host = Some h ->
  ds <> EmptyString ->
  Str.all Chars.isDigit ds = true ->
  (Str.toN ds <= 65535)%N ->
  Str.all isVisible rest = true ->
  match rest with
  | String c _ => URL.isAuthorityEnd true c = true
  | EmptyString => True
  end ->
  normalizeEndpoint (JStr ("http://" +:+ host +:+ String ":" ds +:+ rest))
  = Returns
      (JStr ("http://" +:+ h
             +:+ (if (Str.toN ds =? 80)%N then ""
                  else ":" +:+ Str.ofN (Str.toN ds)))).
Proof.
  intros Hne Hhost Hparse Hdne Hds Hport Hvis Hrest.
  rewrite (normalizeEndpoint_parsed _ _
             (parse_http_host_port host ds rest h
                Hne Hhost Hparse Hdne Hds Hport Hvis Hrest)).
  unfold origin. cbn [URL.protocol URL.hostname URL.port].
  destruct (N.eqb_spec (Str.toN ds) 80) as [E|E]; [reflexivity|].
  destruct (Str.toN ds) as [|p] eqn:En; [reflexivity|].
  destruct (ofN_head (N.pos p)) as (c & r & Ec & _); [lia|].
  rewrite Ec. reflexivity.
Qed.

Lemma normalizeEndpoint_drops_path_example :
  @normalizeEndpoint URL.ascii
    (JStr "http://localhost:055329/openai/status?verbose=1#top")
  = Returns (JStr "http://localhost:55329").
Proof.
  exact (@normalizeEndpoint_drops_path URL.ascii "localhost" "055329"
           "/openai/status?verbose=1#top" "localhost"
           ltac:(discriminate) eq_refl eq_refl ltac:(discriminate) eq_refl
           ltac:(vm_compute; discriminate) eq_refl eq_refl).
Qed.

(** C9 (code defect).  A URL with an out-of-range port does not parse; the
    textual fallback cuts it at the first slash, the one of the scheme, and
    yields http://http: -- which parses, and normalizes to http://http. *)
Theorem normalizeEndpoint_not_idempotent :
  @normalizeEndpoint URL.ascii (JStr "http://localhost:99999")
  = Returns (JStr "http://http:")
  /\ @normalizeEndpoint URL.ascii (JStr "http://http:")
     = Returns (JStr "http://http").
Proof. split; vm_compute; reflexivity. Qed.

(** ** What the primitives do to the state *)

Lemma readsOnly_refl w : readsOnly w w.
Proof. split; [apply sameFs_refl | apply onlyEvents_refl]. Qed.

Lemma readsOnly_trans a b c : readsOnly a b -> readsOnly b c -> readsOnly a c.
Proof.
  intros [F1 E1] [F2 E2].
  split; [eapply sameFs_trans | eapply onlyEvents_trans]; eassumption.
Qed.

Section Primitives.
Variable ok : Event -> bool.
Variable env : Env.

Lemma execAsync_events cmd :
  ok (EvExecAwaited cmd) = true -> steps (onlyEvents ok) (Sys.execAsync env cmd).
Proof.
  intros E w. unfold Sys.execAsync.
  destruct (commandResult env (execCount w) cmd);
    (eapply onlyEvents_one; [reflexivity | exact E]).
Qed.

Lemma exec_events cmd :
  ok (EvExecDetached cmd) = true -> steps (onlyEvents ok) (Sys.exec cmd).
Proof. intros E w. eapply onlyEvents_one; [reflexivity | exact E]. Qed.

Lemma sleep_events ms :
  ok (EvSleep ms) = true -> steps (onlyEvents ok) (Sys.sleep ms).
Proof. intros E w. eapply onlyEvents_one; [reflexivity | exact E]. Qed.

Lemma httpRequest_events options :
  ok (EvRequest options) = true -> steps (onlyEvents ok) (Sys.httpRequest env options).
Proof. intros E w. eapply onlyEvents_one; [reflexivity | exact E]. Qed.

Lemma mkdirSync_events path :
  ok (EvMkdir path) = true -> steps (onlyEvents ok) (Sys.mkdirSync env path).
Proof.
  intros E w. unfold Sys.mkdirSync.
  destruct (fsReadOnly env); [apply onlyEvents_refl|].
  destruct (existsb _ _); [apply onlyEvents_refl|].
  eapply onlyEvents_one; [reflexivity | exact E].
Qed.

Lemma writeFileSync_events path content :
  ok (EvWriteFile path content) = true ->
  steps (onlyEvents ok) (Sys.writeFileSync env path content).
Proof.
  intros E w. unfold Sys.writeFileSync.
  destruct (fsReadOnly env); [apply onlyEvents_refl|].
  destruct (bool_decide _); [apply onlyEvents_refl|].
  destruct (negb _); [apply onlyEvents_refl|].
  eapply onlyEvents_one; [reflexivity | exact E].
Qed.

Lemma existsSync_events path : steps (onlyEvents ok) (Sys.existsSync path).
Proof. intros w. apply onlyEvents_refl. Qed.

Lemma readFileSync_events path : steps (onlyEvents ok) (Sys.readFileSync path).
Proof.
  intros w. unfold Sys.readFileSync.
  destruct (files w !! path); apply onlyEvents_refl.
Qed.

Lemma dateNow_events : steps (onlyEvents ok) Sys.dateNow.
Proof. intros w. apply onlyEvents_refl. Qed.

End Primitives.

Section PrimitivesFs.
Variable env : Env.

Lemma execAsync_sameFs cmd : steps sameFs (Sys.execAsync env cmd).
Proof.
  intros w. unfold Sys.execAsync.
  destruct (commandResult env (execCount w) cmd); split; reflexivity.
Qed.

Lemma exec_sameFs cmd : steps sameFs (Sys.exec cmd).
Proof. intros w. split; reflexivity. Qed.

Lemma sleep_sameFs ms : steps sameFs (Sys.sleep ms).
Proof. intros w. split; reflexivity. Qed.

Lemma httpRequest_sameFs options : steps sameFs (Sys.httpRequest env options).
Proof. intros w. split; reflexivity. Qed.

Lemma existsSync_sameFs path : steps sameFs (Sys.existsSync path).
Proof. intros w. split; reflexivity. Qed.

Lemma readFileSync_sameFs path : steps sameFs (Sys.readFileSync path).
Proof.
  intros w. unfold Sys.readFileSync. destruct (files w !! path); split; reflexivity.
Qed.

Lemma dateNow_sameFs : steps sameFs Sys.dateNow.
Proof. intros w. split; reflexivity. Qed.

End PrimitivesFs.

Lemma steps_and (R1 R2 : State -> State -> Prop) {A : Type} (m : M A) :
  steps R1 m -> steps R2 m -> steps (fun w w' => R1 w w' /\ R2 w w') m.
Proof. intros H1 H2 w. split; [apply H1 | apply H2]. Qed.

(** Breaks a goal [steps R m] down along the structure of [m]; [prim]
    closes the goals left for the primitives. *)
Ltac steps_with refl trans prim :=
  repeat first
    [ apply (steps_ret _ refl) | apply (steps_throw _ refl)
    | apply (steps_lift _ refl)
    | apply (steps_bind _ trans) | apply (steps_tryCatch _ trans)
    | lazymatch goal with |- forall _, _ => intro end
    | progress cbv zeta
    | prim
    | match goal with
      | |- steps _ (if ?b then _ else _) => destruct b
      | |- steps _ (match ?x with _ => _ end) => destruct x
      end ].

Ltac events_prim :=
  first
    [ apply execAsync_events; reflexivity | apply exec_events; reflexivity
    | apply sleep_events; reflexivity | apply httpRequest_events; reflexivity
    | apply mkdirSync_events; reflexivity
    | apply writeFileSync_events; reflexivity
    | apply existsSync_events | apply readFileSync_events
    | apply dateNow_events ].

Ltac sameFs_prim :=
  first
    [ apply execAsync_sameFs | apply exec_sameFs | apply sleep_sameFs
    | apply httpRequest_sameFs | apply existsSync_sameFs
    | apply readFileSync_sameFs | apply dateNow_sameFs ].

Ltac events_auto :=
  match goal with
  | |- steps (onlyEvents ?ok) _ =>
      steps_with (onlyEvents_refl ok) (onlyEvents_trans ok) events_prim
  end.

Ltac sameFs_auto := steps_with sameFs_refl sameFs_trans sameFs_prim.

Section Runs.
Context `{URL.Platform}.
Variable env : Env.

Lemma queryServiceFromCLI_readsOnly : steps readsOnly (queryServiceFromCLI env).
Proof.
  apply steps_and; unfold queryServiceFromCLI; [sameFs_auto | events_auto].
Qed.

Lemma verifyEndpoint_readsOnly url timeout :
  steps readsOnly (verifyEndpoint env url timeout).
Proof.
  apply steps_and; unfold verifyEndpoint; [sameFs_auto | events_auto].
Qed.

Lemma readCachedEndpoint_readsOnly : steps readsOnly (readCachedEndpoint env).
Proof.
  apply steps_and; unfold readCachedEndpoint; [sameFs_auto | events_auto].
Qed.

Lemma pollLoop_readsOnly n : steps readsOnly (pollLoop env n).
Proof.
  induction n as [|n IH]; cbn [pollLoop].
  - apply (steps_ret _ readsOnly_refl).
  - apply (steps_bind _ readsOnly_trans); [apply queryServiceFromCLI_readsOnly|].
    intros r. destruct (reportsRunning r); [apply (steps_ret _ readsOnly_refl)|].
    apply (steps_bind _ readsOnly_trans); [|intros _; exact IH].
    apply steps_and; [sameFs_auto | events_auto].
Qed.

Lemma startFoundryService_readsOnly : steps readsOnly (startFoundryService env).
Proof.
  unfold startFoundryService.
  apply (steps_tryCatch _ readsOnly_trans);
    [|intros err; apply (steps_ret _ readsOnly_refl)].
  apply (steps_bind _ readsOnly_trans); [apply queryServiceFromCLI_readsOnly|].
  intros r. destruct (reportsRunning r); [apply (steps_ret _ readsOnly_refl)|].
  apply (steps_bind _ readsOnly_trans);
    [apply steps_and; [sameFs_auto | events_auto]|intros _].
  apply (steps_bind _ readsOnly_trans);
    [apply steps_and; [sameFs_auto | events_auto]|intros _].
  apply pollLoop_readsOnly.
Qed.

Lemma cacheCheck_readsOnly : steps readsOnly (cacheCheck env).
Proof.
  unfold cacheCheck.
  apply (steps_bind _ readsOnly_trans); [apply readCachedEndpoint_readsOnly|].
  intros c. destruct (JS.truthy c);
    [apply verifyEndpoint_readsOnly | apply (steps_ret _ readsOnly_refl)].
Qed.

Lemma cacheEndpoint_notLaunch e : steps (onlyEvents notLaunch) (cacheEndpoint env e).
Proof. unfold cacheEndpoint. events_auto. Qed.

Lemma queryVerifyCache_notLaunch : steps (onlyEvents notLaunch) (queryVerifyCache env).
Proof.
  unfold queryVerifyCache, verifyAndCache, queryServiceFromCLI, verifyEndpoint,
    cacheEndpoint.
  events_auto.
Qed.

End Runs.

(** ** The endpoint cache *)

Section Cache.
Variable env : Env.

Lemma cacheDir_snoc : exists base x, getFoundryCacheDir env = base ++ [x].
Proof.
  unfold getFoundryCacheDir. destruct (platform env).
  - eexists _, _. reflexivity.
  - exists (homedir env ++ ["Library"; "Application Support"]), "Foundry".
    now rewrite <- app_assoc.
  - eexists _, _. reflexivity.
Qed.

Lemma cacheDir_in_ancestors :
  In (getFoundryCacheDir env) (Sys.ancestors (getFoundryCacheDir env)).
Proof.
  destruct cacheDir_snoc as (base & x & E). unfold Sys.ancestors.
  apply in_map_iff. exists (List.length (getFoundryCacheDir env)). split.
  - apply firstn_all.
  - apply in_seq. rewrite E, length_app. cbn. lia.
Qed.

Lemma cacheFile_not_in_ancestors :
  ~ In (cacheFile env) (Sys.ancestors (getFoundryCacheDir env)).
Proof.
  unfold Sys.ancestors, cacheFile. intros Hin.
  apply in_map_iff in Hin as (n & E & _).
  apply (f_equal (@List.length string)) in E.
  rewrite length_take, length_app in E. cbn in E. lia.
Qed.

Lemma cacheFile_parent : removelast (cacheFile env) = getFoundryCacheDir env.
Proof. unfold cacheFile. apply removelast_last. Qed.

Lemma cacheEndpoint_writes (e : string) (w : State) :
  e <> EmptyString ->
  cacheWritable env w = true ->
  fst (cacheEndpoint env (JStr e) w) = Returns tt
  /\ files (snd (cacheEndpoint env (JStr e) w))
     = <[cacheFile env := cacheText e (clock w)]> (files w).
Proof.
  intros He Hw. unfold cacheWritable in Hw.
  apply andb_true_iff in Hw as [Hw Hnodir].
  apply andb_true_iff in Hw as [Hro Hnofile].
  apply negb_true_iff in Hro, Hnofile, Hnodir.
  apply bool_decide_eq_false in Hnodir.
  assert (Hdirfile : files w !! getFoundryCacheDir env = None).
  { destruct (files w !! getFoundryCacheDir env) eqn:E; [|reflexivity].
    exfalso. apply Bool.not_true_iff_false in Hnofile. apply Hnofile.
    apply existsb_exists. exists (getFoundryCacheDir env).
    split; [apply cacheDir_in_ancestors|].
    apply bool_decide_eq_true. rewrite E. eauto. }
  unfold cacheEndpoint, tryCatch, bind.
  assert (Ht : JS.truthy (JStr e) = true) by (destruct e; [contradiction | reflexivity]).
  rewrite Ht. cbn [negb]. unfold Sys.existsSync. rewrite Hdirfile.
  rewrite bool_decide_eq_false_2 by (intros [x Hx]; discriminate).
  cbn [orb].
  destruct (bool_decide (getFoundryCacheDir env ∈ dirs w)) eqn:Hdir.
  - apply bool_decide_eq_true in Hdir.
    unfold ret, Sys.dateNow, Sys.writeFileSync. rewrite Hro.
    rewrite (bool_decide_eq_false_2 _ Hnodir).
    rewrite cacheFile_parent, (bool_decide_eq_true_2 _ Hdir).
    cbn [negb fst snd files]. split; reflexivity.
  - unfold Sys.mkdirSync. rewrite Hro, Hnofile.
    unfold Sys.dateNow, Sys.writeFileSync. rewrite Hro. cbn [dirs files clock].
    rewrite bool_decide_eq_false_2.
    2:{ intros Hin. apply elem_of_union in Hin as [Hin|Hin]; [now apply Hnodir|].
        apply elem_of_list_to_set in Hin. apply list_elem_of_In in Hin.
        now apply cacheFile_not_in_ancestors in Hin. }
    rewrite cacheFile_parent, bool_decide_eq_true_2.
    2:{ apply elem_of_union. right. apply elem_of_list_to_set.
        apply list_elem_of_In. apply cacheDir_in_ancestors. }
    cbn [negb fst snd files]. split; reflexivity.
Qed.

Lemma readCachedEndpoint_of_text (e : string) (T : Z) (wr : State) :
  e <> EmptyString ->
  0 < T < 10 ^ 21 ->
  files wr !! cacheFile env = Some (cacheText e T) ->
  fst (readCachedEndpoint env wr)
  = Returns (if clock wr - T <? dayMs then JStr e else JNull).
Proof.
  intros He HT Hfile.
  unfold readCachedEndpoint, tryCatch, bind, Sys.existsSync, Sys.readFileSync,
    lift.
  rewrite Hfile.
  rewrite bool_decide_eq_true_2 by eauto. cbn [orb].
  rewrite ?Hfile.
  rewrite (parse_cacheText e T HT).
  cbn [JS.getProp JS.lookup String.eqb Ascii.eqb Bool.eqb JS.truthyOpt
       JS.truthy default].
  assert (Ht : negb (Str.isEmpty e) = true) by (destruct e; [contradiction | reflexivity]).
  rewrite Ht.
  assert (Hts : Num.truthy (Num.ofZ T) = true).
  { unfold Num.ofZ, Num.truthy. apply negb_true_iff, N.eqb_neq. lia. }
  rewrite Hts. cbn [andb]. unfold Sys.dateNow, id. cbn [JS.toNumber].
  rewrite sub_ofZ, ltb_ofZ.
  destruct (clock wr - T <? dayMs); reflexivity.
Qed.

Lemma readCachedEndpoint_expired (text : string) (data : JSValue) (ts : Z)
    (wr : State) :
  files wr !! cacheFile env = Some text ->
  JSON.parse text = Returns data ->
  JS.getProp data "timestamp" = Returns (Some (JNum (Num.ofZ ts))) ->
  ts + dayMs <= clock wr ->
  fst (readCachedEndpoint env wr) = Returns JNull.
Proof.
  intros Hfile Hparse Hts Hold.
  unfold readCachedEndpoint, tryCatch, bind, Sys.existsSync, Sys.readFileSync,
    lift.
  rewrite Hfile.
  rewrite bool_decide_eq_true_2 by eauto. cbn [orb].
  rewrite ?Hfile.
  rewrite Hparse.
  destruct (JS.getProp data "endpoint") as [c|err] eqn:Hc; [|reflexivity].
  rewrite Hts.
  destruct (JS.truthyOpt c && JS.truthyOpt (Some (JNum (Num.ofZ ts))));
    [|reflexivity].
  unfold Sys.dateNow. cbn [default from_option JS.toNumber]. unfold id.
  cbn [JS.toNumber].
  rewrite sub_ofZ, ltb_ofZ.
  destruct (Z.ltb_spec (clock wr - ts) dayMs); [lia | reflexivity].
Qed.

(** C3.  An entry written by [cacheEndpoint] at a time T (a time value
    after 1970) is returned by [readCachedEndpoint] at every reading time
    before T + 24 h, 23 h 59 min after T for one, and is absent (null is
    returned) at every reading time from T + 24 h on, 24 h 1 min after T for
    one, whatever the endpoint is; more generally a cache file whose
    timestamp is 24 h old or older yields null whatever else it holds. *)
Theorem cache_entry_valid_for_24h (e : string) (w wr : State) :
  e <> EmptyString ->
  0 < clock w < 10 ^ 21 ->
  cacheWritable env w = true ->
  files wr = files (snd (cacheEndpoint env (JStr e) w)) ->
  fst (cacheEndpoint env (JStr e) w) = Returns tt
  /\ (clock wr < clock w + dayMs ->
      fst (readCachedEndpoint env wr) = Returns (JStr e))
  /\ (clock wr = clock w + (23 * 60 + 59) * 60 * 1000 ->
      fst (readCachedEndpoint env wr) = Returns (JStr e))
  /\ (clock w + dayMs <= clock wr ->
      fst (readCachedEndpoint env wr) = Returns JNull)
  /\ (clock wr = clock w + (24 * 60 + 1) * 60 * 1000 ->
      fst (readCachedEndpoint env wr) = Returns JNull)
  /\ (forall text data ts wr',
        files wr' !! cacheFile env = Some text ->
        JSON.parse text = Returns data ->
        JS.getProp data "timestamp" = Returns (Some (JNum (Num.ofZ ts))) ->
        ts + dayMs <= clock wr' ->
        fst (readCachedEndpoint env wr') = Returns JNull).
Proof.
  intros He HT Hw Hfiles.
  destruct (cacheEndpoint_writes e w He Hw) as [Hret Hwritten].
  assert (Hfile : files wr !! cacheFile env = Some (cacheText e (clock w))).
  { rewrite Hfiles, Hwritten. apply lookup_insert_eq. }
  pose proof (readCachedEndpoint_of_text e (clock w) wr He HT Hfile) as Hread.
  assert (Hday : dayMs = 86400000) by reflexivity.
  split; [exact Hret|]. repeat split.
  - intros Hfresh. rewrite Hread.
    destruct (Z.ltb_spec (clock wr - clock w) dayMs); [reflexivity | lia].
  - intros Hat. rewrite Hread.
    destruct (Z.ltb_spec (clock wr - clock w) dayMs); [reflexivity | lia].
  - intros Hold. rewrite Hread.
    destruct (Z.ltb_spec (clock wr - clock w) dayMs); [lia | reflexivity].
  - intros Hat. rewrite Hread.
    destruct (Z.ltb_spec (clock wr - clock w) dayMs); [lia | reflexivity].
  - intros text data ts wr'. apply readCachedEndpoint_expired.
Qed.

End Cache.

Lemma cache_entry_valid_for_24h_witness :
  let env := Example.serviceDown in
  let written := snd (cacheEndpoint env (JStr "http://127.0.0.1:55329") Example.atStart) in
  fst (readCachedEndpoint env
         (Example.atTime (1700000000000 + (23 * 60 + 59) * 60 * 1000) written))
  = Returns (JStr "http://127.0.0.1:55329")
  /\ fst (readCachedEndpoint env
            (Example.atTime (1700000000000 + (24 * 60 + 1) * 60 * 1000) written))
     = Returns JNull.
Proof.
  cbv zeta. split.
  - refine (proj1 (proj2 (proj2
      (cache_entry_valid_for_24h Example.serviceDown "http://127.0.0.1:55329"
         Example.atStart _ _ _ _ _))) _);
      [discriminate | split; reflexivity | vm_compute; reflexivity
      | reflexivity | reflexivity].
  - refine (proj1 (proj2 (proj2 (proj2 (proj2
      (cache_entry_valid_for_24h Example.serviceDown "http://127.0.0.1:55329"
         Example.atStart _ _ _ _ _))))) _);
      [discriminate | split; reflexivity | vm_compute; reflexivity
      | reflexivity | reflexivity].
Defined.

(** ** startFoundryService and discoverFoundryService *)

Lemma afterRounds_trace n : forall w,
  trace (afterRounds n w) = trace w ++ pollRounds n.
Proof.
  induction n as [|n IH]; intros w; cbn [afterRounds pollRounds].
  - now rewrite app_nil_r.
  - rewrite IH. cbn [afterSleep afterExec trace pollRound].
    now rewrite <- !app_assoc.
Qed.

Lemma afterRounds_execCount n : forall w,
  execCount (afterRounds n w) = (execCount w + n)%nat.
Proof.
  induction n as [|n IH]; intros w; cbn [afterRounds].
  - lia.
  - rewrite IH. cbn. lia.
Qed.

Lemma afterRounds_clock n : forall w,
  clock (afterRounds n w) = clock w + 1000 * Z.of_nat n.
Proof.
  induction n as [|n IH]; intros w; cbn [afterRounds].
  - lia.
  - rewrite IH. cbn [afterSleep afterExec clock]. lia.
Qed.

Section Discovery.
Context `{URL.Platform}.
Variable env : Env.

Lemma pollLoop_exhausted n : forall w,
  (forall i, (i < n)%nat ->
     reportsRunning (queryOutcome env (execCount w + i)) = false) ->
  pollLoop env n w = (Returns timedOut, afterRounds n w).
Proof.
  induction n as [|n IH]; intros w Hno; cbn [pollLoop afterRounds].
  - reflexivity.
  - rewrite (bind_returns _ _ _ _ _ (queryServiceFromCLI_run env w)).
    pose proof (Hno 0%nat ltac:(lia)) as H0. rewrite Nat.add_0_r in H0.
    rewrite H0.
    unfold bind at 1. cbn [Sys.sleep].
    fold (afterSleep 1000 (afterExec statusCmd w)).
    apply IH. intros i Hi. cbn [afterSleep afterExec execCount].
    replace (S (execCount w) + i)%nat with (execCount w + S i)%nat by lia.
    apply Hno. lia.
Qed.

Lemma startFoundryService_already w :
  reportsRunning (queryOutcome env (execCount w)) = true ->
  startFoundryService env w
  = (Returns
       (mkStart false true
          ("Service already running on "
           +:+ JS.toString (endpoint (queryOutcome env (execCount w))))),
     afterExec statusCmd w).
Proof.
  intros Hup. unfold startFoundryService.
  apply tryCatch_returns.
  rewrite (bind_returns _ _ _ _ _ (queryServiceFromCLI_run env w)).
  now rewrite Hup.
Qed.

Lemma startFoundryService_timeout w :
  reportsRunning (queryOutcome env (execCount w)) = false ->
  (forall i, (i < maxRetries)%nat ->
     reportsRunning (queryOutcome env (S (execCount w) + i)) = false) ->
  startFoundryService env w
  = (Returns timedOut, afterRounds maxRetries (afterLaunch w)).
Proof.
  intros Hfirst Hpoll. unfold startFoundryService.
  apply tryCatch_returns.
  rewrite (bind_returns _ _ _ _ _ (queryServiceFromCLI_run env w)).
  rewrite Hfirst.
  unfold bind at 1. cbn [Sys.exec].
  unfold bind at 1. cbn [Sys.sleep].
  fold (afterSleep 2000 (emit (EvExecDetached "foundry service start")
                           (afterExec statusCmd w))).
  apply pollLoop_exhausted. exact Hpoll.
Qed.

Lemma readCachedEndpoint_absent w :
  files w !! cacheFile env = None ->
  cacheFile env ∉ dirs w ->
  readCachedEndpoint env w = (Returns JNull, w).
Proof.
  intros Hfile Hdir. unfold readCachedEndpoint, tryCatch, bind, Sys.existsSync.
  rewrite Hfile.
  rewrite (bool_decide_eq_false_2 _ Hdir).
  rewrite bool_decide_eq_false_2; [reflexivity|].
  intros [x Hx]. discriminate.
Qed.

Lemma cacheCheck_absent w :
  files w !! cacheFile env = None ->
  cacheFile env ∉ dirs w ->
  cacheCheck env w = (Returns false, w).
Proof.
  intros Hfile Hdir. unfold cacheCheck.
  rewrite (bind_returns _ _ _ _ _ (readCachedEndpoint_absent w Hfile Hdir)).
  reflexivity.
Qed.

Lemma discover_cache_miss w w1 :
  cacheCheck env w = (Returns false, w1) ->
  discoverFoundryService env w = discoverFromCLI env w1.
Proof.
  unfold cacheCheck, discoverFoundryService, bind.
  destruct (readCachedEndpoint env w) as [[c|err] wa]; [|discriminate].
  destruct (JS.truthy c).
  - intros ->. reflexivity.
  - intros E. injection E as <-. reflexivity.
Qed.

Lemma discover_cache_hit w w1 :
  cacheCheck env w = (Returns true, w1) ->
  exists c, JS.truthy c = true
    /\ discoverFoundryService env w = (Returns (Discovery.mk c JNull true), w1).
Proof.
  unfold cacheCheck, discoverFoundryService, bind.
  destruct (readCachedEndpoint env w) as [[c|err] wa]; [|discriminate].
  destruct (JS.truthy c) eqn:Hc.
  - intros ->. exists c. split; [exact Hc | reflexivity].
  - discriminate.
Qed.

Lemma neverThrows_queryServiceFromCLI : neverThrows (queryServiceFromCLI env).
Proof. intros w. rewrite queryServiceFromCLI_run. eexists. reflexivity. Qed.

Lemma neverThrows_verifyEndpoint url timeout :
  neverThrows (verifyEndpoint env url timeout).
Proof.
  intros w. rewrite verifyEndpoint_run.
  destruct (URL.parse (JS.toString url)); eexists; reflexivity.
Qed.

Lemma neverThrows_cacheEndpoint e : neverThrows (cacheEndpoint env e).
Proof. apply neverThrows_tryCatch. intros err. apply neverThrows_ret. Qed.

Lemma neverThrows_readCachedEndpoint : neverThrows (readCachedEndpoint env).
Proof. apply neverThrows_tryCatch. intros err. apply neverThrows_ret. Qed.

Lemma neverThrows_startFoundryService : neverThrows (startFoundryService env).
Proof. apply neverThrows_tryCatch. intros err. apply neverThrows_ret. Qed.

Lemma neverThrows_sleep ms : neverThrows (Sys.sleep ms).
Proof. intros w. exists tt. reflexivity. Qed.

Lemma neverThrows_verifyAndCache cli : neverThrows (verifyAndCache env cli).
Proof.
  unfold verifyAndCache.
  apply neverThrows_bind; [apply neverThrows_verifyEndpoint|].
  intros b. destruct (negb b); [apply neverThrows_ret|].
  apply neverThrows_bind; [apply neverThrows_cacheEndpoint|].
  intros _. apply neverThrows_ret.
Qed.

Lemma neverThrows_queryVerifyCache : neverThrows (queryVerifyCache env).
Proof.
  unfold queryVerifyCache.
  apply neverThrows_bind; [apply neverThrows_sleep | intros _].
  apply neverThrows_bind; [apply neverThrows_queryServiceFromCLI | intros cli].
  destruct (negb _); [apply neverThrows_ret | apply neverThrows_verifyAndCache].
Qed.

Lemma neverThrows_discoverFoundryService :
  neverThrows (discoverFoundryService env).
Proof.
  assert (Hcli : neverThrows (discoverFromCLI env)).
  { apply neverThrows_bind; [apply neverThrows_startFoundryService|].
    intros _. apply neverThrows_queryVerifyCache. }
  unfold discoverFoundryService.
  apply neverThrows_bind; [apply neverThrows_readCachedEndpoint | intros c].
  destruct (JS.truthy c); [|exact Hcli].
  apply neverThrows_bind; [apply neverThrows_verifyEndpoint | intros b].
  destruct b; [apply neverThrows_ret | exact Hcli].
Qed.

(** A result with isRunning = true carries a truthy endpoint, hence not
    null, for both functions. *)
Lemma queryServiceFromCLI_running_not_null w r w' :
  queryServiceFromCLI env w = (Returns r, w') ->
  isRunning r = true -> endpoint r <> JNull.
Proof.
  rewrite queryServiceFromCLI_run. intros E. injection E as <- _.
  unfold queryOutcome. destruct (commandResult env (execCount w) statusCmd).
  - apply parseStatus_running_not_null.
  - discriminate.
Qed.

Lemma discoverFromCLI_running_truthy w r w' :
  discoverFromCLI env w = (Returns r, w') ->
  Discovery.isRunning r = true -> JS.truthy (Discovery.endpoint r) = true.
Proof.
  unfold discoverFromCLI, queryVerifyCache, verifyAndCache, bind.
  destruct (startFoundryService env w) as [[s|err] w1]; [|discriminate].
  cbn [Sys.sleep]. rewrite queryServiceFromCLI_run.
  destruct (JS.truthy (endpoint (queryOutcome env _))) eqn:Ht; cbn [negb].
  - destruct (verifyEndpoint env _ None _) as [[[]|err] w2]; cbn [negb].
    + destruct (cacheEndpoint env _ w2) as [[[]|err] w3].
      * intros E _. injection E as <- _. exact Ht.
      * discriminate.
    + intros E Hrun. injection E as <- _. discriminate.
    + discriminate.
  - intros E Hrun. injection E as <- _. discriminate.
Qed.

Lemma discoverFoundryService_running_not_null w r w' :
  discoverFoundryService env w = (Returns r, w') ->
  Discovery.isRunning r = true -> Discovery.endpoint r <> JNull.
Proof.
  intros E Hrun.
  assert (Ht : JS.truthy (Discovery.endpoint r) = true).
  { destruct (cacheCheck env w) as [[[]|err] w1] eqn:Hc.
    - destruct (discover_cache_hit w w1 Hc) as (c & Hct & Ed).
      rewrite Ed in E. injection E as <- _. exact Hct.
    - rewrite (discover_cache_miss w w1 Hc) in E.
      exact (discoverFromCLI_running_truthy w1 r w' E Hrun).
    - exfalso. unfold cacheCheck, discoverFoundryService, bind in *.
      destruct (readCachedEndpoint env w) as [[c|err'] wa].
      + destruct (JS.truthy c).
        * rewrite Hc in E. discriminate.
        * discriminate.
      + discriminate. }
  intros Hnull. rewrite Hnull in Ht. discriminate.
Qed.

(** C4.  When the first status query of [startFoundryService] reports
    running with a truthy endpoint, the function returns started = false and
    wasAlreadyRunning = true after that one query -- the launch command is
    not executed; and with no cache file, [discoverFoundryService] then
    completes with a result without the launch command among the events it
    performs. *)
Theorem already_running_never_launches (w : State) :
  reportsRunning (queryOutcome env (execCount w)) = true ->
  (exists msg,
     startFoundryService env w
     = (Returns (mkStart false true msg), afterExec statusCmd w)
     /\ performs w (afterExec statusCmd w) [EvExecAwaited statusCmd]
     /\ existsb isLaunch [EvExecAwaited statusCmd] = false)
  /\ (files w !! cacheFile env = None -> cacheFile env ∉ dirs w ->
      exists r w' evs,
        discoverFoundryService env w = (Returns r, w')
        /\ performs w w' evs
        /\ existsb isLaunch evs = false).
Proof.
  intros Hup. split.
  - eexists. split; [apply (startFoundryService_already w Hup)|].
    split; reflexivity.
  - intros Hfile Hdir.
    rewrite (discover_cache_miss w w (cacheCheck_absent w Hfile Hdir)).
    unfold discoverFromCLI.
    rewrite (bind_returns _ _ _ _ _ (startFoundryService_already w Hup)).
    destruct (neverThrows_queryVerifyCache (afterExec statusCmd w)) as [r Hr].
    destruct (queryVerifyCache_notLaunch env (afterExec statusCmd w))
      as (evs & Hevs & Hok).
    destruct (queryVerifyCache env (afterExec statusCmd w)) as [o w'] eqn:Hrun.
    cbn [fst snd] in *. subst o.
    exists r, w', (EvExecAwaited statusCmd :: evs).
    split; [reflexivity|]. split.
    + unfold performs in *. rewrite Hevs. cbn [afterExec trace].
      now rewrite <- app_assoc.
    + cbn [existsb isLaunch orb].
      clear -Hok. induction evs as [|e evs IH]; [reflexivity|].
      cbn [forallb existsb] in *. apply andb_true_iff in Hok as [He Hevs].
      unfold notLaunch in He. apply negb_true_iff in He. rewrite He.
      now apply IH.
Qed.

(** C8.  When neither the first status query nor any of the 60 queries
    of the polling loop reports running, [startFoundryService] returns
    started = false and wasAlreadyRunning = false without throwing, after
    the launch, a delay of 2000 ms and 60 rounds of a query followed by a
    delay of 1000 ms (62 s of delays in all); [discoverFoundryService]
    then goes on with the settle delay of 1000 ms and one further status
    query.  When that query gives no endpoint it returns at once, with
    endpoint null.  When it gives one, the endpoint is verified once: if it
    is not a URL no request is sent, otherwise one probe is sent to it;
    the result carries the endpoint and the port of the query, and
    isRunning tells whether the probe was answered; the endpoint is cached
    when it was. *)
Theorem poll_budget_exhausted_soft_failure (w w1 : State) :
  cacheCheck env w = (Returns false, w1) ->
  reportsRunning (queryOutcome env (execCount w1)) = false ->
  (forall i, (i < 60)%nat ->
     reportsRunning (queryOutcome env (S (execCount w1) + i)) = false) ->
  let wp := afterRounds 60 (afterLaunch w1) in
  let cli := queryOutcome env (execCount w1 + 61) in
  let wq := afterExec statusCmd (afterSleep 1000 wp) in
  startFoundryService env w1
  = (Returns (mkStart false false
                "Service start timeout - please check manually"), wp)
  /\ performs w1 wp
       ([EvExecAwaited statusCmd; EvExecDetached launchCmd; EvSleep 2000]
        ++ pollRounds 60)
  /\ clock wp = clock w1 + 2000 + 60 * 1000
  /\ performs wp wq [EvSleep 1000; EvExecAwaited statusCmd]
  /\ (JS.truthy (endpoint cli) = false ->
      discoverFoundryService env w
      = (Returns (Discovery.mk JNull (port cli) false), wq))
  /\ (JS.truthy (endpoint cli) = true ->
      (URL.parse (JS.toString (endpoint cli)) = None ->
       discoverFoundryService env w
       = (Returns (Discovery.mk (endpoint cli) (port cli) false), wq))
      /\ (forall u : URL.Loc,
            URL.parse (JS.toString (endpoint cli)) = Some u ->
            let probe := requestFor u None in
            let wv := afterRequest probe wq in
            (isResponse (requestResult env (requestCount wq) probe) = false ->
             discoverFoundryService env w
             = (Returns (Discovery.mk (endpoint cli) (port cli) false), wv))
            /\ (isResponse (requestResult env (requestCount wq) probe) = true ->
                discoverFoundryService env w
                = (Returns (Discovery.mk (endpoint cli) (port cli) true),
                   snd (cacheEndpoint env (endpoint cli) wv))))).
Proof.
  intros Hmiss Hfirst Hpoll wp cli wq.
  pose proof (startFoundryService_timeout w1 Hfirst Hpoll) as Hstart.
  fold wp in Hstart.
  assert (Hdisc : discoverFoundryService env w = queryVerifyCache env wp).
  { rewrite (discover_cache_miss w w1 Hmiss). unfold discoverFromCLI.
    now rewrite (bind_returns _ _ _ _ _ Hstart). }
  assert (Hq : queryVerifyCache env wp
               = (if negb (JS.truthy (endpoint cli))
                  then ret (Discovery.mk JNull (port cli) false)
                  else verifyAndCache env cli) wq).
  { unfold queryVerifyCache. unfold bind at 1. cbn [Sys.sleep].
    fold (afterSleep 1000 wp).
    rewrite (bind_returns _ _ _ _ _
               (queryServiceFromCLI_run env (afterSleep 1000 wp))).
    fold wq.
    replace (execCount (afterSleep 1000 wp)) with (execCount w1 + 61)%nat.
    - reflexivity.
    - cbn [afterSleep execCount]. unfold wp.
      rewrite afterRounds_execCount. cbn. lia. }
  split; [exact Hstart|]. split.
  { unfold performs, wp. rewrite afterRounds_trace.
    cbn [afterLaunch afterSleep emit afterExec trace].
    now rewrite <- !app_assoc. }
  split.
  { unfold wp. rewrite afterRounds_clock. cbn [afterLaunch afterSleep emit
      afterExec clock]. lia. }
  split.
  { unfold performs, wq. cbn [afterExec afterSleep trace].
    now rewrite <- app_assoc. }
  split.
  - intros Hno. rewrite Hdisc, Hq, Hno. reflexivity.
  - intros Hyes. rewrite Hdisc, Hq, Hyes. cbn [negb]. unfold verifyAndCache.
    split.
    + intros Hnone.
      assert (Hv : verifyEndpoint env (endpoint cli) None wq
                   = (Returns false, wq))
        by (now rewrite verifyEndpoint_run, Hnone).
      now rewrite (bind_returns _ _ _ _ _ Hv).
    + intros u Hu. set (probe := requestFor u None).
      set (wv := afterRequest probe wq).
      assert (Hv : verifyEndpoint env (endpoint cli) None wq
                   = (Returns (isResponse
                                 (requestResult env (requestCount wq) probe)),
                      wv)).
      { rewrite verifyEndpoint_run, Hu. reflexivity. }
      rewrite (bind_returns _ _ _ _ _ Hv).
      split; intros ->; cbn [negb]; [reflexivity|].
      destruct (neverThrows_cacheEndpoint (endpoint cli) wv) as [[] Hc].
      destruct (cacheEndpoint env (endpoint cli) wv) as [o w'] eqn:Hce.
      cbn [fst] in Hc. subst o.
      now rewrite (bind_returns _ _ _ _ _ Hce).
Qed.

(** C5.  When the endpoint given by the final status query fails the
    verification, [discoverFoundryService] returns (it does not throw) a
    result that carries that endpoint with isRunning = false; nothing is
    written to the file system in that run. *)
Theorem unverified_endpoint_is_returned
    (w w1 w2 w3 : State) (s : StartOutcome) (cli : QueryResult) :
  cacheCheck env w = (Returns false, w1) ->
  startFoundryService env w1 = (Returns s, w2) ->
  queryServiceFromCLI env (afterSleep 1000 w2) = (Returns cli, w3) ->
  JS.truthy (endpoint cli) = true ->
  fst (verifyEndpoint env (endpoint cli) None w3) = Returns false ->
  exists w' evs,
    discoverFoundryService env w
    = (Returns (Discovery.mk (endpoint cli) (port cli) false), w')
    /\ files w' = files w /\ dirs w' = dirs w
    /\ performs w w' evs
    /\ existsb isFsWrite evs = false.
Proof.
  intros Hmiss Hstart Hquery Hendpoint Hverify.
  destruct (verifyEndpoint env (endpoint cli) None w3) as [o w'] eqn:Hv.
  cbn [fst] in Hverify. subst o.
  assert (Hrun : discoverFoundryService env w
                 = (Returns (Discovery.mk (endpoint cli) (port cli) false), w')).
  { rewrite (discover_cache_miss w w1 Hmiss). unfold discoverFromCLI.
    rewrite (bind_returns _ _ _ _ _ Hstart).
    unfold queryVerifyCache. unfold bind at 1. cbn [Sys.sleep].
    fold (afterSleep 1000 w2).
    rewrite (bind_returns _ _ _ _ _ Hquery), Hendpoint. cbn [negb].
    unfold verifyAndCache.
    now rewrite (bind_returns _ _ _ _ _ Hv). }
  assert (Hro : readsOnly w w').
  { pose proof (cacheCheck_readsOnly env w) as R1. rewrite Hmiss in R1.
    pose proof (startFoundryService_readsOnly env w1) as R2.
    rewrite Hstart in R2.
    assert (R3 : readsOnly w2 (afterSleep 1000 w2)).
    { split; [split; reflexivity|].
      eapply onlyEvents_one; [reflexivity | reflexivity]. }
    pose proof (queryServiceFromCLI_readsOnly env (afterSleep 1000 w2)) as R4.
    rewrite Hquery in R4.
    pose proof (verifyEndpoint_readsOnly env (endpoint cli) None w3) as R5.
    rewrite Hv in R5. cbn [snd] in *.
    repeat (eapply readsOnly_trans; [eassumption|]). apply readsOnly_refl. }
  destruct Hro as [[Hf Hd] (evs & Hevs & Hok)].
  exists w', evs. repeat split; try assumption.
  clear -Hok. induction evs as [|e evs IH]; [reflexivity|].
  cbn [forallb existsb] in *. apply andb_true_iff in Hok as [He Hevs].
  unfold notFsWrite in He. apply negb_true_iff in He. rewrite He.
  now apply IH.
Qed.

End Discovery.

Lemma already_running_never_launches_witness :
  reportsRunning (queryOutcome (Example.serviceUp (Response 200)) 0) = true
  /\ (exists r w' evs,
        @discoverFoundryService URL.ascii (Example.serviceUp (Response 200))
          Example.atStart = (Returns r, w')
        /\ performs Example.atStart w' evs
        /\ existsb isLaunch evs = false).
Proof.
  split; [vm_compute; reflexivity|].
  refine (proj2 (@already_running_never_launches URL.ascii
                   (Example.serviceUp (Response 200)) Example.atStart _) _ _).
  - vm_compute; reflexivity.
  - vm_compute; reflexivity.
  - apply not_elem_of_empty.
Defined.

Lemma poll_budget_exhausted_soft_failure_witness :
  let wp := afterRounds 60 (afterLaunch Example.atStart) in
  let wq := afterExec statusCmd (afterSleep 1000 wp) in
  let wv :=
    afterRequest
      (mkRequest "127.0.0.1" (JStr "55329") "/v1/models" "GET" 3000) wq in
  (@startFoundryService Example.serviceDown Example.atStart
   = (Returns (mkStart false false
                 "Service start timeout - please check manually"), wp)
   /\ @discoverFoundryService URL.ascii Example.serviceDown Example.atStart
      = (Returns (Discovery.mk JNull JNull false), wq))
  /\ (@startFoundryService Example.serviceLate Example.atStart
      = (Returns (mkStart false false
                    "Service start timeout - please check manually"), wp)
      /\ @discoverFoundryService URL.ascii Example.serviceLate Example.atStart
         = (Returns (Discovery.mk (JStr "http://127.0.0.1:55329")
                       (JNum (Num.ofN 55329)) true),
            snd (@cacheEndpoint Example.serviceLate
                   (JStr "http://127.0.0.1:55329") wv))).
Proof.
  cbv zeta. split.
  - pose proof (@poll_budget_exhausted_soft_failure URL.ascii
                  Example.serviceDown Example.atStart Example.atStart) as P.
    cbv zeta in P.
    assert (H1 : @cacheCheck URL.ascii Example.serviceDown Example.atStart
                 = (Returns false, Example.atStart))
      by (vm_compute; reflexivity).
    assert (H2 : reportsRunning (queryOutcome Example.serviceDown
                                   (execCount Example.atStart)) = false)
      by reflexivity.
    assert (H3 : forall i, (i < 60)%nat ->
              reportsRunning (queryOutcome Example.serviceDown
                                (S (execCount Example.atStart) + i)) = false)
      by (intros i _; reflexivity).
    destruct (P H1 H2 H3) as (Hstart & _ & _ & _ & Hnone & _).
    split; [exact Hstart | exact (Hnone eq_refl)].
  - pose proof (@poll_budget_exhausted_soft_failure URL.ascii
                  Example.serviceLate Example.atStart Example.atStart) as P.
    cbv zeta in P.
    assert (H1 : @cacheCheck URL.ascii Example.serviceLate Example.atStart
                 = (Returns false, Example.atStart))
      by (vm_compute; reflexivity).
    assert (H2 : reportsRunning (queryOutcome Example.serviceLate
                                   (execCount Example.atStart)) = false)
      by reflexivity.
    assert (H3 : forall i, (i < 60)%nat ->
              reportsRunning (queryOutcome Example.serviceLate
                                (S (execCount Example.atStart) + i)) = false).
    { intros i Hi. unfold queryOutcome, Example.serviceLate.
      cbn [commandResult execCount Example.atStart].
      match goal with
      | |- context [(?a <? 61)%nat] =>
          destruct (Nat.ltb_spec a 61); [reflexivity | lia]
      end. }
    destruct (P H1 H2 H3) as (Hstart & _ & _ & _ & _ & Hsome).
    split; [exact Hstart|].
    destruct (Hsome eq_refl) as [_ Hprobe].
    exact (proj2 (Hprobe (URL.mkLoc "http:" "127.0.0.1" "55329" "/")
                    ltac:(vm_compute; reflexivity))
             eq_refl).
Defined.

Lemma unverified_endpoint_is_returned_witness :
  exists w' evs,
    @discoverFoundryService URL.ascii
      (Example.serviceUp (NetworkError "ECONNREFUSED")) Example.atStart
    = (Returns (Discovery.mk (JStr "http://127.0.0.1:55329")
                  (JNum (Num.ofN 55329)) false), w')
    /\ files w' = files Example.atStart /\ dirs w' = dirs Example.atStart
    /\ performs Example.atStart w' evs
    /\ existsb isFsWrite evs = false.
Proof.
  refine (@unverified_endpoint_is_returned URL.ascii
            (Example.serviceUp (NetworkError "ECONNREFUSED"))
            Example.atStart Example.atStart
            (afterExec statusCmd Example.atStart)
            (afterExec statusCmd
               (afterSleep 1000 (afterExec statusCmd Example.atStart)))
            (mkStart false true
               "Service already running on http://127.0.0.1:55329")
            (queryOutcome (Example.serviceUp (NetworkError "ECONNREFUSED")) 1)
            _ _ _ _ _);
    vm_compute; reflexivity.
Defined.

(** * Further properties: the models, the URLs, the cache and main.js *)

(** ** The regular expressions on texts given by their parts *)

Lemma all_drop p n : forall s, Str.all p s = true -> Str.all p (Str.drop n s) = true.
Proof.
  induction n as [|n IH]; intros [|c s] Hs; cbn [Str.drop]; try assumption.
  cbn [Str.all] in Hs. apply andb_true_iff in Hs as [_ Hs]. now apply IH.
Qed.

Lemma all_dropWhile p q s :
  Str.all p s = true -> Str.all p (Str.dropWhile q s) = true.
Proof.
  induction s as [|c s IH]; cbn [Str.dropWhile]; [reflexivity|].
  intros Hs. destruct (q c); [|exact Hs].
  cbn [Str.all] in Hs. apply andb_true_iff in Hs as [_ Hs]. now apply IH.
Qed.

Lemma run_none p s :
  Str.all (fun c => negb (p c)) s = true -> Str.run p s = 0%nat.
Proof.
  destruct s as [|c s]; [reflexivity|]. cbn [Str.all Str.run].
  intros Hs. apply andb_true_iff in Hs as [Hc _].
  apply negb_true_iff in Hc. now rewrite Hc.
Qed.

Lemma run_append p (a b : string) :
  Str.all p a = true ->
  match b with String c _ => p c = false | EmptyString => True end ->
  Str.run p (a +:+ b) = String.length a.
Proof.
  intros Ha Hb. induction a as [|c a IH]; cbn in *.
  - destruct b as [|c r]; cbn; [reflexivity | now rewrite Hb].
  - apply andb_true_iff in Ha as [Hc Ha]. rewrite Hc. f_equal. now apply IH.
Qed.

Lemma take_append (a b : string) : Str.take (String.length a) (a +:+ b) = a.
Proof.
  induction a as [|c a IH]; cbn; [destruct b; reflexivity | now rewrite IH].
Qed.

Lemma drop_append (a b : string) : Str.drop (String.length a) (a +:+ b) = b.
Proof. induction a as [|c a IH]; cbn; [reflexivity | exact IH]. Qed.

(** A pattern with a literal character that the text does not have
    matches nowhere. *)
Lemma matchHere_needs (ch : ascii) (post : list Regex.item) :
  forall (pre : list Regex.item) (pos : nat) (s : string),
    Str.all (fun c => negb (Ascii.eqb ch c)) s = true ->
    Regex.matchHere (pre ++ Regex.lit ch :: post) pos s = None.
Proof.
  induction pre as [|[cap cls q| |] pre IH]; intros pos s Hs; cbn [app].
  - unfold Regex.lit. cbn [Regex.matchHere Regex.most Regex.least].
    rewrite (run_none _ s Hs). destruct s; reflexivity.
  - cbn [Regex.matchHere].
    generalize (Regex.most q (Str.run cls s)). intros n.
    induction n as [|n IHn].
    + rewrite (IH _ _ (all_drop _ 0 s Hs)). destruct (Regex.least q <=? 0)%nat; reflexivity.
    + rewrite (IH _ _ (all_drop _ (S n) s Hs)).
      destruct (Regex.least q <=? S n)%nat; exact IHn.
  - cbn [Regex.matchHere]. destruct (pos =? 0)%nat; [now apply IH | reflexivity].
  - cbn [Regex.matchHere]. destruct (Str.isEmpty s); [now apply IH | reflexivity].
Qed.

Lemma searchFrom_needs (ch : ascii) (pre post : list Regex.item) :
  forall (s : string) (pos : nat),
    Str.all (fun c => negb (Ascii.eqb ch c)) s = true ->
    Regex.searchFrom (pre ++ Regex.lit ch :: post) pos s = None.
Proof.
  induction s as [|c s IH]; intros pos Hs; cbn [Regex.searchFrom];
    rewrite (matchHere_needs ch post pre pos _ Hs); [reflexivity|].
  cbn [Str.all] in Hs. apply andb_true_iff in Hs as [_ Hs]. now apply IH.
Qed.

(** A greedy item that takes all it can, followed by a match of the rest
    of the pattern. *)
Lemma matchHere_greedy cap cls q (p : list Regex.item) pos s m g :
  (Regex.least q <= Regex.most q (Str.run cls s))%nat ->
  Regex.matchHere p (pos + Regex.most q (Str.run cls s))
    (Str.drop (Regex.most q (Str.run cls s)) s) = Some (m, g) ->
  Regex.matchHere (Regex.Atom cap cls q :: p) pos s
  = Some (Str.take (Regex.most q (Str.run cls s)) s +:+ m,
          if cap then Some (Str.take (Regex.most q (Str.run cls s)) s) else g).
Proof.
  intros Hle Hm. cbn [Regex.matchHere].
  revert Hle Hm. generalize (Regex.most q (Str.run cls s)). intros n Hle Hm.
  apply Nat.leb_le in Hle.
  destruct n as [|n]; rewrite Hle, Hm; reflexivity.
Qed.

(** ** getAvailableModels *)

Section ModelsRun.
Context `{URL.Platform}.
Variable exchange : nat -> RequestOptions -> list (string * string) -> Exchange.

Lemma getAvailableModels_run (endpoint : JSValue) (w : State) :
  getAvailableModels exchange endpoint w
  = if negb (JS.truthy endpoint) then (Returns (Resolved []), w)
    else
      match URL.parse (JS.toString endpoint) with
      | None => (Returns (Resolved []), w)
      | Some u =>
          match URL.parse (origin u) with
          | None => (Returns (Resolved []), w)
          | Some u' =>
              (Returns
                 match exchange (requestCount w) (modelsRequest u') acceptJson with
                 | Answered _ chunks => Resolved (onEnd (bodyText chunks))
                 | Aborted _ _ => Pending
                 | _ => Resolved []
                 end,
               afterRequest (modelsRequest u') w)
          end
      end.
Proof.
  unfold getAvailableModels, tryCatch.
  destruct (JS.truthy endpoint); cbn [negb]; [|reflexivity].
  unfold URL.new.
  destruct (URL.parse (JS.toString endpoint)) as [u|]; [|reflexivity].
  change (URL.protocol u +:+ "//" +:+ Loc.host u) with (origin u).
  unfold bind, lift.
  destruct (URL.parse (origin u)) as [u'|]; [|reflexivity].
  unfold httpExchange. fold (modelsRequest u'). fold acceptJson.
  fold (afterRequest (modelsRequest u') w).
  destruct (exchange (requestCount w) (modelsRequest u') acceptJson);
    reflexivity.
Qed.

Lemma getAvailableModels_returns (endpoint : JSValue) (w : State) :
  exists (listing : Settled (list JSObject)) (w' : State),
    getAvailableModels exchange endpoint w = (Returns listing, w')
    /\ files w' = files w /\ dirs w' = dirs w /\ clock w' = clock w
    /\ execCount w' = execCount w.
Proof.
  rewrite getAvailableModels_run.
  destruct (negb (JS.truthy endpoint)); [eexists _, _; repeat split|].
  destruct (URL.parse (JS.toString endpoint)) as [u|];
    [|eexists _, _; repeat split].
  destruct (URL.parse (origin u)) as [u'|]; eexists _, _; repeat split.
Qed.

Lemma afterRequest_inj (options options' : RequestOptions) (w : State) :
  afterRequest options w = afterRequest options' w -> options = options'.
Proof.
  intros E. apply (f_equal trace) in E. cbn [afterRequest trace] in E.
  apply app_inv_head in E. now injection E.
Qed.

Lemma afterRequest_changes (options : RequestOptions) (w : State) :
  afterRequest options w <> w.
Proof.
  intros E. apply (f_equal requestCount) in E.
  cbn [afterRequest requestCount] in E. lia.
Qed.

(** X1.  [getAvailableModels] never throws and its promise is never
    rejected.  It sends at most one request, a GET of /v1/models with a
    time-out of 5000 ms, and leaves the clock, the file system and the
    command counter as they were.  An endpoint that is falsy or that is not
    a URL gives the empty list without any request.  The promise is
    resolved in every case but one: when the request is sent and its
    response begins but is cut short before it ends, nothing settles the
    promise, and it stays pending. *)
Theorem getAvailableModels_never_rejects (endpoint : JSValue) (w : State) :
  exists (listing : Settled (list JSObject)) (w' : State),
    getAvailableModels exchange endpoint w = (Returns listing, w')
    /\ (w' = w
        \/ exists options,
             w' = afterRequest options w
             /\ reqPath options = "/v1/models" /\ reqMethod options = "GET"
             /\ reqTimeout options = 5000)
    /\ (JS.truthy endpoint = false \/ URL.parse (JS.toString endpoint) = None ->
        listing = Resolved [] /\ w' = w)
    /\ (listing = Pending <->
        exists options code chunks,
          w' = afterRequest options w
          /\ exchange (requestCount w) options acceptJson = Aborted code chunks).
Proof.
  rewrite getAvailableModels_run.
  assert (Hnone : forall w0 : State,
            ~ exists options code chunks,
                w0 = afterRequest options w0
                /\ exchange (requestCount w0) options acceptJson
                   = Aborted code chunks).
  { intros w0 (options & _ & _ & E & _).
    symmetry in E. exact (afterRequest_changes _ _ E). }
  destruct (JS.truthy endpoint) eqn:Ht; cbn [negb].
  2:{ exists (Resolved []), w. split; [reflexivity|]. split; [now left|].
      split; [auto|]. split; [discriminate | intros F; now elim (Hnone w)]. }
  destruct (URL.parse (JS.toString endpoint)) as [u|] eqn:Hu.
  2:{ exists (Resolved []), w. split; [reflexivity|]. split; [now left|].
      split; [auto|]. split; [discriminate | intros F; now elim (Hnone w)]. }
  destruct (URL.parse (origin u)) as [u'|] eqn:Hu'.
  2:{ exists (Resolved []), w. split; [reflexivity|]. split; [now left|].
      split; [intros [E|E]; discriminate|].
      split; [discriminate | intros F; now elim (Hnone w)]. }
  eexists _, _. split; [reflexivity|]. split.
  { right. exists (modelsRequest u'). repeat split; reflexivity. }
  split; [intros [E|E]; discriminate|]. split.
  - intros E. exists (modelsRequest u').
    destruct (exchange (requestCount w) (modelsRequest u') acceptJson)
      as [code chunks|code chunks|msg| |msg]; try discriminate E.
    exists code, chunks. split; reflexivity.
  - intros (options & code & chunks & E & Hx).
    apply afterRequest_inj in E. subst options. now rewrite Hx.
Qed.

End ModelsRun.

(** *** The models of a response *)

Lemma lookup_app k (a b : JSObject) :
  Obj.lookup k (a ++ b)
  = match Obj.lookup k b with Some v => Some v | None => Obj.lookup k a end.
Proof.
  induction a as [|[k' v] a IH]; cbn [app Obj.lookup].
  - destruct (Obj.lookup k b); reflexivity.
  - rewrite IH. destruct (Obj.lookup k b); reflexivity.
Qed.

Lemma lookup_spread k (v : JSValue) :
  Obj.lookup k (Obj.spread v) = option_map Some (JS.lookup k (Obj.ownProps v)).
Proof.
  unfold Obj.spread. induction (Obj.ownProps v) as [|[k' x] l IH];
    cbn [List.map Obj.lookup JS.lookup fst snd option_map]; [reflexivity|].
  rewrite IH. destruct (JS.lookup k l); cbn [option_map]; [reflexivity|].
  destruct (String.eqb k k'); reflexivity.
Qed.

Lemma decorate_not_null (model : JSValue) :
  model <> JNull -> decorate model = Returns (decorated model).
Proof. intros Hm. destruct model; [contradiction|..]; reflexivity. Qed.

Lemma decorate_returns (model : JSValue) (o : JSObject) :
  decorate model = Returns o -> model <> JNull.
Proof. intros E ->. discriminate. Qed.

Lemma mapOutcome_decorate (items : list JSValue) :
  Forall (fun item => item <> JNull) items ->
  mapOutcome decorate items = Returns (List.map decorated items).
Proof.
  induction 1 as [|x l Hx _ IH]; cbn [mapOutcome List.map]; [reflexivity|].
  now rewrite (decorate_not_null x Hx), IH.
Qed.

Lemma mapOutcome_returns (items : list JSValue) (l : list JSObject) :
  mapOutcome decorate items = Returns l ->
  Forall (fun item => item <> JNull) items.
Proof.
  revert l. induction items as [|x items IH]; intros l E; [constructor|].
  cbn [mapOutcome] in E.
  destruct (decorate x) as [o|] eqn:Ex; [|discriminate].
  destruct (mapOutcome decorate items) as [l'|] eqn:El; [|discriminate].
  constructor; [exact (decorate_returns x o Ex) | exact (IH l' eq_refl)].
Qed.

Lemma mapOutcome_null (items : list JSValue) :
  In JNull items -> exists err, mapOutcome decorate items = Throws err.
Proof.
  induction items as [|x items IH]; [contradiction|].
  intros [->|Hin]; cbn [mapOutcome].
  - eexists. reflexivity.
  - destruct (decorate x); [|eexists; reflexivity].
    destruct (IH Hin) as [err ->]. eexists. reflexivity.
Qed.

Lemma decorated_props (model : JSValue) :
  Obj.get "status" (decorated model) = Some (JStr "running")
  /\ Obj.get "alias" (decorated model) = JS.prop model "id"
  /\ Obj.get "displayName" (decorated model) = JS.prop model "id"
  /\ forall k, k <> "alias" -> k <> "displayName" -> k <> "status" ->
       Obj.get k (decorated model) = JS.lookup k (Obj.ownProps model).
Proof.
  unfold Obj.get, decorated. repeat split.
  - rewrite lookup_app. reflexivity.
  - rewrite lookup_app. reflexivity.
  - rewrite lookup_app. reflexivity.
  - intros k H1 H2 H3. rewrite lookup_app. cbn [Obj.lookup].
    apply String.eqb_neq in H1, H2, H3. rewrite H1, H2, H3.
    rewrite lookup_spread. destruct (JS.lookup k _); reflexivity.
Qed.

Lemma onEnd_models (data : string) (json : JSValue) (items : list JSValue) :
  JSON.parse data = Returns json ->
  JS.getProp json "data" = Returns (Some (JArr items)) ->
  Forall (fun item => item <> JNull) items ->
  onEnd data = List.map decorated items.
Proof.
  intros Hparse Hdata Hitems. unfold onEnd. rewrite Hparse, Hdata.
  cbn [JS.truthyOpt JS.truthy default from_option]. unfold id.
  now rewrite (mapOutcome_decorate items Hitems).
Qed.

Lemma onEnd_nonempty (data : string) :
  onEnd data <> [] ->
  exists json items,
    JSON.parse data = Returns json
    /\ JS.getProp json "data" = Returns (Some (JArr items))
    /\ Forall (fun item => item <> JNull) items
    /\ onEnd data = List.map decorated items.
Proof.
  unfold onEnd. intros Hne.
  destruct (JSON.parse data) as [json|]; [|contradiction].
  destruct (JS.getProp json "data") as [d|] eqn:Hd; [|contradiction].
  destruct d as [v|]; cbn [JS.truthyOpt] in *; [|contradiction].
  destruct (JS.truthy v) eqn:Hv; [|contradiction].
  cbn [default from_option] in *. unfold id in *.
  destruct v as [| | | |items|]; try contradiction.
  destruct (mapOutcome decorate items) as [l|] eqn:Hl; [|contradiction].
  pose proof (mapOutcome_returns items l Hl) as Hall.
  exists json, items. repeat split; try assumption.
  rewrite (mapOutcome_decorate items Hall) in Hl. now injection Hl as <-.
Qed.

Section ModelsOfResponse.
Context `{URL.Platform}.
Variable exchange : nat -> RequestOptions -> list (string * string) -> Exchange.

(** X2.  When the response to the request of [getAvailableModels] ends,
    with any status code, and its body is a JSON object whose [data] is an
    array without null, there is one model in the result for each element
    of that array, in the same order: a copy of the element in which
    [status] is running and [alias] and [displayName] are the [id] of the
    element, whatever the element says of them; the other properties are
    those of the element. *)
Theorem getAvailableModels_decorates
    (endpoint : JSValue) (w : State) (u u' : URL.Loc) (code : Z)
    (chunks : list string) (json : JSValue) (items : list JSValue) :
  JS.truthy endpoint = true ->
  URL.parse (JS.toString endpoint) = Some u ->
  URL.parse (origin u) = Some u' ->
  exchange (requestCount w) (modelsRequest u') acceptJson = Answered code chunks ->
  JSON.parse (bodyText chunks) = Returns json ->
  JS.getProp json "data" = Returns (Some (JArr items)) ->
  Forall (fun item => item <> JNull) items ->
  exists models : list JSObject,
    fst (getAvailableModels exchange endpoint w) = Returns (Resolved models)
    /\ List.length models = List.length items
    /\ forall (i : nat) (item : JSValue),
         nth_error items i = Some item ->
         exists model,
           nth_error models i = Some model
           /\ Obj.get "status" model = Some (JStr "running")
           /\ Obj.get "alias" model = JS.prop item "id"
           /\ Obj.get "displayName" model = JS.prop item "id"
           /\ forall k, k <> "alias" -> k <> "displayName" -> k <> "status" ->
                Obj.get k model = JS.lookup k (Obj.ownProps item).
Proof.
  intros Ht Hu Hu' Hex Hparse Hdata Hitems.
  rewrite getAvailableModels_run, Ht. cbn [negb]. rewrite Hu, Hu', Hex.
  cbn [fst].
  exists (List.map decorated items).
  split; [do 2 f_equal; exact (onEnd_models _ json items Hparse Hdata Hitems)|].
  split; [apply length_map|].
  intros i item Hi. exists (decorated item).
  split; [now apply map_nth_error | apply decorated_props].
Qed.

(** X3.  A result that is not empty comes from a response that ended and
    whose body is a JSON object with an array [data] that holds no null:
    in every other case in which the promise is resolved -- no response,
    a body that is not JSON, [data] missing or not an array, one null among
    the models -- the result is the empty list. *)
Theorem getAvailableModels_nonempty
    (endpoint : JSValue) (w w' : State) (models : list JSObject) :
  getAvailableModels exchange endpoint w = (Returns (Resolved models), w') ->
  models <> [] ->
  exists u u' code chunks json items,
    URL.parse (JS.toString endpoint) = Some u
    /\ URL.parse (origin u) = Some u'
    /\ exchange (requestCount w) (modelsRequest u') acceptJson
       = Answered code chunks
    /\ JSON.parse (bodyText chunks) = Returns json
    /\ JS.getProp json "data" = Returns (Some (JArr items))
    /\ Forall (fun item => item <> JNull) items
    /\ List.length models = List.length items.
Proof.
  rewrite getAvailableModels_run. intros E Hne.
  destruct (JS.truthy endpoint); cbn [negb] in E;
    [|injection E as <- _; contradiction].
  destruct (URL.parse (JS.toString endpoint)) as [u|] eqn:Hu;
    [|injection E as <- _; contradiction].
  destruct (URL.parse (origin u)) as [u'|] eqn:Hu';
    [|injection E as <- _; contradiction].
  destruct (exchange (requestCount w) (modelsRequest u') acceptJson)
    as [code chunks|code chunks|msg| |msg] eqn:Hex;
    try discriminate E;
    try (injection E as <- _; contradiction).
  injection E as <- _.
  destruct (onEnd_nonempty _ Hne) as (json & items & Hp & Hd & Hall & Hm).
  exists u, u', code, chunks, json, items. repeat split; try assumption.
  rewrite Hm. apply length_map.
Qed.

End ModelsOfResponse.

Lemma getAvailableModels_decorates_witness :
  exists models : list JSObject,
    fst (@getAvailableModels URL.ascii ExampleModels.answers
           (JStr "http://127.0.0.1:55329/openai/status") Example.atStart)
    = Returns (Resolved models)
    /\ List.length models = 2%nat
    /\ (exists model,
          nth_error models 0 = Some model
          /\ Obj.get "status" model = Some (JStr "running")
          /\ Obj.get "alias" model = Some (JStr "phi-3-mini")
          /\ Obj.get "id" model = Some (JStr "phi-3-mini")).
Proof.
  destruct (@getAvailableModels_decorates URL.ascii ExampleModels.answers
              (JStr "http://127.0.0.1:55329/openai/status") Example.atStart
              (URL.mkLoc "http:" "127.0.0.1" "55329" "/openai/status")
              ExampleModels.local 404 ExampleModels.body ExampleModels.json
              ExampleModels.items)
    as (models & Hrun & Hlen & Hmodels).
  - reflexivity.
  - vm_compute. reflexivity.
  - vm_compute. reflexivity.
  - reflexivity.
  - vm_compute. reflexivity.
  - reflexivity.
  - repeat constructor; discriminate.
  - exists models. split; [exact Hrun|]. split; [exact Hlen|].
    destruct (Hmodels 0%nat _ eq_refl) as (model & Hn & Hs & Ha & _ & Hk).
    exists model. split; [exact Hn|]. split; [exact Hs|]. split; [exact Ha|].
    rewrite Hk by discriminate. reflexivity.
Defined.

Lemma getAvailableModels_nonempty_witness :
  exists u u' code chunks json items,
    URL.parse (H := URL.ascii) "http://127.0.0.1:55329/openai/status" = Some u
    /\ URL.parse (H := URL.ascii) (origin u) = Some u'
    /\ ExampleModels.answers 0 (modelsRequest u') acceptJson
       = Answered code chunks
    /\ JSON.parse (bodyText chunks) = Returns json
    /\ JS.getProp json "data" = Returns (Some (JArr items))
    /\ Forall (fun item => item <> JNull) items
    /\ 2%nat = List.length items.
Proof.
  refine (@getAvailableModels_nonempty URL.ascii ExampleModels.answers
            (JStr "http://127.0.0.1:55329/openai/status") Example.atStart
            (afterRequest (modelsRequest ExampleModels.local) Example.atStart)
            (List.map decorated ExampleModels.items) _ _).
  - vm_compute. reflexivity.
  - discriminate.
Defined.

(** ** The URL parser on http and https URLs *)

Section WebUrl.
Context `{URL.Platform}.

Lemma splitHostPort_host host :
  Str.all isPlainHostChar host = true ->
  URL.splitHostPort false host = (host, None).
Proof.
  induction host as [|c host IH]; cbn [Str.all]; [reflexivity|].
  intros Hall. apply andb_true_iff in Hall as [Hc Hhost].
  destruct (plainHostChar_facts c Hc) as (_ & _ & _ & _ & _ & H1 & H2 & H3).
  cbn [URL.splitHostPort]. rewrite H1, H2, H3. cbn [andb].
  now rewrite (IH Hhost).
Qed.

Lemma splitHostPort_authority host p :
  Str.all isPlainHostChar host = true ->
  URL.splitHostPort false (authorityText host p) = (host, p).
Proof.
  intros Hhost. destruct p as [ds|]; unfold authorityText.
  - now apply splitHostPort_plain.
  - rewrite append_nil_r. now apply splitHostPort_host.
Qed.

Lemma authority_all (q : ascii -> bool) host p :
  (forall c, isPlainHostChar c = true -> q c = true) ->
  (forall c, Chars.isDigit c = true -> q c = true) ->
  q ":"%char = true ->
  Str.all isPlainHostChar host = true ->
  isPortText p = true ->
  Str.all q (authorityText host p) = true.
Proof.
  intros Hq1 Hq2 Hq3 Hhost Hp. unfold authorityText. rewrite all_append.
  rewrite (all_impl _ _ _ Hq1 Hhost). destruct p as [ds|]; [|reflexivity].
  cbn [Str.all andb]. rewrite Hq3. cbn [andb].
  unfold isPortText in Hp. apply andb_true_iff in Hp as [Hp _].
  apply andb_true_iff in Hp as [_ Hds]. exact (all_impl _ _ _ Hq2 Hds).
Qed.

Lemma parsePort_text scheme p :
  isPortText p = true ->
  URL.parsePort scheme (default EmptyString p) = Some (portGetter scheme p).
Proof.
  destruct p as [ds|]; [|reflexivity].
  unfold isPortText. intros Hp. apply andb_true_iff in Hp as [Hp Hmax].
  apply andb_true_iff in Hp as [Hne Hds]. apply negb_true_iff in Hne.
  apply N.leb_le in Hmax.
  unfold URL.parsePort, portGetter. cbn [default from_option]. unfold id.
  rewrite Hds, Hne. cbn [negb].
  destruct (N.ltb_spec 65535 (Str.toN ds)); [lia|].
  destruct (bool_decide _); reflexivity.
Qed.

(** An http or https URL made of a plain host name, an optional port and
    a path, query or fragment parses to that host, as the host parser
    gives it, and to that port. *)
Lemma parse_web_url (scheme host rest h : string) (p : option string) :
  scheme = "http" \/ scheme = "https" ->
  host <> EmptyString ->
  Str.all isPlainHostChar host = true ->
  URL.parseHost false host = Some h ->
  isPortText p = true ->
  isUrlTail rest = true ->
  URL.parse (scheme +:+ "://" +:+ authorityText host p +:+ rest)
  = Some (URL.mkLoc (scheme +:+ ":") h (portGetter scheme p)
            (URL.pathnameOf scheme rest)).
Proof.
  intros Hscheme Hne Hhost Hparse Hp Htail.
  unfold isUrlTail in Htail. apply andb_true_iff in Htail as [Hvis Hrest].
  set (auth := authorityText host p).
  assert (Hauth_vis : Str.all isVisible auth = true).
  { apply authority_all; try assumption; [| |reflexivity].
    - intros c Hc. apply (plainHostChar_facts c Hc).
    - intros c Hc. apply (digit_facts c Hc). }
  assert (Hauth_end :
    Str.all (fun c => negb (URL.isAuthorityEnd true c)) auth = true).
  { apply authority_all; try assumption; [| |reflexivity].
    - intros c Hc. destruct (plainHostChar_facts c Hc) as (_&_&_&E&_).
      now rewrite E.
    - intros c Hc. destruct (digit_facts c Hc) as (_&_&E&_). now rewrite E. }
  assert (Hauth_at : Str.all (fun c => negb (Ascii.eqb "@" c)) auth = true).
  { apply authority_all; try assumption; [| |reflexivity].
    - intros c Hc. destruct (plainHostChar_facts c Hc) as (_&_&_&_&E&_).
      now rewrite E.
    - intros c Hc. destruct (digit_facts c Hc) as (_&_&_&E). now rewrite E. }
  assert (Hauth_head : Str.dropWhile URL.isSlash (auth +:+ rest) = auth +:+ rest).
  { unfold auth, authorityText. destruct host as [|c host]; [contradiction|].
    cbn [Str.all] in Hhost. apply andb_true_iff in Hhost as [Hc _].
    destruct (plainHostChar_facts c Hc) as (_ & _ & E & _).
    cbn [String.append]. apply dropWhile_head. exact E. }
  assert (Hclean : forall text,
    Str.all isVisible text = true -> text <> EmptyString ->
    Str.filter (fun c => negb (URL.isTabOrNewline c))
      (Str.dropWhileEnd URL.isC0OrSpace (Str.dropWhile URL.isC0OrSpace text))
    = text).
  { intros text Hall Htext. destruct text as [|c text]; [contradiction|].
    rewrite dropWhile_head.
    2:{ cbn [Str.all] in Hall. apply andb_true_iff in Hall as [Hc _].
        unfold isVisible in Hc. apply N.ltb_lt in Hc.
        unfold URL.isC0OrSpace. now apply N.leb_gt. }
    rewrite dropWhileEnd_none.
    - apply filter_all. revert Hall. apply all_impl.
      intros x Hx. unfold isVisible in Hx. unfold URL.isTabOrNewline.
      apply N.ltb_lt in Hx.
      destruct (N.eqb_spec (Chars.code x) 9); [lia|].
      destruct (N.eqb_spec (Chars.code x) 10); [lia|].
      destruct (N.eqb_spec (Chars.code x) 13); [lia|]. reflexivity.
    - revert Hall. apply all_impl. intros x Hx.
      unfold isVisible in Hx. unfold URL.isC0OrSpace.
      apply N.ltb_lt in Hx. apply negb_true_iff, N.leb_gt. exact Hx. }
  assert (Hnonempty : Str.isEmpty host = false)
    by (destruct host; [contradiction | reflexivity]).
  assert (Hspan :
    Str.span (fun c => negb (URL.isAuthorityEnd true c)) (auth +:+ rest)
    = (auth, rest)).
  { apply span_all; [exact Hauth_end|]. destruct rest; [exact I|].
    now rewrite Hrest. }
  unfold URL.parse.
  destruct Hscheme as [-> | ->].
  - rewrite Hclean; [| |discriminate].
    2:{ rewrite !all_append, Hauth_vis, Hvis. reflexivity. }
    change (URL.splitScheme ("http" +:+ "://" +:+ auth +:+ rest))
      with (Some ("http", String "/" (String "/" (auth +:+ rest)))).
    change (String.eqb "http" "file") with false.
    change (URL.isSpecial "http") with true. cbv iota.
    cbn [Str.dropWhile]. change (URL.isSlash "/") with true. cbv iota.
    rewrite Hauth_head. unfold URL.parseAuthority. rewrite Hspan.
    rewrite (splitOn_none _ _ Hauth_at). cbn [List.last List.length].
    change (1 <? 1)%nat with false. cbn [andb].
    unfold auth. rewrite (splitHostPort_authority host p Hhost).
    rewrite Hnonempty. cbn [andb negb]. rewrite Hparse.
    now rewrite (parsePort_text _ p Hp).
  - rewrite Hclean; [| |discriminate].
    2:{ rewrite !all_append, Hauth_vis, Hvis. reflexivity. }
    change (URL.splitScheme ("https" +:+ "://" +:+ auth +:+ rest))
      with (Some ("https", String "/" (String "/" (auth +:+ rest)))).
    change (String.eqb "https" "file") with false.
    change (URL.isSpecial "https") with true. cbv iota.
    cbn [Str.dropWhile]. change (URL.isSlash "/") with true. cbv iota.
    rewrite Hauth_head. unfold URL.parseAuthority. rewrite Hspan.
    rewrite (splitOn_none _ _ Hauth_at). cbn [List.last List.length].
    change (1 <? 1)%nat with false. cbn [andb].
    unfold auth. rewrite (splitHostPort_authority host p Hhost).
    rewrite Hnonempty. cbn [andb negb]. rewrite Hparse.
    now rewrite (parsePort_text _ p Hp).
Qed.

End WebUrl.

Lemma ofN_nonempty n : Str.isEmpty (Str.ofN n) = false.
Proof.
  destruct n as [|p]; [reflexivity|].
  destruct (ofN_head (N.pos p)) as (c & r & E & _); [lia|]. now rewrite E.
Qed.

Section WebOrigin.
Context `{URL.Platform}.

(** The port of an origin, read as the digits of a URL again. *)
Lemma portGetter_again scheme p :
  isPortText p = true ->
  let p' :=
    if Str.isEmpty (portGetter scheme p) then None
    else Some (portGetter scheme p) in
  isPortText p' = true /\ portGetter scheme p' = portGetter scheme p.
Proof.
  intros Hp. cbv zeta. destruct p as [ds|]; [|split; reflexivity].
  unfold isPortText in Hp. apply andb_true_iff in Hp as [_ Hmax].
  destruct (bool_decide (URL.defaultPort scheme = Some (Str.toN ds))) eqn:Hd.
  - assert (E : portGetter scheme (Some ds) = "")
      by (unfold portGetter; now rewrite Hd).
    rewrite E. split; reflexivity.
  - assert (E : portGetter scheme (Some ds) = Str.ofN (Str.toN ds))
      by (unfold portGetter; now rewrite Hd).
    rewrite E, ofN_nonempty. unfold isPortText, portGetter.
    rewrite ofN_nonempty, ofN_digits, !toN_ofN, Hmax, Hd. split; reflexivity.
Qed.

Lemma origin_text scheme h p :
  scheme = "http" \/ scheme = "https" ->
  origin (URL.mkLoc (scheme +:+ ":") h (portGetter scheme p) EmptyString)
  = scheme +:+ "://"
    +:+ authorityText h
          (if Str.isEmpty (portGetter scheme p) then None
           else Some (portGetter scheme p))
    +:+ "".
Proof.
  intros [-> | ->]; unfold origin, authorityText;
    cbn [URL.protocol URL.hostname URL.port];
    destruct (Str.isEmpty (portGetter _ p)); cbn [negb String.append];
    now rewrite ?append_nil_r, ?append_assoc.
Qed.

Lemma origin_pathname (u : URL.Loc) path :
  origin (URL.mkLoc (URL.protocol u) (URL.hostname u) (URL.port u) path)
  = origin u.
Proof. reflexivity. Qed.

(** The origin of such a URL parses again, to the same scheme, host and
    port, when the host parser leaves the host as it is. *)
Lemma parse_web_origin (scheme h path : string) (p : option string) :
  scheme = "http" \/ scheme = "https" ->
  h <> EmptyString ->
  Str.all isPlainHostChar h = true ->
  URL.parseHost false h = Some h ->
  isPortText p = true ->
  URL.parse (origin (URL.mkLoc (scheme +:+ ":") h (portGetter scheme p) path))
  = Some (URL.mkLoc (scheme +:+ ":") h (portGetter scheme p)
            (URL.pathnameOf scheme EmptyString)).
Proof.
  intros Hs Hne Hh Hparse Hp.
  change (origin (URL.mkLoc (scheme +:+ ":") h (portGetter scheme p) path))
    with (origin (URL.mkLoc (scheme +:+ ":") h (portGetter scheme p) "")).
  rewrite (origin_text scheme h p Hs).
  destruct (portGetter_again scheme p Hp) as [Hp' Hsame]. cbv zeta in *.
  rewrite (parse_web_url scheme h "" h _ Hs Hne Hh Hparse Hp' eq_refl).
  now rewrite Hsame.
Qed.

End WebOrigin.

Section WebEndpoints.
Context `{URL.Platform}.

Lemma parse_webUrl (scheme host rest h : string) (p : option string) :
  scheme = "http" \/ scheme = "https" ->
  host <> EmptyString ->
  Str.all isPlainHostChar host = true ->
  URL.parseHost false host = Some h ->
  isPortText p = true ->
  isUrlTail rest = true ->
  URL.parse (webUrl scheme host p rest)
  = Some (URL.mkLoc (scheme +:+ ":") h (portGetter scheme p)
            (URL.pathnameOf scheme rest)).
Proof. apply parse_web_url. Qed.

(** X4.  On an http or https URL with a plain host name, an optional port
    and any path, query or fragment, [normalizeEndpoint] returns the
    scheme, the host as the host parser gives it and the port unless it is
    the default one of the scheme; and when the host parser leaves that
    host as it is, normalizing the result again changes nothing. *)
Theorem normalizeEndpoint_web_url_idempotent
    (scheme host rest h : string) (p : option string) :
  scheme = "http" \/ scheme = "https" ->
  host <> EmptyString ->
  Str.all isPlainHostChar host = true ->
  URL.parseHost false host = Some h ->
  isPortText p = true ->
  isUrlTail rest = true ->
  let normalized :=
    scheme +:+ "://" +:+ h
    +:+ (if Str.isEmpty (portGetter scheme p) then ""
         else ":" +:+ portGetter scheme p) in
  normalizeEndpoint (JStr (webUrl scheme host p rest))
  = Returns (JStr normalized)
  /\ (isStableHost h ->
      normalizeEndpoint (JStr normalized) = Returns (JStr normalized)).
Proof.
  intros Hs Hne Hhost Hparse Hp Htail normalized.
  pose proof (parse_webUrl scheme host rest h p Hs Hne Hhost Hparse Hp Htail)
    as Hu.
  set (u := URL.mkLoc (scheme +:+ ":") h (portGetter scheme p)
              (URL.pathnameOf scheme rest)) in *.
  assert (Horigin : origin u = normalized).
  { unfold origin, normalized, u. cbn [URL.protocol URL.hostname URL.port].
    destruct Hs as [-> | ->];
      destruct (Str.isEmpty (portGetter _ p)); reflexivity. }
  split.
  - rewrite (normalizeEndpoint_parsed _ u Hu). now rewrite Horigin.
  - intros (Hhne & Hh & Hhparse). rewrite <- Horigin.
    exact (normalizeEndpoint_parsed _ _
             (parse_web_origin scheme h (URL.pathnameOf scheme rest) p
                Hs Hhne Hh Hhparse Hp)).
Qed.

Section Requests.
Variable env : Env.
Variable exchange : nat -> RequestOptions -> list (string * string) -> Exchange.

(** X5.  For an http or https URL with a plain host name, [verifyEndpoint]
    sends one GET request to that host with the http module: to the port of
    the URL, given as a string, or to port 80 when the URL has no port or the
    default one of its scheme -- for an https URL too; the path is the one
    of the URL, or /v1/models when the URL has none. *)
Theorem verifyEndpoint_probe_of_web_url
    (scheme host rest h : string) (p : option string)
    (timeout : option Z) (w : State) :
  scheme = "http" \/ scheme = "https" ->
  host <> EmptyString ->
  Str.all isPlainHostChar host = true ->
  URL.parseHost false host = Some h ->
  isPortText p = true ->
  isUrlTail rest = true ->
  exists probe,
    verifyEndpoint env (JStr (webUrl scheme host p rest)) timeout w
    = (Returns (isResponse (requestResult env (requestCount w) probe)),
       afterRequest probe w)
    /\ reqHostname probe = h
    /\ reqPort probe
       = (if Str.isEmpty (portGetter scheme p) then JNum (Num.ofN 80)
          else JStr (portGetter scheme p))
    /\ (p = None -> reqPort probe = JNum (Num.ofN 80))
    /\ reqPath probe
       = (if Str.isEmpty (URL.pathnameOf scheme rest)
             || String.eqb (URL.pathnameOf scheme rest) "/"
          then "/v1/models" else URL.pathnameOf scheme rest)
    /\ reqMethod probe = "GET"
    /\ reqTimeout probe = default 3000 timeout.
Proof.
  intros Hs Hne Hhost Hparse Hp Htail.
  pose proof (parse_webUrl scheme host rest h p Hs Hne Hhost Hparse Hp Htail)
    as Hu.
  rewrite verifyEndpoint_run. cbn [JS.toString]. rewrite Hu.
  eexists. split; [reflexivity|].
  unfold requestFor. cbn [reqHostname reqPort reqPath reqMethod reqTimeout
    URL.hostname URL.port URL.pathname].
  repeat split.
  - destruct (Str.isEmpty (portGetter scheme p)); reflexivity.
  - intros ->. reflexivity.
  - destruct (Str.isEmpty (URL.pathnameOf scheme rest)); [reflexivity|].
    destruct (String.eqb (URL.pathnameOf scheme rest) "/"); reflexivity.
Qed.

(** X6.  For an http or https URL with a plain host name that the host
    parser leaves as it is, [getAvailableModels] sends its request to that
    host and to the port of the URL as a number (80 when the URL has no port
    or the default one of its scheme), whatever path, query or fragment
    the URL has: listing the models of an endpoint and of what
    [normalizeEndpoint] makes of it are the same computation. *)
Theorem getAvailableModels_of_web_url
    (scheme h rest : string) (p : option string) (w : State) :
  scheme = "http" \/ scheme = "https" ->
  isStableHost h ->
  isPortText p = true ->
  isUrlTail rest = true ->
  let request :=
    mkRequest h
      (JNum (if Str.isEmpty (portGetter scheme p) then Num.ofN 80
             else Num.ofN (Str.toN (portGetter scheme p))))
      "/v1/models" "GET" 5000 in
  getAvailableModels exchange (JStr (webUrl scheme h p rest)) w
  = (Returns
       match exchange (requestCount w) request acceptJson with
       | Answered _ chunks => Resolved (onEnd (bodyText chunks))
       | Aborted _ _ => Pending
       | _ => Resolved []
       end,
     afterRequest request w)
  /\ exists normalized,
       normalizeEndpoint (JStr (webUrl scheme h p rest)) = Returns normalized
       /\ getAvailableModels exchange normalized w
          = getAvailableModels exchange (JStr (webUrl scheme h p rest)) w.
Proof.
  intros Hs (Hne & Hh & Hparse) Hp Htail request.
  pose proof (parse_webUrl scheme h rest h p Hs Hne Hh Hparse Hp Htail) as Hu.
  set (u := URL.mkLoc (scheme +:+ ":") h (portGetter scheme p)
              (URL.pathnameOf scheme rest)) in *.
  pose proof (parse_web_origin scheme h (URL.pathnameOf scheme rest) p
                Hs Hne Hh Hparse Hp) as Hu'.
  fold u in Hu'.
  set (u' := URL.mkLoc (scheme +:+ ":") h (portGetter scheme p)
               (URL.pathnameOf scheme "")) in *.
  assert (Hreq : modelsRequest u' = request).
  { unfold modelsRequest, request, u', parseInt.
    cbn [URL.hostname URL.port].
    destruct (Str.isEmpty (portGetter scheme p)); reflexivity. }
  assert (Hnonempty : forall t, JS.truthy (JStr (webUrl scheme h p t)) = true).
  { intros t. destruct Hs as [-> | ->]; reflexivity. }
  assert (Hrun : getAvailableModels exchange (JStr (webUrl scheme h p rest)) w
    = (Returns
         match exchange (requestCount w) request acceptJson with
         | Answered _ chunks => Resolved (onEnd (bodyText chunks))
         | Aborted _ _ => Pending
         | _ => Resolved []
         end,
       afterRequest request w)).
  { rewrite getAvailableModels_run, Hnonempty. cbn [negb JS.toString].
    rewrite Hu, Hu', Hreq. reflexivity. }
  split; [exact Hrun|].
  exists (JStr (origin u)). split; [exact (normalizeEndpoint_parsed _ u Hu)|].
  rewrite Hrun, getAvailableModels_run.
  assert (Ht : JS.truthy (JStr (origin u)) = true).
  { unfold origin, u. cbn [URL.protocol]. destruct Hs as [-> | ->]; reflexivity. }
  rewrite Ht. cbn [negb JS.toString]. rewrite Hu'.
  change (origin u') with (origin u). rewrite Hu', Hreq. reflexivity.
Qed.

End Requests.
End WebEndpoints.

Lemma normalizeEndpoint_web_url_idempotent_witness :
  @normalizeEndpoint URL.ascii
    (JStr "https://Example.COM:0443/v1/models?verbose=1#top")
  = Returns (JStr "https://example.com")
  /\ @normalizeEndpoint URL.ascii (JStr "https://example.com")
     = Returns (JStr "https://example.com").
Proof.
  destruct (@normalizeEndpoint_web_url_idempotent URL.ascii "https"
              "Example.COM" "/v1/models?verbose=1#top" "example.com"
              (Some "0443") (or_intror eq_refl) ltac:(discriminate)
              eq_refl eq_refl eq_refl eq_refl) as [H1 H2].
  split; [exact H1|]. apply H2.
  split; [discriminate|]. split; reflexivity.
Defined.

Lemma verifyEndpoint_probe_of_web_url_witness :
  exists probe,
    @verifyEndpoint URL.ascii (Example.serviceUp (Response 200))
      (JStr "https://localhost") None Example.atStart
    = (Returns true, afterRequest probe Example.atStart)
    /\ reqHostname probe = "localhost"
    /\ reqPort probe = JNum (Num.ofN 80).
Proof.
  destruct (@verifyEndpoint_probe_of_web_url URL.ascii
              (Example.serviceUp (Response 200)) "https" "localhost" ""
              "localhost" None None Example.atStart (or_intror eq_refl)
              ltac:(discriminate) eq_refl eq_refl eq_refl eq_refl)
    as (probe & Hrun & Hhost & _ & Hport & _).
  exists probe. split; [exact Hrun|]. split; [exact Hhost|].
  exact (Hport eq_refl).
Defined.

Lemma getAvailableModels_of_web_url_witness :
  let request :=
    mkRequest "localhost" (JNum (Num.ofN 55329)) "/v1/models" "GET" 5000 in
  @getAvailableModels URL.ascii ExampleModels.answers
    (JStr "http://localhost:55329/openai/status") Example.atStart
  = (Returns (Resolved (onEnd (bodyText ExampleModels.body))),
     afterRequest request Example.atStart)
  /\ @getAvailableModels URL.ascii ExampleModels.answers
       (JStr "http://localhost:55329") Example.atStart
     = @getAvailableModels URL.ascii ExampleModels.answers
         (JStr "http://localhost:55329/openai/status") Example.atStart.
Proof.
  cbv zeta.
  destruct (@getAvailableModels_of_web_url URL.ascii ExampleModels.answers
              "http" "localhost" "/openai/status" (Some "55329")
              Example.atStart (or_introl eq_refl))
    as (Hrun & normalized & Hn & Hsame).
  - split; [discriminate|]. split; reflexivity.
  - reflexivity.
  - reflexivity.
  - split; [exact Hrun|].
    assert (E : normalized = JStr "http://localhost:55329").
    { assert (Hn' : @normalizeEndpoint URL.ascii
                      (JStr "http://localhost:55329/openai/status")
                    = Returns (JStr "http://localhost:55329"))
        by (vm_compute; reflexivity).
      change (webUrl "http" "localhost" (Some "55329") "/openai/status")
        with "http://localhost:55329/openai/status" in Hn.
      rewrite Hn' in Hn. now injection Hn as <-. }
    rewrite <- E. exact Hsame.
Defined.

(** ** Status outputs without a colon *)

Lemma parseStringBody_all (p : ascii -> bool) n : forall s x r,
  (String.length s <= n)%nat ->
  Str.all p s = true ->
  JSON.parseStringBody s = Some (x, r) ->
  Str.all p r = true.
Proof.
  induction n as [|n IH]; intros s x r Hn Hs E.
  - destruct s; [discriminate | cbn in Hn; lia].
  - destruct s as [|c s]; [discriminate|]. cbn [JSON.parseStringBody] in E.
    cbn [String.length] in Hn. cbn [Str.all] in Hs.
    apply andb_true_iff in Hs as [_ Hs].
    assert (Hrec : forall ch t, (String.length t <= n)%nat ->
              Str.all p t = true ->
              JSON.consTo ch (JSON.parseStringBody t) = Some (x, r) ->
              Str.all p r = true).
    { intros ch t Ht Hpt Ec. unfold JSON.consTo in Ec.
      destruct (JSON.parseStringBody t) as [[x' r']|] eqn:Et; [|discriminate].
      injection Ec as _ <-. eapply IH; eassumption. }
    destruct (Ascii.eqb c JSON.dquote).
    { injection E as _ <-. exact Hs. }
    destruct (Ascii.eqb c "\").
    + destruct s as [|e s]; [discriminate|]. cbn [String.length] in Hn.
      cbn [Str.all] in Hs. apply andb_true_iff in Hs as [_ Hs].
      destruct (Ascii.eqb e "u").
      * destruct s as [|h1 [|h2 [|h3 [|h4 s]]]]; try discriminate.
        cbn [String.length] in Hn. cbn [Str.all] in Hs.
        repeat (apply andb_true_iff in Hs as [_ Hs]).
        destruct (JSON.hex4 h1 h2 h3 h4) as [k|]; [|discriminate].
        destruct (k <? 256)%N; [|discriminate].
        apply Hrec in E; [exact E | lia | exact Hs].
      * destruct (JSON.unescape e); [|discriminate].
        apply Hrec in E; [exact E | lia | exact Hs].
    + destruct (Chars.code c <? 32)%N; [discriminate|].
      apply Hrec in E; [exact E | lia | exact Hs].
Qed.

(** The members of an object are written with a colon. *)
Lemma parseMembers_colon f s l r :
  Str.all (fun c => negb (Ascii.eqb ":" c)) s = true ->
  JSON.parseMembers f s = Some (l, r) -> False.
Proof.
  intros Hs E. destruct f as [|f]; [discriminate|].
  cbn [JSON.parseMembers] in E.
  pose proof (all_dropWhile _ JSON.isWs s Hs) as Hws.
  fold (JSON.skipWs s) in Hws.
  destruct (JSON.skipWs s) as [|c r0]; [discriminate|].
  cbn [Str.all] in Hws. apply andb_true_iff in Hws as [_ Hr0].
  destruct (Ascii.eqb c JSON.dquote); [|discriminate].
  destruct (JSON.parseStringBody r0) as [[k r1]|] eqn:Es; [|discriminate].
  pose proof (parseStringBody_all _ _ _ _ _ (Nat.le_refl _) Hr0 Es) as Hr1.
  pose proof (all_dropWhile _ JSON.isWs r1 Hr1) as Hws1.
  fold (JSON.skipWs r1) in Hws1.
  destruct (JSON.skipWs r1) as [|c1 r2]; [discriminate|].
  cbn [Str.all] in Hws1. apply andb_true_iff in Hws1 as [Hc1 _].
  each_char c1; try discriminate E. discriminate Hc1.
Qed.

Lemma parse_object_colon (s : string) (l : list (string * JSValue)) :
  Str.all (fun c => negb (Ascii.eqb ":" c)) s = true ->
  JSON.parse s = Returns (JObj l) -> l = [].
Proof.
  intros Hs. unfold JSON.parse.
  generalize (String.length s + String.length s)%nat. intros f.
  cbn [JSON.parseValue].
  pose proof (all_dropWhile _ JSON.isWs s Hs) as Hws.
  fold (JSON.skipWs s) in Hws.
  destruct (JSON.skipWs s) as [|c r0]; [discriminate|].
  cbn [Str.all] in Hws. apply andb_true_iff in Hws as [_ Hr0].
  destruct (Ascii.eqb c "{").
  { destruct (JSON.skipWs r0) as [|c1 r1].
    - destruct (JSON.parseMembers f r0) as [[l0 r'']|] eqn:Em; [|discriminate].
      now apply parseMembers_colon in Em.
    - each_char c1;
        try (destruct (JSON.parseMembers f r0) as [[l0 r'']|] eqn:Em;
             [now apply parseMembers_colon in Em | discriminate]).
      destruct (Str.isEmpty (JSON.skipWs r1)); [|discriminate].
      intros E. now injection E as <-. }
  destruct (Ascii.eqb c "[").
  { destruct (JSON.skipWs r0) as [|c1 r1].
    - destruct (JSON.parseElements f r0) as [[l0 r'']|]; [|discriminate].
      destruct (Str.isEmpty _); discriminate.
    - each_char c1;
        try (destruct (JSON.parseElements f r0) as [[l0 r'']|]; [|discriminate];
             destruct (Str.isEmpty _); discriminate).
      destruct (Str.isEmpty _); discriminate. }
  destruct (Ascii.eqb c JSON.dquote).
  { destruct (JSON.parseStringBody r0) as [[str r']|]; [|discriminate].
    destruct (Str.isEmpty _); discriminate. }
  destruct (Str.startsWith "true" (String c r0)).
  { destruct (Str.isEmpty _); discriminate. }
  destruct (Str.startsWith "false" (String c r0)).
  { destruct (Str.isEmpty _); discriminate. }
  destruct (Str.startsWith "null" (String c r0)).
  { destruct (Str.isEmpty _); discriminate. }
  destruct (JSON.parseNumber (String c r0)) as [[n r']|]; [|discriminate].
  destruct (Str.isEmpty _); discriminate.
Qed.

Lemma parseStatusJson_no_colon (stdout : string) :
  Str.all (fun c => negb (Ascii.eqb ":" c)) stdout = true ->
  parseStatusJson stdout = None.
Proof.
  intros Hs. unfold parseStatusJson.
  destruct (JSON.parse stdout) as [json|] eqn:Hparse; [|reflexivity].
  destruct json as [| | | | |l]; try reflexivity.
  rewrite (parse_object_colon stdout l Hs Hparse). reflexivity.
Qed.

Lemma parseStatusText_no_colon (stdout : string) :
  Str.all (fun c => negb (Ascii.eqb ":" c)) stdout = true ->
  parseStatusText stdout = mkQuery JNull JNull false stdout.
Proof.
  intros Hs. unfold parseStatusText, Regex.search.
  change Regex.fullUrlRe
    with ([Regex.litCI "h"; Regex.litCI "t"; Regex.litCI "t"; Regex.litCI "p";
           Regex.Atom false (Chars.isCI "s") Regex.Opt]
          ++ Regex.lit ":"
          :: [Regex.lit "/"; Regex.lit "/";
              Regex.Atom false
                (fun c => negb (Chars.isSpace c || Ascii.eqb c "/")) Regex.Plus;
              Regex.lit ":"; Regex.digits false]).
  rewrite (searchFrom_needs ":" _ _ stdout 0 Hs).
  change Regex.barePortRe
    with ([] ++ Regex.lit ":"
          :: [Regex.Atom false Chars.isSpace Regex.Star; Regex.digits true]).
  rewrite (searchFrom_needs ":" _ _ stdout 0 Hs).
  change Regex.anyUrlRe
    with ([Regex.litCI "h"; Regex.litCI "t"; Regex.litCI "t"; Regex.litCI "p";
           Regex.Atom false (Chars.isCI "s") Regex.Opt]
          ++ Regex.lit ":"
          :: [Regex.lit "/"; Regex.lit "/";
              Regex.Atom false (fun c => negb (Chars.isSpace c)) Regex.Plus]).
  rewrite (searchFrom_needs ":" _ _ stdout 0 Hs).
  reflexivity.
Qed.

(** X7.  A status output without a colon is not recognised, whatever it
    says: not as JSON (a JSON text without a colon has no members), and by
    none of the three scans, which all look for a colon.  The result is
    then endpoint null, port null, isRunning false -- for the two outputs
    that the comment in the source gives as examples of the port scan,
    too. *)
Theorem status_without_colon_is_not_running
    (env : Env) (stdout : string) (w : State) :
  Str.all (fun c => negb (Ascii.eqb ":" c)) stdout = true ->
  parseStatus stdout = mkQuery JNull JNull false stdout
  /\ (commandResult env (execCount w) statusCmd = ExecOk stdout ->
      fst (queryServiceFromCLI env w)
      = Returns (mkQuery JNull JNull false stdout)).
Proof.
  intros Hs.
  assert (E : parseStatus stdout = mkQuery JNull JNull false stdout).
  { unfold parseStatus. rewrite (parseStatusJson_no_colon stdout Hs).
    apply (parseStatusText_no_colon stdout Hs). }
  split; [exact E|]. intros Hcmd.
  rewrite queryServiceFromCLI_run. unfold queryOutcome. now rewrite Hcmd, E.
Qed.

Lemma status_without_colon_is_not_running_witness :
  parseStatus "Service running on port 51679"
  = mkQuery JNull JNull false "Service running on port 51679"
  /\ parseStatus "55329" = mkQuery JNull JNull false "55329".
Proof.
  split.
  - exact (proj1 (status_without_colon_is_not_running Example.serviceDown
                    "Service running on port 51679" Example.atStart eq_refl)).
  - exact (proj1 (status_without_colon_is_not_running Example.serviceDown
                    "55329" Example.atStart eq_refl)).
Defined.

(** ** The scan for a port after a colon *)







(** ** The cache file: what reading and writing it can do *)

Section CacheEffects.
Variable env : Env.


(** X9.  [readCachedEndpoint] never throws and changes nothing: not the
    file system, not the clock, and it performs no event.  What it returns,
    when that is not null, is the [endpoint] field of the JSON text of the
    cache file: a truthy value, read from a file whose [timestamp] field is
    truthy and less than 24 hours behind the clock. *)
Theorem readCachedEndpoint_reads_only (w : State) :
  exists v : JSValue,
    readCachedEndpoint env w = (Returns v, w)
    /\ (v <> JNull ->
        JS.truthy v = true
        /\ exists text data timestamp,
             files w !! cacheFile env = Some text
             /\ JSON.parse text = Returns data
             /\ JS.getProp data "endpoint" = Returns (Some v)
             /\ JS.getProp data "timestamp" = Returns (Some timestamp)
             /\ JS.truthy timestamp = true
             /\ Num.ltb (Num.sub (Num.ofZ (clock w)) (JS.toNumber timestamp))
                        (Num.ofZ dayMs) = true).
Proof.
  unfold readCachedEndpoint, tryCatch, bind, Sys.existsSync, Sys.readFileSync,
    lift, Sys.dateNow, ret.
  destruct (bool_decide _ || bool_decide _);
    [|exists JNull; split; [reflexivity | intros E; now elim E]].
  destruct (files w !! cacheFile env) as [text|] eqn:Hfile;
    [|exists JNull; split; [reflexivity | intros E; now elim E]].
  destruct (JSON.parse text) as [data|] eqn:Hparse;
    [|exists JNull; split; [reflexivity | intros E; now elim E]].
  destruct (JS.getProp data "endpoint") as [c|] eqn:Hc;
    [|exists JNull; split; [reflexivity | intros E; now elim E]].
  destruct (JS.getProp data "timestamp") as [t|] eqn:Ht;
    [|exists JNull; split; [reflexivity | intros E; now elim E]].
  destruct (JS.truthyOpt c && JS.truthyOpt t) eqn:Hboth;
    [|exists JNull; split; [reflexivity | intros E; now elim E]].
  apply andb_true_iff in Hboth as [Htc Htt].
  destruct c as [c|]; [|discriminate]. destruct t as [t|]; [|discriminate].
  cbn [JS.truthyOpt default from_option] in *. unfold id.
  destruct (Num.ltb _ _) eqn:Hfresh;
    [|exists JNull; split; [reflexivity | intros E; now elim E]].
  destruct (JS.toText c);
    [|exists JNull; split; [reflexivity | intros E; now elim E]].
  exists c. split; [reflexivity|]. intros _. split; [exact Htc|].
  exists text, data, t. repeat split; assumption.
Qed.

Lemma mkdirSync_effect path (w w' : State) :
  snd (Sys.mkdirSync env path w) = w' ->
  clock w' = clock w /\ files w' = files w
  /\ execCount w' = execCount w /\ requestCount w' = requestCount w
  /\ dirs w ⊆ dirs w'
  /\ (fsReadOnly env = true -> w' = w).
Proof.
  intros <-.
  unfold Sys.mkdirSync. destruct (fsReadOnly env); [repeat split; set_solver|].
  destruct (existsb _ _); cbn [snd clock files dirs execCount requestCount];
    repeat split; try set_solver; discriminate.
Qed.

Lemma writeFileSync_effect path content (w w' : State) :
  snd (Sys.writeFileSync env path content w) = w' ->
  clock w' = clock w /\ dirs w' = dirs w
  /\ execCount w' = execCount w /\ requestCount w' = requestCount w
  /\ (forall other, other <> path -> files w' !! other = files w !! other)
  /\ (fsReadOnly env = true -> w' = w).
Proof.
  intros <-.
  unfold Sys.writeFileSync. destruct (fsReadOnly env); [repeat split; auto|].
  destruct (bool_decide _); [repeat split; auto; discriminate|].
  destruct (negb _); [repeat split; auto; discriminate|].
  cbn [snd clock files dirs execCount requestCount]. repeat split.
  - intros other Hother. now apply lookup_insert_ne.
  - discriminate.
Qed.

Lemma cacheEndpoint_effect (endpoint : JSValue) (w : State) :
  exists w' : State,
    cacheEndpoint env endpoint w = (Returns tt, w')
    /\ clock w' = clock w
    /\ execCount w' = execCount w /\ requestCount w' = requestCount w
    /\ (forall path, path <> cacheFile env ->
          files w' !! path = files w !! path)
    /\ dirs w ⊆ dirs w'
    /\ (JS.truthy endpoint = false \/ fsReadOnly env = true -> w' = w).
Proof.
  unfold cacheEndpoint, tryCatch, bind.
  destruct (JS.truthy endpoint); cbn [negb].
  2:{ exists w. repeat split; auto. }
  cbn [Sys.existsSync]. set (present := bool_decide _ || bool_decide _).
  assert (Hmk : exists wm,
    snd ((if present then ret tt else Sys.mkdirSync env (getFoundryCacheDir env)) w)
    = wm
    /\ clock wm = clock w /\ files wm = files w
    /\ execCount wm = execCount w /\ requestCount wm = requestCount w
    /\ dirs w ⊆ dirs wm /\ (fsReadOnly env = true -> wm = w)).
  { destruct present.
    - exists w. repeat split; auto.
    - eexists. split; [reflexivity|].
      now apply (mkdirSync_effect (getFoundryCacheDir env) w). }
  destruct Hmk as (wm & Ewm & Hc & Hf & He & Hr & Hd & Hro).
  destruct ((if present then ret tt else Sys.mkdirSync env (getFoundryCacheDir env)) w)
    as [[[]|err] wm'] eqn:Emk; cbn [snd] in Ewm; subst wm'.
  2:{ exists wm. unfold ret. repeat split; try assumption.
      - intros path _. now rewrite Hf.
      - intros [E|E]; [discriminate | now apply Hro]. }
  unfold Sys.dateNow.
  set (text := JSON.stringify _ 2).
  destruct (Sys.writeFileSync env (cacheFile env) text wm) as [[[]|err] ww]
    eqn:Ewr;
    pose proof (writeFileSync_effect (cacheFile env) text wm ww
                  ltac:(now rewrite Ewr))
      as (Hc' & Hd' & He' & Hr' & Hf' & Hro');
    exists ww; unfold ret; repeat split;
    try congruence.
  - intros path Hpath. rewrite (Hf' path Hpath). now rewrite Hf.
  - now rewrite Hd'.
  - intros [E|E]; [discriminate|]. rewrite (Hro' E). now apply Hro.
  - intros path Hpath. rewrite (Hf' path Hpath). now rewrite Hf.
  - now rewrite Hd'.
  - intros [E|E]; [discriminate|]. rewrite (Hro' E). now apply Hro.
Qed.

(** X10.  [cacheEndpoint] never throws.  Whatever it is given, no file
    other than the cache file is created, changed or removed, no directory
    is removed, and the clock is left alone; with a falsy endpoint, or on a
    file system that cannot be written, nothing changes at all. *)
Theorem cacheEndpoint_touches_only_the_cache_file
    (endpoint : JSValue) (w : State) :
  exists w' : State,
    cacheEndpoint env endpoint w = (Returns tt, w')
    /\ clock w' = clock w
    /\ (forall path, path <> cacheFile env ->
          files w' !! path = files w !! path)
    /\ dirs w ⊆ dirs w'
    /\ (JS.truthy endpoint = false \/ fsReadOnly env = true -> w' = w).
Proof.
  destruct (cacheEndpoint_effect endpoint w)
    as (w' & E & Hc & _ & _ & Hf & Hd & Hsame).
  exists w'. repeat split; assumption.
Qed.

Lemma cacheEndpoint_dirs (e : string) (w : State) :
  dirs (snd (cacheEndpoint env (JStr e) w))
  ⊆ dirs w ∪ list_to_set (Sys.ancestors (getFoundryCacheDir env)).
Proof.
  unfold cacheEndpoint, tryCatch, bind.
  destruct (negb (JS.truthy (JStr e))); [apply union_subseteq_l|].
  cbn [Sys.existsSync].
  destruct (bool_decide _ || bool_decide _).
  - unfold ret, Sys.dateNow.
    match goal with
    | |- context [Sys.writeFileSync env ?p ?t ?s] =>
        destruct (Sys.writeFileSync env p t s) as [[[]|err] ww] eqn:Ewr;
        pose proof (writeFileSync_effect p t s ww ltac:(now rewrite Ewr))
          as (Hc & Hd & Hrest)
    end; cbn [snd] in *; rewrite Hd; apply union_subseteq_l.
  - unfold Sys.mkdirSync. destruct (fsReadOnly env); [apply union_subseteq_l|].
    destruct (existsb _ _); [apply union_subseteq_l|].
    unfold Sys.dateNow, ret.
    match goal with
    | |- context [Sys.writeFileSync env ?p ?t ?s] =>
        destruct (Sys.writeFileSync env p t s) as [[[]|err] ww] eqn:Ewr;
        pose proof (writeFileSync_effect p t s ww ltac:(now rewrite Ewr))
          as (Hc & Hd & Hrest)
    end; cbn [snd dirs] in *; rewrite Hd; cbn [dirs]; reflexivity.
Qed.

Lemma cacheWritable_after_write (e : string) (w : State) :
  e <> EmptyString ->
  cacheWritable env w = true ->
  cacheWritable env (snd (cacheEndpoint env (JStr e) w)) = true.
Proof.
  intros He Hw.
  destruct (cacheEndpoint_writes env e w He Hw) as [_ Hfiles].
  pose proof (cacheEndpoint_dirs e w) as Hdirs.
  unfold cacheWritable in *.
  apply andb_true_iff in Hw as [Hw Hnodir].
  apply andb_true_iff in Hw as [Hro Hnofile].
  rewrite Hro. cbn [andb]. apply andb_true_iff. split.
  - apply negb_true_iff. apply negb_true_iff in Hnofile.
    apply Bool.not_true_iff_false. intros Hex.
    apply Bool.not_true_iff_false in Hnofile. apply Hnofile.
    apply existsb_exists in Hex as (p & Hin & Hp).
    apply existsb_exists. exists p. split; [exact Hin|].
    rewrite Hfiles in Hp. rewrite lookup_insert_ne in Hp; [exact Hp|].
    intros <-. now apply cacheFile_not_in_ancestors in Hin.
  - apply negb_true_iff, bool_decide_eq_false. intros Hin.
    apply negb_true_iff, bool_decide_eq_false in Hnodir.
    apply Hdirs in Hin. apply elem_of_union in Hin as [Hin|Hin];
      [now apply Hnodir|].
    apply elem_of_list_to_set, list_elem_of_In in Hin.
    now apply cacheFile_not_in_ancestors in Hin.
Qed.

(** X11.  The cache holds one entry, the last one written: after two
    endpoints have been cached one after the other, [readCachedEndpoint]
    returns the second. *)
Theorem cacheEndpoint_last_write_wins (e1 e2 : string) (w : State) :
  e1 <> EmptyString -> e2 <> EmptyString ->
  0 < clock w < 10 ^ 21 ->
  cacheWritable env w = true ->
  let w1 := snd (cacheEndpoint env (JStr e1) w) in
  let w2 := snd (cacheEndpoint env (JStr e2) w1) in
  fst (readCachedEndpoint env w1) = Returns (JStr e1)
  /\ fst (readCachedEndpoint env w2) = Returns (JStr e2).
Proof.
  intros He1 He2 HT Hw w1 w2.
  destruct (cacheEndpoint_effect (JStr e1) w) as (w1' & E1 & Hc1 & _).
  assert (Ew1 : w1 = w1') by (unfold w1; now rewrite E1).
  destruct (cacheEndpoint_effect (JStr e2) w1) as (w2' & E2 & Hc2 & _).
  assert (Ew2 : w2 = w2') by (unfold w2; now rewrite E2).
  destruct (cacheEndpoint_writes env e1 w He1 Hw) as [_ Hf1]. fold w1 in Hf1.
  pose proof (cacheWritable_after_write e1 w He1 Hw) as Hw1. fold w1 in Hw1.
  destruct (cacheEndpoint_writes env e2 w1 He2 Hw1) as [_ Hf2]. fold w2 in Hf2.
  assert (Hclock1 : clock w1 = clock w) by (rewrite Ew1; exact Hc1).
  assert (Hclock2 : clock w2 = clock w) by (rewrite Ew2, Hc2; exact Hclock1).
  split.
  - rewrite (readCachedEndpoint_of_text env e1 (clock w) w1 He1 HT).
    + rewrite Hclock1, Z.sub_diag. reflexivity.
    + rewrite Hf1. apply lookup_insert_eq.
  - rewrite (readCachedEndpoint_of_text env e2 (clock w) w2 He2 HT).
    + rewrite Hclock2, Z.sub_diag. reflexivity.
    + rewrite Hf2, Hclock1. apply lookup_insert_eq.
Qed.

End CacheEffects.

Lemma cacheEndpoint_last_write_wins_witness :
  let env := Example.serviceDown in
  let w1 := snd (cacheEndpoint env (JStr "http://127.0.0.1:55329") Example.atStart) in
  let w2 := snd (cacheEndpoint env (JStr "http://127.0.0.1:51679") w1) in
  fst (readCachedEndpoint env w2) = Returns (JStr "http://127.0.0.1:51679").
Proof.
  cbv zeta.
  refine (proj2 (cacheEndpoint_last_write_wins Example.serviceDown
                   "http://127.0.0.1:55329" "http://127.0.0.1:51679"
                   Example.atStart _ _ _ _));
    [discriminate | discriminate | split; reflexivity
    | vm_compute; reflexivity].
Defined.

(** ** startFoundryService: the service comes up, or does not *)

Section Startup.
Context `{URL.Platform}.
Variable env : Env.

Lemma pollLoop_found (k : nat) : forall (n : nat) (w : State),
  (k < n)%nat ->
  (forall i, (i < k)%nat ->
     reportsRunning (queryOutcome env (execCount w + i)) = false) ->
  reportsRunning (queryOutcome env (execCount w + k)) = true ->
  pollLoop env n w
  = (Returns
       (mkStart true false
          ("Service started on "
           +:+ JS.toString (endpoint (queryOutcome env (execCount w + k))))),
     afterExec statusCmd (afterRounds k w)).
Proof.
  induction k as [|k IH]; intros n w Hk Hno Hyes;
    (destruct n as [|n]; [lia|]); cbn [pollLoop afterRounds].
  - rewrite (bind_returns _ _ _ _ _ (queryServiceFromCLI_run env w)).
    rewrite Nat.add_0_r in Hyes. rewrite Hyes. now rewrite Nat.add_0_r.
  - rewrite (bind_returns _ _ _ _ _ (queryServiceFromCLI_run env w)).
    pose proof (Hno 0%nat ltac:(lia)) as H0. rewrite Nat.add_0_r in H0.
    rewrite H0. unfold bind at 1. cbn [Sys.sleep].
    fold (afterSleep 1000 (afterExec statusCmd w)).
    rewrite (IH n (afterSleep 1000 (afterExec statusCmd w))).
    + cbn [afterSleep afterExec execCount].
      now replace (S (execCount w) + k)%nat with (execCount w + S k)%nat by lia.
    + lia.
    + intros i Hi. cbn [afterSleep afterExec execCount].
      replace (S (execCount w) + i)%nat with (execCount w + S i)%nat by lia.
      apply Hno. lia.
    + cbn [afterSleep afterExec execCount].
      now replace (S (execCount w) + k)%nat with (execCount w + S k)%nat by lia.
Qed.

Lemma pollLoop_notLaunch n : steps (onlyEvents notLaunch) (pollLoop env n).
Proof.
  induction n as [|n IH]; cbn [pollLoop].
  - apply (steps_ret _ (onlyEvents_refl _)).
  - apply (steps_bind _ (onlyEvents_trans _));
      [unfold queryServiceFromCLI; events_auto|].
    intros r. destruct (reportsRunning r);
      [apply (steps_ret _ (onlyEvents_refl _))|].
    apply (steps_bind _ (onlyEvents_trans _)); [events_auto | intros _; exact IH].
Qed.

Lemma pollLoop_outcome n : forall w s w',
  pollLoop env n w = (Returns s, w') ->
  wasAlreadyRunning s = false /\ (started s = false -> s = timedOut).
Proof.
  induction n as [|n IH]; intros w s w' E; cbn [pollLoop] in E.
  - injection E as <- _. split; [reflexivity | intros _; reflexivity].
  - rewrite (bind_returns _ _ _ _ _ (queryServiceFromCLI_run env w)) in E.
    destruct (reportsRunning _).
    + injection E as <- _. split; [reflexivity | discriminate].
    + unfold bind at 1 in E. cbn [Sys.sleep] in E. now apply IH in E.
Qed.

Lemma neverThrows_pollLoop n : neverThrows (pollLoop env n).
Proof.
  induction n as [|n IH]; cbn [pollLoop]; [apply neverThrows_ret|].
  apply neverThrows_bind; [apply neverThrows_queryServiceFromCLI|].
  intros r. destruct (reportsRunning r); [apply neverThrows_ret|].
  apply neverThrows_bind; [apply neverThrows_sleep | intros _; exact IH].
Qed.

Lemma startFoundryService_polls (w : State) :
  reportsRunning (queryOutcome env (execCount w)) = false ->
  startFoundryService env w = pollLoop env maxRetries (afterLaunch w).
Proof.
  intros Hfirst. unfold startFoundryService, tryCatch.
  rewrite (bind_returns _ _ _ _ _ (queryServiceFromCLI_run env w)).
  rewrite Hfirst. unfold bind at 1. cbn [Sys.exec].
  unfold bind at 1. cbn [Sys.sleep].
  fold (afterSleep 2000 (emit (EvExecDetached "foundry service start")
                           (afterExec statusCmd w))).
  fold launchCmd. fold (afterLaunch w).
  destruct (neverThrows_pollLoop maxRetries (afterLaunch w)) as [s Hs].
  destruct (pollLoop env maxRetries (afterLaunch w)) as [o w'].
  cbn [fst] in Hs. now subst o.
Qed.

(** X12.  When the service is not running at the first query and is seen
    running for the first time by the query number k + 1 of the polling
    loop (k < 60), [startFoundryService] returns started = true,
    wasAlreadyRunning = false and the endpoint of that query in its
    message, after the launch, the delay of 2000 ms and k rounds of a
    query and a delay of 1000 ms: 2000 + 1000 k ms of delays in all. *)
Theorem service_seen_by_a_poll (w : State) (k : nat) :
  reportsRunning (queryOutcome env (execCount w)) = false ->
  (k < 60)%nat ->
  (forall i, (i < k)%nat ->
     reportsRunning (queryOutcome env (S (execCount w) + i)) = false) ->
  reportsRunning (queryOutcome env (S (execCount w) + k)) = true ->
  let seen := queryOutcome env (S (execCount w) + k) in
  let w' := afterExec statusCmd (afterRounds k (afterLaunch w)) in
  startFoundryService env w
  = (Returns (mkStart true false
                ("Service started on " +:+ JS.toString (endpoint seen))), w')
  /\ performs w w'
       ([EvExecAwaited statusCmd; EvExecDetached launchCmd; EvSleep 2000]
        ++ pollRounds k ++ [EvExecAwaited statusCmd])
  /\ clock w' = clock w + 2000 + 1000 * Z.of_nat k.
Proof.
  intros Hfirst Hk Hno Hyes seen w'. split; [|split].
  - rewrite (startFoundryService_polls w Hfirst).
    apply (pollLoop_found k maxRetries (afterLaunch w)); [exact Hk | |]; assumption.
  - unfold performs, w'. cbn [afterExec trace]. rewrite afterRounds_trace.
    cbn [afterLaunch afterSleep emit afterExec trace].
    now rewrite <- !app_assoc.
  - unfold w'. cbn [afterExec clock]. rewrite afterRounds_clock.
    cbn [afterLaunch afterSleep emit afterExec clock]. lia.
Qed.

(** X13.  Whatever the status command answers, [startFoundryService]
    returns a result and touches no file.  Either the first query sees the
    service: wasAlreadyRunning is true, started is false, and that query is
    all that happens; or wasAlreadyRunning is false and the launch command
    is executed exactly once, after the first query and before a delay of
    2000 ms and the polling, and then a result with started = false is the
    time-out result.  The two flags are never both true, and the result
    for an error is never produced. *)
Theorem startFoundryService_outcomes (w : State) :
  exists (s : StartOutcome) (w' : State) (evs : list Event),
    startFoundryService env w = (Returns s, w')
    /\ performs w w' evs
    /\ files w' = files w /\ dirs w' = dirs w
    /\ ((wasAlreadyRunning s = true /\ started s = false
         /\ evs = [EvExecAwaited statusCmd])
        \/ (wasAlreadyRunning s = false
            /\ (started s = false -> s = timedOut)
            /\ exists polling,
                 evs = [EvExecAwaited statusCmd; EvExecDetached launchCmd;
                        EvSleep 2000] ++ polling
                 /\ existsb isLaunch polling = false)).
Proof.
  pose proof (startFoundryService_readsOnly env w) as [[Hf Hd] _].
  destruct (reportsRunning (queryOutcome env (execCount w))) eqn:Hfirst.
  - rewrite (startFoundryService_already env w Hfirst) in *.
    eexists _, _, _. split; [reflexivity|]. split; [reflexivity|].
    split; [reflexivity|]. split; [reflexivity|]. left. repeat split.
  - rewrite (startFoundryService_polls w Hfirst) in *.
    destruct (neverThrows_pollLoop maxRetries (afterLaunch w)) as [s Hs].
    destruct (pollLoop_notLaunch maxRetries (afterLaunch w))
      as (polling & Hperf & Hok).
    destruct (pollLoop env maxRetries (afterLaunch w)) as [o w'] eqn:Hrun.
    cbn [fst snd] in *. subst o.
    exists s, w', ([EvExecAwaited statusCmd; EvExecDetached launchCmd;
                    EvSleep 2000] ++ polling).
    split; [reflexivity|]. split.
    { unfold performs in *. rewrite Hperf.
      cbn [afterLaunch afterSleep emit afterExec trace].
      now rewrite <- !app_assoc. }
    split; [exact Hf|]. split; [exact Hd|]. right.
    destruct (pollLoop_outcome _ _ _ _ Hrun) as [Hw Ht].
    split; [exact Hw|]. split; [exact Ht|].
    exists polling. split; [reflexivity|].
    clear -Hok. induction polling as [|e evs IH]; [reflexivity|].
    cbn [forallb existsb] in *. apply andb_true_iff in Hok as [He Hevs].
    unfold notLaunch in He. apply negb_true_iff in He. rewrite He.
    now apply IH.
Qed.

End Startup.

Lemma service_seen_by_a_poll_witness :
  let env :=
    mkEnv OtherOS ["home"; "user"] None false
          (fun n _ => if (n <? 3)%nat then ExecFailed "not ready"
                      else ExecOk Example.runningJson)
          (fun _ _ => TimedOut) in
  let w' := afterExec statusCmd (afterRounds 2 (afterLaunch Example.atStart)) in
  @startFoundryService env Example.atStart
  = (Returns (mkStart true false "Service started on http://127.0.0.1:55329"), w')
  /\ clock w' = clock Example.atStart + 2000 + 1000 * 2.
Proof.
  cbv zeta.
  destruct (service_seen_by_a_poll
              (mkEnv OtherOS ["home"; "user"] None false
                 (fun n _ => if (n <? 3)%nat then ExecFailed "not ready"
                             else ExecOk Example.runningJson)
                 (fun _ _ => TimedOut))
              Example.atStart 2) as (Hrun & _ & Hclock).
  - reflexivity.
  - lia.
  - intros i Hi. destruct i as [|[|i]]; [reflexivity | reflexivity | lia].
  - vm_compute. reflexivity.
  - split; [exact Hrun | exact Hclock].
Defined.

(** ** discoverFoundryService and the cache *)

Section DiscoveryCache.
Context `{URL.Platform}.
Variable env : Env.



(** X15.  A discovery through the status command that ends well is
    remembered: when the endpoint of the status query is a string and
    answers the probe, and the cache file can be written,
    [discoverFoundryService] returns that endpoint with isRunning true, and
    from the state it leaves [readCachedEndpoint] returns the same
    endpoint, at once and for the 24 hours that follow. *)
Theorem successful_discovery_is_cached
    (w w1 w2 w3 w4 : State) (s : StartOutcome) (cli : QueryResult)
    (e : string) :
  cacheCheck env w = (Returns false, w1) ->
  startFoundryService env w1 = (Returns s, w2) ->
  queryServiceFromCLI env (afterSleep 1000 w2) = (Returns cli, w3) ->
  endpoint cli = JStr e ->
  e <> EmptyString ->
  verifyEndpoint env (JStr e) None w3 = (Returns true, w4) ->
  0 < clock w4 < 10 ^ 21 ->
  cacheWritable env w4 = true ->
  exists w' : State,
    discoverFoundryService env w
    = (Returns (Discovery.mk (JStr e) (port cli) true), w')
    /\ fst (readCachedEndpoint env w') = Returns (JStr e)
    /\ (forall later : State,
          files later = files w' ->
          clock later < clock w4 + dayMs ->
          fst (readCachedEndpoint env later) = Returns (JStr e)).
Proof.
  intros Hmiss Hstart Hquery He Hne Hverify HT Hw.
  destruct (cacheEndpoint_effect env (JStr e) w4) as (w' & Hcache & Hclock & _).
  destruct (cacheEndpoint_writes env e w4 Hne Hw) as [_ Hfiles].
  rewrite Hcache in Hfiles. cbn [snd] in Hfiles.
  exists w'. split; [|split].
  - rewrite (discover_cache_miss env w w1 Hmiss). unfold discoverFromCLI.
    rewrite (bind_returns _ _ _ _ _ Hstart).
    unfold queryVerifyCache. unfold bind at 1. cbn [Sys.sleep].
    fold (afterSleep 1000 w2).
    rewrite (bind_returns _ _ _ _ _ Hquery), He.
    assert (Ht : JS.truthy (JStr e) = true)
      by (destruct e; [contradiction | reflexivity]).
    rewrite Ht. cbn [negb]. unfold verifyAndCache. rewrite He.
    rewrite (bind_returns _ _ _ _ _ Hverify). cbn [negb].
    now rewrite (bind_returns _ _ _ _ _ Hcache).
  - rewrite (readCachedEndpoint_of_text env e (clock w4) w' Hne HT).
    + rewrite Hclock, Z.sub_diag. reflexivity.
    + rewrite Hfiles. apply lookup_insert_eq.
  - intros later Hsame Hfresh.
    rewrite (readCachedEndpoint_of_text env e (clock w4) later Hne HT).
    + destruct (Z.ltb_spec (clock later - clock w4) dayMs); [reflexivity | lia].
    + rewrite Hsame, Hfiles. apply lookup_insert_eq.
Qed.

End DiscoveryCache.


Lemma successful_discovery_is_cached_witness :
  exists w' : State,
    @discoverFoundryService URL.ascii (Example.serviceUp (Response 200))
      Example.atStart
    = (Returns (Discovery.mk (JStr "http://127.0.0.1:55329")
                  (JNum (Num.ofN 55329)) true), w')
    /\ fst (readCachedEndpoint (Example.serviceUp (Response 200)) w')
       = Returns (JStr "http://127.0.0.1:55329").
Proof.
  destruct (@successful_discovery_is_cached URL.ascii
              (Example.serviceUp (Response 200))
              Example.atStart Example.atStart
              (afterExec statusCmd Example.atStart)
              (afterExec statusCmd
                 (afterSleep 1000 (afterExec statusCmd Example.atStart)))
              (afterRequest
                 (mkRequest "127.0.0.1" (JStr "55329") "/v1/models" "GET" 3000)
                 (afterExec statusCmd
                    (afterSleep 1000 (afterExec statusCmd Example.atStart))))
              (mkStart false true
                 "Service already running on http://127.0.0.1:55329")
              (queryOutcome (Example.serviceUp (Response 200)) 1)
              "http://127.0.0.1:55329")
    as (w' & Hrun & Hread & _).
  - vm_compute. reflexivity.
  - vm_compute. reflexivity.
  - vm_compute. reflexivity.
  - vm_compute. reflexivity.
  - discriminate.
  - vm_compute. reflexivity.
  - split; reflexivity.
  - vm_compute. reflexivity.
  - exists w'. split; [exact Hrun | exact Hread].
Defined.

(** ** discoverFoundryService: what every run keeps *)

Lemma launches_app a b : launches (a ++ b) = (launches a + launches b)%nat.
Proof. unfold launches. now rewrite List.filter_app, List.length_app. Qed.

Lemma launches_none evs : forallb notLaunch evs = true -> launches evs = 0%nat.
Proof.
  unfold launches. induction evs as [|e evs IH]; [reflexivity|].
  cbn [forallb List.filter]. intros Hok.
  apply andb_true_iff in Hok as [He Hevs].
  unfold notLaunch in He. apply negb_true_iff in He. rewrite He. now apply IH.
Qed.

Lemma performs_trans a b c evs evs' :
  performs a b evs -> performs b c evs' -> performs a c (evs ++ evs').
Proof. unfold performs. intros E1 E2. now rewrite E2, E1, <- app_assoc. Qed.

Lemma keepsOtherFiles_refl path w : keepsOtherFiles path w w.
Proof. intros other _. reflexivity. Qed.

Lemma keepsOtherFiles_trans path a b c :
  keepsOtherFiles path a b -> keepsOtherFiles path b c ->
  keepsOtherFiles path a c.
Proof. intros H1 H2 other Ho. now rewrite (H2 other Ho), (H1 other Ho). Qed.

Lemma readsOnly_keepsOtherFiles path w w' :
  readsOnly w w' -> keepsOtherFiles path w w'.
Proof. intros [[Hf _] _] other _. now rewrite Hf. Qed.

Section Discovery.
Context `{URL.Platform}.
Variable env : Env.

Lemma cacheCheck_notLaunch : steps (onlyEvents notLaunch) (cacheCheck env).
Proof. unfold cacheCheck, readCachedEndpoint, verifyEndpoint. events_auto. Qed.

Lemma queryVerifyCache_keepsOtherFiles :
  steps (keepsOtherFiles (cacheFile env)) (queryVerifyCache env).
Proof.
  pose (refl := keepsOtherFiles_refl (cacheFile env)).
  pose (trans := keepsOtherFiles_trans (cacheFile env)).
  assert (Hsleep : forall ms, steps (keepsOtherFiles (cacheFile env)) (Sys.sleep ms)).
  { intros ms w other _. reflexivity. }
  unfold queryVerifyCache, verifyAndCache.
  apply (steps_bind _ trans); [apply Hsleep | intros _].
  apply (steps_bind _ trans).
  { intros w. apply readsOnly_keepsOtherFiles, queryServiceFromCLI_readsOnly. }
  intros cli. destruct (negb _); [apply (steps_ret _ refl)|].
  apply (steps_bind _ trans).
  { intros w. apply readsOnly_keepsOtherFiles, verifyEndpoint_readsOnly. }
  intros valid. destruct (negb valid); [apply (steps_ret _ refl)|].
  apply (steps_bind _ trans); [|intros _; apply (steps_ret _ refl)].
  intros w. destruct (cacheEndpoint_effect env (endpoint cli) w)
    as (w' & Hrun & _ & _ & _ & Hfiles & _).
  rewrite Hrun. exact Hfiles.
Qed.

Lemma startFoundryService_launches (w : State) :
  exists evs, performs w (snd (startFoundryService env w)) evs
              /\ (launches evs <= 1)%nat.
Proof.
  destruct (reportsRunning (queryOutcome env (execCount w))) eqn:Hfirst.
  - rewrite (startFoundryService_already env w Hfirst).
    exists [EvExecAwaited statusCmd]. split; [reflexivity | cbn; lia].
  - rewrite (startFoundryService_polls env w Hfirst).
    destruct (pollLoop_notLaunch env maxRetries (afterLaunch w))
      as (polling & Hperf & Hok).
    exists ([EvExecAwaited statusCmd; EvExecDetached launchCmd; EvSleep 2000]
            ++ polling).
    split.
    + unfold performs in *. rewrite Hperf.
      cbn [afterLaunch afterSleep emit afterExec trace].
      now rewrite <- !app_assoc.
    + rewrite launches_app, (launches_none _ Hok). cbn. lia.
Qed.

Lemma discoverFromCLI_invariants (w : State) :
  exists r w' evs,
    discoverFromCLI env w = (Returns r, w')
    /\ performs w w' evs
    /\ (launches evs <= 1)%nat
    /\ keepsOtherFiles (cacheFile env) w w'.
Proof.
  destruct (neverThrows_startFoundryService env w) as [s Hs].
  destruct (startFoundryService_launches w) as (evs1 & Hp1 & Hl1).
  pose proof (startFoundryService_readsOnly env w) as Hro.
  unfold discoverFromCLI, bind.
  destruct (startFoundryService env w) as [o w1]. cbn [fst snd] in *. subst o.
  destruct (neverThrows_queryVerifyCache env w1) as [r Hr].
  destruct (queryVerifyCache_notLaunch env w1) as (evs2 & Hp2 & Hok2).
  pose proof (queryVerifyCache_keepsOtherFiles w1) as Hk.
  destruct (queryVerifyCache env w1) as [o w2]. cbn [fst snd] in *. subst o.
  exists r, w2, (evs1 ++ evs2). split; [reflexivity|]. split; [|split].
  - exact (performs_trans _ _ _ _ _ Hp1 Hp2).
  - rewrite launches_app, (launches_none _ Hok2). lia.
  - exact (keepsOtherFiles_trans _ _ _ _
             (readsOnly_keepsOtherFiles _ _ _ Hro) Hk).
Qed.

(** X16.  Whatever the cache file holds and whatever the status command and
    the probes answer, [discoverFoundryService] returns a result; it
    executes the launch command at most once; every file other than the
    cache file is left as it was; and a result with isRunning = true
    carries a truthy endpoint. *)
Theorem discoverFoundryService_invariants (w : State) :
  exists (r : Discovery.Result) (w' : State) (evs : list Event),
    discoverFoundryService env w = (Returns r, w')
    /\ performs w w' evs
    /\ (launches evs <= 1)%nat
    /\ keepsOtherFiles (cacheFile env) w w'
    /\ (Discovery.isRunning r = true
        -> JS.truthy (Discovery.endpoint r) = true).
Proof.
  destruct (cacheCheck_notLaunch w) as (evs0 & Hp0 & Hok0).
  pose proof (cacheCheck_readsOnly env w) as Hro.
  destruct (cacheCheck env w) as [[[]|err] w1] eqn:Hc; cbn [snd] in *.
  - destruct (discover_cache_hit env w w1 Hc) as (c & Hct & Ed).
    exists (Discovery.mk c JNull true), w1, evs0.
    split; [exact Ed|]. split; [exact Hp0|]. split.
    { rewrite (launches_none _ Hok0). lia. }
    split; [exact (readsOnly_keepsOtherFiles _ _ _ Hro)|].
    intros _. exact Hct.
  - rewrite (discover_cache_miss env w w1 Hc).
    destruct (discoverFromCLI_invariants w1) as (r & w' & evs & Hrun & Hp & Hl & Hk).
    exists r, w', (evs0 ++ evs). split; [exact Hrun|]. split; [|split; [|split]].
    + exact (performs_trans _ _ _ _ _ Hp0 Hp).
    + rewrite launches_app, (launches_none _ Hok0). lia.
    + exact (keepsOtherFiles_trans _ _ _ _
               (readsOnly_keepsOtherFiles _ _ _ Hro) Hk).
    + exact (discoverFromCLI_running_truthy env w1 r w' Hrun).
  - exfalso. unfold cacheCheck, bind in Hc.
    destruct (neverThrows_readCachedEndpoint env w) as [c Hcr].
    destruct (readCachedEndpoint env w) as [o wa]. cbn [fst] in Hcr. subst o.
    destruct (JS.truthy c); [|discriminate].
    destruct (neverThrows_verifyEndpoint env c None wa) as [b Hb].
    rewrite Hc in Hb. discriminate.
Qed.

End Discovery.

(** ** normalizeEndpoint: texts that are not web URLs, values that are not
    texts *)

Lemma visible_cleaning (text : string) :
  Str.all isVisible text = true ->
  Str.filter (fun c => negb (URL.isTabOrNewline c))
    (Str.dropWhileEnd URL.isC0OrSpace (Str.dropWhile URL.isC0OrSpace text))
  = text.
Proof.
  intros Hall. destruct text as [|c text]; [reflexivity|].
  rewrite dropWhile_head.
  2:{ cbn [Str.all] in Hall. apply andb_true_iff in Hall as [Hc _].
      unfold isVisible in Hc. apply N.ltb_lt in Hc.
      unfold URL.isC0OrSpace. now apply N.leb_gt. }
  rewrite dropWhileEnd_none.
  - apply filter_all. revert Hall. apply all_impl.
    intros x Hx. unfold isVisible in Hx. unfold URL.isTabOrNewline.
    apply N.ltb_lt in Hx.
    destruct (N.eqb_spec (Chars.code x) 9); [lia|].
    destruct (N.eqb_spec (Chars.code x) 10); [lia|].
    destruct (N.eqb_spec (Chars.code x) 13); [lia|]. reflexivity.
  - revert Hall. apply all_impl. intros x Hx.
    unfold isVisible in Hx. unfold URL.isC0OrSpace.
    apply N.ltb_lt in Hx. apply negb_true_iff, N.leb_gt. exact Hx.
Qed.

Lemma schemeChar_facts c :
  URL.isSchemeChar c = true -> isVisible c = true /\ Ascii.eqb c ":" = false.
Proof. each_char c; intros E; try discriminate E; split; reflexivity. Qed.

Lemma alpha_schemeChar c : Chars.isAlpha c = true -> URL.isSchemeChar c = true.
Proof. each_char c; intros E; try discriminate E; reflexivity. Qed.

Lemma splitScheme_name (c : ascii) (r rest : string) :
  Chars.isAlpha c = true ->
  Str.all URL.isSchemeChar r = true ->
  URL.splitScheme (String c r +:+ String ":" rest)
  = Some (Str.map Chars.toLower (String c r), rest).
Proof.
  intros Hc Hr. cbn [String.append]. unfold URL.splitScheme. rewrite Hc.
  rewrite (run_append URL.isSchemeChar r (String ":" rest) Hr eq_refl).
  now rewrite drop_append, take_append.
Qed.

Section SchemeLess.
Context `{URL.Platform}.

(** X17.  An address written without a scheme whose host is a name, as
    in localhost:55329, is a URL for [new URL]: the name is its scheme.  So
    the fallback that would put http:// in front of it is not reached, and
    [normalizeEndpoint] returns the name in lower case followed by ://,
    without the port. *)
Theorem normalizeEndpoint_takes_host_for_scheme
    (c : ascii) (r rest : string) :
  Chars.isAlpha c = true ->
  Str.all URL.isSchemeChar r = true ->
  URL.isSpecial (Str.map Chars.toLower (String c r)) = false ->
  Str.all isVisible rest = true ->
  Str.startsWith "//" rest = false ->
  normalizeEndpoint (JStr (String c r +:+ String ":" rest))
  = Returns (JStr (Str.map Chars.toLower (String c r) +:+ "://")).
Proof.
  intros Hc Hr Hspecial Hvis Hrest.
  set (scheme := Str.map Chars.toLower (String c r)) in *.
  assert (Hparse :
    URL.parse (String c r +:+ String ":" rest)
    = Some (URL.mkLoc (scheme +:+ ":") "" "" (URL.pathnameOf scheme rest))).
  { unfold URL.parse. rewrite visible_cleaning.
    2:{ rewrite all_append. cbn [Str.all]. rewrite Hvis.
        rewrite (proj1 (schemeChar_facts c (alpha_schemeChar c Hc))).
        rewrite (all_impl _ _ _ (fun x Hx => proj1 (schemeChar_facts x Hx)) Hr).
        reflexivity. }
    rewrite (splitScheme_name c r rest Hc Hr). fold scheme.
    unfold URL.isSpecial in Hspecial. apply orb_false_iff in Hspecial as [Hfile Hdef].
    rewrite Hfile. unfold URL.isSpecial. rewrite Hfile, Hdef. cbn [orb].
    destruct rest as [|a rest]; [reflexivity|].
    each_char a; try reflexivity.
    destruct rest as [|b rest]; [reflexivity|].
    each_char b; try reflexivity. discriminate Hrest. }
  rewrite (normalizeEndpoint_parsed _ _ Hparse). unfold origin.
  cbn [URL.protocol URL.hostname URL.port Str.isEmpty negb].
  now rewrite append_assoc.
Qed.

End SchemeLess.

Lemma normalizeEndpoint_takes_host_for_scheme_witness :
  @normalizeEndpoint URL.ascii (JStr "localhost:55329")
  = Returns (JStr "localhost://").
Proof.
  exact (@normalizeEndpoint_takes_host_for_scheme URL.ascii "l" "ocalhost"
           "55329" eq_refl eq_refl eq_refl eq_refl eq_refl).
Defined.

(** *** The fallback yields an http URL *)

Lemma startsWith_eq (p s : string) :
  Str.startsWith p s = true -> s = p +:+ Str.drop (String.length p) s.
Proof.
  revert s. induction p as [|a p IH]; intros s Hs; [reflexivity|].
  destruct s as [|b s]; [discriminate|]. cbn [Str.startsWith] in Hs.
  apply andb_true_iff in Hs as [Hab Hs]. apply Ascii.eqb_eq in Hab. subst b.
  cbn. f_equal. now apply IH.
Qed.

Lemma searchFrom_bol (p : list Regex.item) : forall (s : string) (pos : nat),
  Regex.searchFrom (Regex.Bol :: p) (S pos) s = None.
Proof.
  induction s as [|c s IH]; intros pos; cbn [Regex.searchFrom Regex.matchHere];
    cbn [Nat.eqb]; [reflexivity | apply IH].
Qed.

Lemma httpsPrefix_http (s : string) :
  Regex.replace Regex.httpsPrefixRe "http:" ("http://" +:+ s) = "http://" +:+ s.
Proof.
  unfold Regex.replace, Regex.search. cbn [String.append].
  unfold Regex.httpsPrefixRe.
  cbn [Regex.searchFrom].
  cbn [Regex.matchHere Regex.lit Regex.most Regex.least Str.run Nat.eqb
       Ascii.eqb Bool.eqb Nat.min Nat.leb Str.drop Str.take Nat.add andb].
  now rewrite (searchFrom_bol _ s 6).
Qed.

Lemma httpsPrefix_https (s : string) :
  Regex.replace Regex.httpsPrefixRe "http:" ("https://" +:+ s) = "http://" +:+ s.
Proof. reflexivity. Qed.

Lemma normalizeFallback_http (text : string) :
  Str.startsWith "http://" (normalizeFallback text) = true.
Proof.
  unfold normalizeFallback.
  set (e := Regex.replace Regex.pathRe "" _).
  destruct (Str.startsWith "http://" e) eqn:H1; cbn [negb andb].
  - rewrite (startsWith_eq _ _ H1) at 1. now rewrite httpsPrefix_http.
  - destruct (Str.startsWith "https://" e) eqn:H2; cbn [negb].
    + rewrite (startsWith_eq _ _ H2) at 1. now rewrite httpsPrefix_https.
    + now rewrite httpsPrefix_http.
Qed.

Lemma origin_nonempty (u : URL.Loc) : origin u <> EmptyString.
Proof. unfold origin. destruct (URL.protocol u); discriminate. Qed.

Lemma parse_not_alpha `{URL.Platform} (c : ascii) (r : string) :
  Chars.isAlpha c = false -> isVisible c = true ->
  URL.parse (String c r) = None.
Proof.
  intros Ha Hv. unfold URL.parse.
  assert (Hsp : URL.isC0OrSpace c = false).
  { unfold isVisible in Hv. apply N.ltb_lt in Hv. unfold URL.isC0OrSpace.
    now apply N.leb_gt. }
  assert (Htn : URL.isTabOrNewline c = false).
  { unfold isVisible in Hv. apply N.ltb_lt in Hv. unfold URL.isTabOrNewline.
    destruct (N.eqb_spec (Chars.code c) 9); [lia|].
    destruct (N.eqb_spec (Chars.code c) 10); [lia|].
    destruct (N.eqb_spec (Chars.code c) 13); [lia|]. reflexivity. }
  rewrite (dropWhile_head _ _ _ Hsp). cbn [Str.dropWhileEnd].
  rewrite Hsp, andb_false_r. cbn [Str.filter]. rewrite Htn. cbn [negb].
  unfold URL.splitScheme. now rewrite Ha.
Qed.

Lemma stripZeros_head (c : ascii) (r : string) :
  Ascii.eqb c "0" = false ->
  exists r', fst (Num.stripZeros (String c r)) = String c r'.
Proof.
  intros Hc. cbn [Num.stripZeros]. destruct (Num.stripZeros r) as [r' z].
  rewrite Hc, andb_false_r. now exists r'.
Qed.

Lemma digit_facts' c :
  Chars.isDigit c = true -> Chars.isAlpha c = false /\ isVisible c = true.
Proof. each_char c; intros E; try discriminate E; split; reflexivity. Qed.

(** The text of a number other than zero starts with a digit or a minus
    sign, or is Infinity. *)
Lemma toString_head (neg : bool) (m : N) (e : Z) :
  (m <> 0)%N ->
  exists c r, Num.toString (Num.Dec neg m e) = String c r
    /\ Chars.isAlpha c = false /\ isVisible c = true.
Proof.
  intros Hm. unfold Num.toString.
  destruct (N.eqb_spec m 0) as [|_]; [contradiction|].
  destruct (ofN_head m ltac:(lia)) as (c & r & E & Hd & H0).
  destruct (stripZeros_head c r H0) as (r' & Hs). rewrite E.
  destruct (Num.stripZeros (String c r)) as [s z]. cbn [fst] in Hs. subst s.
  destruct neg.
  { eexists _, _. split; [reflexivity | split; reflexivity]. }
  cbn [String.append].
  destruct (digit_facts' c Hd) as [Ha Hv].
  set (k := Z.of_nat (String.length (String c r'))).
  set (n := k + Z.of_nat z + e).
  destruct ((k <=? n) && (n <=? 21)).
  { eexists _, _. split; [reflexivity | split; assumption]. }
  destruct ((0 <? n) && (n <=? 21)) eqn:Hn.
  { apply andb_true_iff in Hn as [Hn _]. apply Z.ltb_lt in Hn.
    destruct (Z.to_nat n) as [|n'] eqn:En; [lia|].
    eexists _, _. split; [reflexivity | split; assumption]. }
  destruct ((-6 <? n) && (n <=? 0)).
  { eexists _, _. split; [reflexivity | split; reflexivity]. }
  destruct r'; eexists _, _; (split; [reflexivity | split; assumption]).
Qed.

Section NotText.
Context `{URL.Platform}.

Lemma parse_number_text (n : Num.JSNumber) :
  Num.truthy n = true -> URL.parse (Num.toString n) = None.
Proof.
  destruct n as [|neg|neg m e]; cbn [Num.truthy]; intros Ht.
  - discriminate.
  - destruct neg; reflexivity.
  - apply negb_true_iff, N.eqb_neq in Ht.
    destruct (toString_head neg m e Ht) as (c & r & -> & Ha & Hv).
    now apply parse_not_alpha.
Qed.

(** X18.  On a text that is not empty, [normalizeEndpoint] never throws
    and never returns null: it returns a text that is not empty, and when
    the text is not a URL what the fallback returns starts with
    http://. *)
Theorem normalizeEndpoint_text (text : string) :
  text <> EmptyString ->
  exists normalized : string,
    normalizeEndpoint (JStr text) = Returns (JStr normalized)
    /\ normalized <> EmptyString
    /\ (URL.parse text = None -> Str.startsWith "http://" normalized = true).
Proof.
  intros Hne. unfold normalizeEndpoint.
  assert (Ht : JS.truthy (JStr text) = true)
    by (destruct text; [contradiction | reflexivity]).
  rewrite Ht. cbn [negb JS.toString]. unfold URL.new.
  destruct (URL.parse text) as [u|].
  - exists (origin u). split; [reflexivity|].
    split; [apply origin_nonempty | discriminate].
  - exists (normalizeFallback text). split; [reflexivity|].
    pose proof (normalizeFallback_http text) as Hhttp.
    split; [|intros _; exact Hhttp].
    intros E. rewrite E in Hhttp. discriminate.
Qed.

(** X19.  A value that is not a text must be a URL once converted to text,
    or [normalizeEndpoint] throws: the fallback calls a method that only
    texts have.  It throws for every number other than 0 and NaN, for true
    and for every object. *)
Theorem normalizeEndpoint_throws_without_text
    (n : Num.JSNumber) (members : list (string * JSValue)) :
  Num.truthy n = true ->
  (exists err, normalizeEndpoint (JNum n) = Throws err)
  /\ (exists err, normalizeEndpoint (JBool true) = Throws err)
  /\ (exists err, normalizeEndpoint (JObj members) = Throws err).
Proof.
  intros Hn. split; [|split].
  - unfold normalizeEndpoint. cbn [JS.truthy JS.toString]. rewrite Hn.
    cbn [negb]. unfold URL.new. rewrite (parse_number_text n Hn).
    eexists. reflexivity.
  - eexists. reflexivity.
  - unfold normalizeEndpoint. cbn [JS.truthy negb JS.toString].
    destruct (JS.convertible (JObj members)); eexists; reflexivity.
Qed.

End NotText.

Lemma normalizeEndpoint_text_witness :
  exists normalized : string,
    @normalizeEndpoint URL.ascii (JStr "127.0.0.1:55329/openai/status")
    = Returns (JStr normalized)
    /\ normalized <> EmptyString
    /\ (@URL.parse URL.ascii "127.0.0.1:55329/openai/status" = None ->
        Str.startsWith "http://" normalized = true).
Proof.
  exact (@normalizeEndpoint_text URL.ascii "127.0.0.1:55329/openai/status"
           ltac:(discriminate)).
Defined.

Lemma normalizeEndpoint_throws_without_text_witness :
  exists err, @normalizeEndpoint URL.ascii (JNum (Num.ofN 55329)) = Throws err.
Proof.
  exact (proj1 (@normalizeEndpoint_throws_without_text URL.ascii
                  (Num.ofN 55329) [] eq_refl)).
Defined.

(** *** The fallback on an address without a scheme *)

Lemma lit_no_match_here ch (p : list Regex.item) pos c s :
  Ascii.eqb ch c = false ->
  Regex.matchHere (Regex.lit ch :: p) pos (String c s) = None.
Proof.
  intros E. unfold Regex.lit.
  cbn [Regex.matchHere Regex.most Regex.least Str.run]. rewrite E.
  reflexivity.
Qed.

Lemma lit_search_skips ch (p : list Regex.item) pre : forall pos rest,
  Str.all (fun c => negb (Ascii.eqb ch c)) pre = true ->
  Regex.searchFrom (Regex.lit ch :: p) pos (pre +:+ rest)
  = Regex.searchFrom (Regex.lit ch :: p) (pos + String.length pre)%nat rest.
Proof.
  induction pre as [|c pre IH]; intros pos rest Hall.
  - cbn. now rewrite Nat.add_0_r.
  - cbn [Str.all] in Hall. apply andb_true_iff in Hall as [Hc Hpre].
    apply negb_true_iff in Hc.
    change (String c pre +:+ rest) with (String c (pre +:+ rest)).
    cbn [Regex.searchFrom]. rewrite (lit_no_match_here _ _ _ _ _ Hc).
    rewrite IH by exact Hpre. cbn [String.length]. f_equal. lia.
Qed.

Lemma drop_all (s : string) n :
  (String.length s <= n)%nat -> Str.drop n s = EmptyString.
Proof.
  revert s. induction n as [|n IH]; intros [|c s] Hn; cbn in *;
    try reflexivity; [lia | apply IH; lia].
Qed.

(** [s.replace(/\/$/, '')] on a text that ends with a slash, and on one
    that does not. *)
Lemma trailingSlash_removed : forall (t : string) (pos : nat),
  Regex.searchFrom Regex.trailingSlashRe pos (t +:+ "/")
  = Some (Regex.mkMatch (pos + String.length t) "/" None).
Proof.
  induction t as [|c t IH]; intros pos.
  - cbn. now rewrite Nat.add_0_r.
  - change (String c t +:+ "/") with (String c (t +:+ "/")).
    cbn [Regex.searchFrom].
    assert (Hno : Regex.matchHere Regex.trailingSlashRe pos (String c (t +:+ "/"))
                  = None).
    { unfold Regex.trailingSlashRe, Regex.lit.
      cbn [Regex.matchHere Regex.most Regex.least Str.run].
      destruct (Ascii.eqb "/" c); [|reflexivity].
      cbn [Nat.min Nat.leb Str.drop].
      destruct (t +:+ "/") eqn:E; [destruct t; discriminate|].
      reflexivity. }
    rewrite Hno, IH. cbn [String.length]. f_equal. f_equal. lia.
Qed.

Lemma trailingSlash_replace_slash (t : string) :
  Regex.replace Regex.trailingSlashRe "" (t +:+ "/") = t.
Proof.
  unfold Regex.replace, Regex.search. rewrite trailingSlash_removed.
  cbn [Regex.index Regex.matched String.length Nat.add String.append].
  rewrite take_append, drop_all, append_nil_r; [reflexivity|].
  rewrite length_append. cbn. lia.
Qed.

Lemma trailingSlash_absent : forall (s : string) (pos : nat),
  URL.lastChar s <> Some "/"%char ->
  Regex.searchFrom Regex.trailingSlashRe pos s = None.
Proof.
  induction s as [|c s IH]; intros pos Hlast; [reflexivity|].
  cbn [Regex.searchFrom].
  assert (Hno : Regex.matchHere Regex.trailingSlashRe pos (String c s) = None).
  { unfold Regex.trailingSlashRe, Regex.lit.
    cbn [Regex.matchHere Regex.most Regex.least Str.run].
    destruct (Ascii.eqb_spec "/" c) as [<-|]; [|reflexivity].
    cbn [Nat.min Nat.leb Str.drop].
    destruct s; [now elim Hlast | reflexivity]. }
  rewrite Hno. apply IH. destruct s; [discriminate | exact Hlast].
Qed.

Lemma lastChar_view (s : string) :
  (exists t, s = t +:+ "/") \/ URL.lastChar s <> Some "/"%char.
Proof.
  induction s as [|c s IH]; [right; discriminate|].
  destruct s as [|d s].
  - destruct (Ascii.eqb_spec c "/") as [->|Hc].
    + left. now exists "".
    + right. cbn. congruence.
  - destruct IH as [[t E]|Hlast].
    + left. exists (String c t). cbn. now rewrite <- E.
    + right. exact Hlast.
Qed.

Lemma lastChar_append (a b : string) :
  b <> EmptyString -> URL.lastChar (a +:+ b) = URL.lastChar b.
Proof.
  intros Hb. induction a as [|c a IH]; [reflexivity|].
  cbn [String.append URL.lastChar]. rewrite IH.
  destruct (a +:+ b) eqn:E; [|reflexivity].
  destruct a; [cbn in E; now subst | discriminate].
Qed.

Lemma lastChar_all p (s : string) c :
  Str.all p s = true -> URL.lastChar s = Some c -> p c = true.
Proof.
  induction s as [|d s IH]; [discriminate|]. cbn [Str.all URL.lastChar].
  intros Hs. apply andb_true_iff in Hs as [Hd Hs].
  destruct s; [now intros [= <-] | now apply IH].
Qed.

(** [s.replace(/\/.*$/, '')] on a text whose first slash is followed by
    no line terminator. *)
Lemma pathRe_match_here pos (tail : string) :
  Str.all (fun c => negb (Chars.isLineTerminator c)) tail = true ->
  Regex.matchHere Regex.pathRe pos (String "/" tail)
  = Some (String "/" tail, None).
Proof.
  intros Htail. unfold Regex.pathRe, Regex.lit.
  assert (Hrun : Str.run (fun c => negb (Chars.isLineTerminator c)) tail
                 = String.length tail).
  { rewrite <- (append_nil_r tail) at 1. now apply run_append. }
  assert (Hstar :
    Regex.matchHere
      [Regex.Atom false (fun c => negb (Chars.isLineTerminator c)) Regex.Star;
       Regex.Eol] (pos + 1) tail
    = Some (tail, None)).
  { rewrite (matchHere_greedy false _ Regex.Star _ _ _ "" None).
    - cbn [Regex.most]. rewrite Hrun.
      rewrite <- (append_nil_r tail) at 2. rewrite take_append.
      now rewrite append_nil_r.
    - cbn. lia.
    - cbn [Regex.most]. rewrite Hrun, drop_all by lia. reflexivity. }
  rewrite (matchHere_greedy false (Ascii.eqb "/") Regex.One _ _ _ tail None).
  - reflexivity.
  - cbn. lia.
  - cbn [Regex.most Str.run Ascii.eqb Bool.eqb Nat.min Str.drop]. exact Hstar.
Qed.

Lemma pathRe_replace (addr tail : string) :
  Str.all (fun c => negb (Ascii.eqb "/" c)) addr = true ->
  Str.all (fun c => negb (Chars.isLineTerminator c)) tail = true ->
  Regex.replace Regex.pathRe "" (addr +:+ String "/" tail) = addr.
Proof.
  intros Haddr Htail. unfold Regex.replace, Regex.search.
  unfold Regex.pathRe at 1. rewrite (lit_search_skips "/" _ addr 0 _ Haddr).
  fold Regex.pathRe. cbn [Regex.searchFrom].
  rewrite (pathRe_match_here _ tail Htail).
  cbn [Regex.index Regex.matched Nat.add String.append].
  rewrite take_append, drop_all, append_nil_r; [reflexivity|].
  rewrite length_append. cbn. lia.
Qed.

Lemma no_slash_replace (p : list Regex.item) (s : string) :
  Str.all (fun c => negb (Ascii.eqb "/" c)) s = true ->
  Regex.replace (Regex.lit "/" :: p) "" s = s.
Proof.
  intros Hs. unfold Regex.replace, Regex.search.
  change (Regex.lit "/" :: p) with ([] ++ Regex.lit "/" :: p).
  now rewrite (searchFrom_needs "/" [] p s 0 Hs).
Qed.

Lemma all_prefix p (a b : string) :
  Str.all p (a +:+ b) = true -> Str.all p a = true.
Proof. rewrite all_append. intros E. now apply andb_true_iff in E as [E _]. Qed.

Section Address.
Context `{URL.Platform}.

(** X20.  An address that is not a URL because it starts with a digit, as
    in 127.0.0.1:55329/openai/status, goes through the fallback as its
    comments say: everything from the first slash on is removed and
    http:// is put in front. *)
Theorem normalizeEndpoint_completes_an_address
    (c : ascii) (body path : string) :
  Chars.isAlpha c = false ->
  isVisible c = true ->
  Str.all (fun x => negb (Ascii.eqb "/" x)) (String c body) = true ->
  Str.all (fun x => negb (Chars.isLineTerminator x)) path = true ->
  Str.startsWith "/" path = true \/ path = EmptyString ->
  normalizeEndpoint (JStr (String c body +:+ path))
  = Returns (JStr ("http://" +:+ String c body)).
Proof.
  intros Ha Hv Haddr Hpath Hshape.
  set (addr := String c body) in *.
  change (addr +:+ path) with (String c (body +:+ path)).
  unfold normalizeEndpoint. cbn [JS.truthy JS.toString Str.isEmpty negb].
  unfold URL.new.
  rewrite (parse_not_alpha c _ Ha Hv). f_equal. f_equal.
  change (String c (body +:+ path)) with (addr +:+ path).
  unfold normalizeFallback.
  assert (Hcut :
    Regex.replace Regex.pathRe ""
      (Regex.replace Regex.trailingSlashRe "" (addr +:+ path)) = addr).
  { destruct Hshape as [Hslash | ->].
    - destruct path as [|p0 tail]; [discriminate|].
      cbn [Str.startsWith] in Hslash. apply andb_true_iff in Hslash as [Hp0 _].
      apply Ascii.eqb_eq in Hp0. subst p0.
      cbn [Str.all] in Hpath. apply andb_true_iff in Hpath as [_ Htail].
      destruct (lastChar_view tail) as [[t Et]|Hlast].
      + replace (addr +:+ String "/" tail) with ((addr +:+ String "/" t) +:+ "/")
          by (rewrite Et, append_assoc; reflexivity).
        rewrite trailingSlash_replace_slash.
        apply pathRe_replace; [exact Haddr|].
        rewrite Et in Htail. exact (all_prefix _ _ _ Htail).
      + destruct tail as [|d tail'].
        * rewrite trailingSlash_replace_slash.
          unfold Regex.pathRe. now apply no_slash_replace.
        * unfold Regex.replace at 2. unfold Regex.search.
          rewrite trailingSlash_absent.
          -- now apply pathRe_replace.
          -- change (String "/" (String d tail')) with ("/" +:+ String d tail').
             rewrite lastChar_append by discriminate.
             rewrite lastChar_append by discriminate. exact Hlast.
    - rewrite append_nil_r.
      unfold Regex.trailingSlashRe. rewrite (no_slash_replace _ addr Haddr).
      unfold Regex.pathRe. now apply no_slash_replace. }
  rewrite Hcut.
  assert (H1 : Str.startsWith "http://" addr = false).
  { unfold addr. cbn [Str.startsWith].
    destruct (Ascii.eqb_spec "h" c) as [<-|]; [discriminate Ha | reflexivity]. }
  assert (H2 : Str.startsWith "https://" addr = false).
  { unfold addr. cbn [Str.startsWith].
    destruct (Ascii.eqb_spec "h" c) as [<-|]; [discriminate Ha | reflexivity]. }
  rewrite H1, H2. cbn [negb andb]. apply httpsPrefix_http.
Qed.

End Address.

Lemma normalizeEndpoint_completes_an_address_witness :
  @normalizeEndpoint URL.ascii (JStr "127.0.0.1:55329/openai/status/")
  = Returns (JStr "http://127.0.0.1:55329").
Proof.
  exact (@normalizeEndpoint_completes_an_address URL.ascii "1" "27.0.0.1:55329"
           "/openai/status/" eq_refl eq_refl eq_refl eq_refl
           (or_introl eq_refl)).
Defined.

(** ** JSON: an object of texts is read back as it was written *)

Lemma parseMembers_texts (sep : string) (tail : string) :
  sep = String "," (String JSON.newline "  ") ->
  forall (fields : list (string * string)) (f : nat),
    fields <> [] ->
    (List.length fields < f)%nat ->
    JSON.parseMembers f
      (Str.join sep
         (List.map
            (fun kv => JSON.quote (fst kv) +:+ ": " +:+ JSON.quote (snd kv))
            fields)
       +:+ String JSON.newline (String "}" tail))
    = Some (List.map (fun kv => (fst kv, JStr (snd kv))) fields, tail).
Proof.
  intros ->. induction fields as [|[k v] fields IH]; intros f Hne Hf;
    [contradiction|].
  destruct f as [|f]; [cbn in Hf; lia|].
  destruct f as [|f]; [cbn in Hf; lia|].
  cbn [List.map fst snd].
  assert (Hone : forall after,
    JSON.parseMembers (S (S f))
      (JSON.quote k +:+ ": " +:+ JSON.quote v +:+ after)
    = match JSON.skipWs after with
      | String "," r4 =>
          match JSON.parseMembers (S f) r4 with
          | Some (l, r5) => Some ((k, JStr v) :: l, r5)
          | None => None
          end
      | String "}" r4 => Some ([(k, JStr v)], r4)
      | _ => None
      end).
  { intros after. unfold JSON.quote.
    repeat rewrite append_assoc. cbn [String.append].
    repeat rewrite append_assoc. cbn [String.append].
    rewrite parseMembers_member.
    rewrite parseValue_ws by reflexivity.
    now rewrite parseValue_string. }
  destruct fields as [|kv' fields].
  - cbn [List.map Str.join]. repeat rewrite append_assoc.
    etransitivity; [apply Hone|]. reflexivity.
  - change (Str.join ?s (?x :: List.map ?g (kv' :: fields)))
      with (x +:+ s +:+ Str.join s (List.map g (kv' :: fields))).
    repeat rewrite append_assoc.
    etransitivity; [apply Hone|].
    cbn [String.append JSON.skipWs Str.dropWhile].
    change (JSON.isWs ",") with false. cbv iota.
    rewrite !parseMembers_ws by reflexivity.
    assert (IH' := IH (S f) ltac:(discriminate) ltac:(cbn in *; lia)).
    cbn [String.append] in IH'. now rewrite IH'.
Qed.

Lemma parseValue_object f r :
  match JSON.skipWs r with
  | String c _ => Ascii.eqb c "}" = false
  | EmptyString => True
  end ->
  JSON.parseValue (S f) (String "{" r)
  = match JSON.parseMembers f r with
    | Some (l, r') => Some (JObj l, r')
    | None => None
    end.
Proof.
  intros Hr.
  change (JSON.parseValue (S f) (String "{" r))
    with (match JSON.skipWs r with
          | String "}" r' => Some (JObj [], r')
          | _ =>
              match JSON.parseMembers f r with
              | Some (l, r') => Some (JObj l, r')
              | None => None
              end
          end).
  destruct (JSON.skipWs r) as [|c r']; [reflexivity|].
  each_char c; try reflexivity. discriminate Hr.
Qed.

Lemma parse_stringify_texts (fields : list (string * string)) :
  JSON.parse (JSON.stringify (recordOf fields) 2) = Returns (recordOf fields).
Proof.
  destruct fields as [|kv fields]; [reflexivity|].
  set (l := kv :: fields).
  set (body :=
    String JSON.newline
      ("  "
       +:+ Str.join (String "," (String JSON.newline "  "))
             (List.map
                (fun kv => JSON.quote (fst kv) +:+ ": " +:+ JSON.quote (snd kv))
                l)
       +:+ String JSON.newline (String "}" ""))).
  assert (Htext : JSON.stringify (recordOf l) 2 = String "{" body).
  { unfold JSON.stringify, recordOf. cbn [JSON.serialize].
    rewrite List.map_map. cbn [fst snd JSON.serialize Str.repeat Nat.min
      Str.isEmpty String.append].
    unfold l at 1. cbn [List.map]. cbn [String.append]. reflexivity. }
  rewrite Htext. unfold JSON.parse.
  set (F := (String.length (String "{" body) + String.length (String "{" body))%nat).
  rewrite parseValue_object.
  2:{ unfold body, l. destruct fields; reflexivity. }
  assert (Hfuel : JSON.parseMembers (F + S (List.length l)) body
                  = JSON.parseMembers F body).
  { apply (proj1 (proj2 (parse_fuel F))); [|lia].
    unfold F. cbn [String.length]. lia. }
  rewrite <- Hfuel. unfold body.
  match goal with
  | |- context [("  " +:+ ?x)%string] =>
      change ("  " +:+ x) with (String " " (String " " x))
  end.
  rewrite !parseMembers_ws by reflexivity.
  rewrite (parseMembers_texts _ "" eq_refl l); [reflexivity | discriminate | lia].
Qed.

(** ** main.js: the cloud configuration file *)

Section Writing.
Variable env : Env.

Lemma dir_in_ancestors (dir : list string) :
  dir <> [] -> In dir (Sys.ancestors dir).
Proof.
  intros Hne. unfold Sys.ancestors. apply in_map_iff.
  exists (List.length dir). split; [apply firstn_all|].
  apply in_seq. destruct dir; [contradiction | cbn; lia].
Qed.

Lemma file_not_in_ancestors (dir : list string) (name : string) :
  ~ In (dir ++ [name]) (Sys.ancestors dir).
Proof.
  unfold Sys.ancestors. intros Hin.
  apply in_map_iff in Hin as (n & E & _).
  apply (f_equal (@List.length string)) in E.
  rewrite length_take, length_app in E. cbn in E. lia.
Qed.

(** Making the directory if it is missing, then writing the file. *)
Lemma write_in_directory (dir : list string) (name text : string) (w : State) :
  dir <> [] ->
  writableIn env w dir name = true ->
  exists w' : State,
    (present <- Sys.existsSync dir ;;
     (if present : bool then ret tt else Sys.mkdirSync env dir) ;;;
     Sys.writeFileSync env (dir ++ [name]) text) w
    = (Returns tt, w')
    /\ files w' = <[dir ++ [name] := text]> (files w)
    /\ clock w' = clock w.
Proof.
  intros Hne Hw. unfold writableIn in Hw.
  apply andb_true_iff in Hw as [Hw Hnodir].
  apply andb_true_iff in Hw as [Hro Hnofile].
  apply negb_true_iff in Hro, Hnofile, Hnodir.
  apply bool_decide_eq_false in Hnodir.
  assert (Hdirfile : files w !! dir = None).
  { destruct (files w !! dir) eqn:E; [|reflexivity].
    exfalso. apply Bool.not_true_iff_false in Hnofile. apply Hnofile.
    apply existsb_exists. exists dir.
    split; [now apply dir_in_ancestors|].
    apply bool_decide_eq_true. rewrite E. eauto. }
  unfold bind, Sys.existsSync. rewrite Hdirfile.
  rewrite bool_decide_eq_false_2 by (intros [x Hx]; discriminate).
  cbn [orb].
  destruct (bool_decide (dir ∈ dirs w)) eqn:Hdir.
  - apply bool_decide_eq_true in Hdir.
    unfold ret, Sys.writeFileSync. rewrite Hro.
    rewrite (bool_decide_eq_false_2 _ Hnodir).
    rewrite removelast_last, (bool_decide_eq_true_2 _ Hdir).
    cbn [negb]. eexists. repeat split.
  - unfold Sys.mkdirSync. rewrite Hro, Hnofile.
    unfold Sys.writeFileSync. rewrite Hro. cbn [dirs files clock].
    rewrite bool_decide_eq_false_2.
    2:{ intros Hin. apply elem_of_union in Hin as [Hin|Hin]; [now apply Hnodir|].
        apply elem_of_list_to_set in Hin. apply list_elem_of_In in Hin.
        now apply file_not_in_ancestors in Hin. }
    rewrite removelast_last, bool_decide_eq_true_2.
    2:{ apply elem_of_union. right. apply elem_of_list_to_set.
        apply list_elem_of_In. now apply dir_in_ancestors. }
    cbn [negb]. eexists. repeat split.
Qed.

End Writing.

Section CloudConfig.
Context `{URL.Platform}.
Variable env : Env.
Variable exchange : nat -> RequestOptions -> list (string * string) -> Exchange.

Lemma saveCloudConfigToFile_writes (config : JSValue) (w : State) :
  writableIn env w (homedir env ++ [".foundry-chat"]) "cloud-config.json" = true ->
  exists w' : State,
    Main.saveCloudConfigToFile env config w = (Returns true, w')
    /\ files w' = <[cloudConfigPath env := JSON.stringify config 2]> (files w).
Proof.
  intros Hw.
  destruct (write_in_directory env (homedir env ++ [".foundry-chat"])
              "cloud-config.json" (JSON.stringify config 2) w)
    as (w' & Hrun & Hfiles & _); [now destruct (homedir env) | exact Hw |].
  exists w'. split.
  - unfold Main.saveCloudConfigToFile. apply tryCatch_returns.
    cbv zeta. unfold bind in *.
    destruct (Sys.existsSync _ w) as [[present|] w0]; [|discriminate].
    destruct ((if present then ret tt else Sys.mkdirSync env _) w0)
      as [[[]|] w1]; [|discriminate].
    now rewrite Hrun.
  - rewrite Hfiles. unfold cloudConfigPath. now rewrite <- app_assoc.
Qed.

Lemma loadCloudConfig_of_text (cloud : Main.Cloud) (text : string)
    (config : JSValue) (w : State) :
  files w !! cloudConfigPath env = Some text ->
  JSON.parse text = Returns config ->
  config <> JNull ->
  Main.loadCloudConfig env cloud w
  = (Returns
       (if JS.truthyOpt (JS.prop config "apiKey")
           && JS.truthyOpt (JS.prop config "endpoint")
           && JS.truthyOpt (JS.prop config "modelName")
        then (true,
              Main.mkCloud (JS.prop config "apiKey") (JS.prop config "endpoint")
                           (JS.prop config "modelName"))
        else (false, cloud)), w).
Proof.
  intros Hfile Hparse Hnull.
  unfold Main.loadCloudConfig, tryCatch, bind, Sys.existsSync, Sys.readFileSync,
    lift.
  cbv zeta. fold (cloudConfigPath env). rewrite Hfile.
  rewrite bool_decide_eq_true_2 by eauto. cbn [orb].
  rewrite ?Hfile. rewrite Hparse.
  assert (Hprop : JS.getProp config "apiKey" = Returns (JS.prop config "apiKey")).
  { unfold JS.prop. destruct config; [contradiction|..]; reflexivity. }
  rewrite Hprop.
  destruct (JS.truthyOpt (JS.prop config "apiKey")
            && JS.truthyOpt (JS.prop config "endpoint")
            && JS.truthyOpt (JS.prop config "modelName")); reflexivity.
Qed.

(** X21.  A cloud configuration that is saved is read back: when
    save-cloud-config is given an object whose members are texts, with
    apiKey, endpoint and modelName not empty, and the file can be written,
    it answers with success and sets the three variables; and
    [loadCloudConfig], run on the state it leaves with any values of the
    variables, returns true and sets them to the same three values. *)
Theorem cloud_config_round_trip
    (cloud other : Main.Cloud) (fields : list (string * string)) (w : State) :
  JS.truthyOpt (JS.prop (recordOf fields) "apiKey") = true ->
  JS.truthyOpt (JS.prop (recordOf fields) "endpoint") = true ->
  JS.truthyOpt (JS.prop (recordOf fields) "modelName") = true ->
  writableIn env w (homedir env ++ [".foundry-chat"]) "cloud-config.json" = true ->
  let saved :=
    Main.mkCloud (JS.prop (recordOf fields) "apiKey")
                 (JS.prop (recordOf fields) "endpoint")
                 (JS.prop (recordOf fields) "modelName") in
  exists w' : State,
    Main.saveCloudConfig env cloud (recordOf fields) w
    = (Returns (Main.Success "Cloud configuration saved successfully", saved), w')
    /\ Main.loadCloudConfig env other w' = (Returns (true, saved), w').
Proof.
  intros Hk He Hm Hw saved.
  destruct (saveCloudConfigToFile_writes (recordOf fields) w Hw)
    as (w' & Hsave & Hfiles).
  exists w'. split.
  - unfold Main.saveCloudConfig. apply tryCatch_returns.
    unfold bind at 1. unfold lift.
    change (JS.getProp (recordOf fields) "apiKey")
      with (Returns (JS.prop (recordOf fields) "apiKey")).
    cbv iota. rewrite Hk, He, Hm. cbn [negb orb].
    now rewrite (bind_returns _ _ _ _ _ Hsave).
  - rewrite (loadCloudConfig_of_text other (JSON.stringify (recordOf fields) 2)
               (recordOf fields) w').
    + now rewrite Hk, He, Hm.
    + rewrite Hfiles. apply lookup_insert_eq.
    + apply parse_stringify_texts.
    + discriminate.
Qed.

(** X22.  save-cloud-config writes nothing unless the three fields are
    there: when [config] is null, or one of apiKey, endpoint and modelName
    is missing or falsy (an empty text, for one), the answer is a failure,
    the three variables keep their values and the state is as it was. *)
Theorem saveCloudConfig_requires_the_three_fields
    (cloud : Main.Cloud) (config : JSValue) (w : State) :
  config = JNull
  \/ JS.truthyOpt (JS.prop config "apiKey") = false
  \/ JS.truthyOpt (JS.prop config "endpoint") = false
  \/ JS.truthyOpt (JS.prop config "modelName") = false ->
  exists err : string,
    Main.saveCloudConfig env cloud config w
    = (Returns (Main.Failure err, cloud), w)
    /\ (config <> JNull -> err = "All fields are required").
Proof.
  intros Hbad. unfold Main.saveCloudConfig, tryCatch, bind, lift.
  destruct config as [| | | | |members];
    try (destruct Hbad as [E|Hbad]; [discriminate E|];
         eexists; split; [reflexivity | reflexivity]).
  - eexists. split; [reflexivity | intros E; now elim E].
  - destruct Hbad as [E|Hbad]; [discriminate E|].
    cbn [JS.getProp].
    change (JS.lookup "apiKey" members) with (JS.prop (JObj members) "apiKey").
    destruct Hbad as [E|[E|E]]; rewrite E; cbn [negb orb];
      rewrite ?orb_true_r; eexists; (split; [reflexivity | reflexivity]).
Qed.

Lemma loadCloudConfig_state (cloud : Main.Cloud) (w : State) :
  snd (Main.loadCloudConfig env cloud w) = w.
Proof.
  unfold Main.loadCloudConfig, tryCatch, bind, Sys.existsSync, Sys.readFileSync,
    lift, ret.
  cbv zeta.
  destruct (bool_decide _ || bool_decide _); [|reflexivity].
  destruct (files w !! _); [|reflexivity].
  destruct (JSON.parse _) as [config|]; [|reflexivity].
  destruct (JS.getProp config "apiKey") as [k|]; [|reflexivity].
  destruct (JS.truthyOpt k && _ && _); reflexivity.
Qed.

(** X23.  [loadCloudConfig] never throws and changes nothing in the
    state.  When it returns false the three variables keep their values:
    so it is when the file is missing, is not JSON, or lacks one of the
    three fields.  When it returns true the three variables are truthy, and
    they are the fields apiKey, endpoint and modelName of the JSON text of
    the file. *)
Theorem loadCloudConfig_outcomes (cloud : Main.Cloud) (w : State) :
  exists (loaded : bool) (cloud' : Main.Cloud),
    Main.loadCloudConfig env cloud w = (Returns (loaded, cloud'), w)
    /\ (loaded = false -> cloud' = cloud)
    /\ (loaded = true ->
        JS.truthyOpt (Main.cloudApiKey cloud') = true
        /\ JS.truthyOpt (Main.cloudEndpoint cloud') = true
        /\ JS.truthyOpt (Main.cloudModelName cloud') = true
        /\ exists text config,
             files w !! cloudConfigPath env = Some text
             /\ JSON.parse text = Returns config
             /\ cloud' = Main.mkCloud (JS.prop config "apiKey")
                           (JS.prop config "endpoint")
                           (JS.prop config "modelName")).
Proof.
  unfold Main.loadCloudConfig, tryCatch, bind, Sys.existsSync, Sys.readFileSync,
    lift, ret.
  cbv zeta. fold (cloudConfigPath env).
  destruct (bool_decide _ || bool_decide _);
    [|exists false, cloud; repeat split; discriminate].
  destruct (files w !! cloudConfigPath env) as [text|] eqn:Hfile;
    [|exists false, cloud; repeat split; discriminate].
  destruct (JSON.parse text) as [config|] eqn:Hparse;
    [|exists false, cloud; repeat split; discriminate].
  destruct (JS.getProp config "apiKey") as [k|] eqn:Hk;
    [|exists false, cloud; repeat split; discriminate].
  destruct (JS.truthyOpt k && JS.truthyOpt (JS.prop config "endpoint")
            && JS.truthyOpt (JS.prop config "modelName")) eqn:Hall;
    [|exists false, cloud; repeat split; discriminate].
  apply andb_true_iff in Hall as [Hall Hm].
  apply andb_true_iff in Hall as [Hkt He].
  eexists true, _. split; [reflexivity|]. split; [discriminate|].
  intros _. cbn [Main.cloudApiKey Main.cloudEndpoint Main.cloudModelName].
  repeat split; try assumption.
  exists text, config. repeat split; try assumption.
  unfold JS.prop. now rewrite Hk.
Qed.

(** X24.  A cloud configuration that is cleared is gone: when the file
    system can be written and no directory stands in the place of the
    file, clear-cloud-config answers with success, sets the three variables
    to null -- get-cloud-config then answers with three empty texts --, and
    leaves a state in which the file does not exist and in which
    [loadCloudConfig] returns false; no other file is touched. *)
Theorem clearCloudConfig_forgets
    (cloud other : Main.Cloud) (w : State) :
  fsReadOnly env = false ->
  cloudConfigPath env ∉ dirs w ->
  exists w' : State,
    Main.clearCloudConfig env cloud w
    = (Returns (Main.Success "Cloud configuration cleared successfully",
                Main.mkCloud (Some JNull) (Some JNull) (Some JNull)), w')
    /\ files w' = delete (cloudConfigPath env) (files w)
    /\ dirs w' = dirs w
    /\ Main.loadCloudConfig env other w' = (Returns (false, other), w')
    /\ Main.getCloudConfig (Main.mkCloud (Some JNull) (Some JNull) (Some JNull))
       = (JStr "", JStr "", JStr "").
Proof.
  intros Hro Hdir.
  assert (Hclear : exists w',
    Main.clearCloudConfigFile env w = (Returns true, w')
    /\ files w' = delete (cloudConfigPath env) (files w)
    /\ dirs w' = dirs w).
  { unfold Main.clearCloudConfigFile, tryCatch, bind, Sys.existsSync,
      Main.unlinkSync, ret.
    cbv zeta. fold (cloudConfigPath env).
    rewrite (bool_decide_eq_false_2 _ Hdir), orb_false_r, Hro.
    destruct (files w !! cloudConfigPath env) as [text|] eqn:Hfile.
    - rewrite bool_decide_eq_true_2 by eauto. rewrite Hfile.
      eexists. split; [reflexivity|]. split; reflexivity.
    - rewrite bool_decide_eq_false_2 by (intros [x Hx]; discriminate).
      exists w. split; [reflexivity|]. split; [|reflexivity].
      symmetry. now apply delete_id. }
  destruct Hclear as (w' & Hrun & Hfiles & Hdirs).
  exists w'. split; [|split; [exact Hfiles|split; [exact Hdirs|split]]].
  - unfold Main.clearCloudConfig. apply tryCatch_returns.
    now rewrite (bind_returns _ _ _ _ _ Hrun).
  - unfold Main.loadCloudConfig, tryCatch, bind, Sys.existsSync.
    cbv zeta. fold (cloudConfigPath env).
    rewrite Hfiles, lookup_delete_eq, Hdirs.
    rewrite (bool_decide_eq_false_2 _ Hdir).
    assert (Hnone : bool_decide (is_Some (@None string)) = false)
      by (apply bool_decide_eq_false_2; intros [x Hx]; discriminate).
    rewrite Hnone. reflexivity.
  - reflexivity.
Qed.

End CloudConfig.

Lemma cloud_config_round_trip_witness :
  let config :=
    recordOf [("apiKey", "secret"); ("endpoint", "https://x.openai.azure.com");
              ("modelName", "gpt-4o")] in
  let saved :=
    Main.mkCloud (Some (JStr "secret"))
                 (Some (JStr "https://x.openai.azure.com"))
                 (Some (JStr "gpt-4o")) in
  exists w' : State,
    Main.saveCloudConfig Example.serviceDown (Main.mkCloud None None None)
      config Example.atStart
    = (Returns (Main.Success "Cloud configuration saved successfully", saved), w')
    /\ Main.loadCloudConfig Example.serviceDown (Main.mkCloud None None None) w'
       = (Returns (true, saved), w').
Proof.
  cbv zeta.
  refine (cloud_config_round_trip Example.serviceDown
            (Main.mkCloud None None None) (Main.mkCloud None None None)
            [("apiKey", "secret"); ("endpoint", "https://x.openai.azure.com");
             ("modelName", "gpt-4o")] Example.atStart _ _ _ _);
    [reflexivity | reflexivity | reflexivity | vm_compute; reflexivity].
Defined.

Lemma saveCloudConfig_requires_the_three_fields_witness :
  let config :=
    recordOf [("apiKey", "secret"); ("endpoint", ""); ("modelName", "gpt-4o")] in
  exists err : string,
    Main.saveCloudConfig Example.serviceDown (Main.mkCloud None None None)
      config Example.atStart
    = (Returns (Main.Failure err, Main.mkCloud None None None), Example.atStart)
    /\ (config <> JNull -> err = "All fields are required").
Proof.
  cbv zeta.
  refine (saveCloudConfig_requires_the_three_fields Example.serviceDown
            (Main.mkCloud None None None) _ Example.atStart _).
  right. right. left. reflexivity.
Defined.

Lemma clearCloudConfig_forgets_witness :
  let env := Example.serviceDown in
  let w :=
    snd (Main.saveCloudConfigToFile env
           (recordOf [("apiKey", "secret"); ("endpoint", "https://x");
                      ("modelName", "gpt-4o")]) Example.atStart) in
  files w !! cloudConfigPath env <> None
  /\ exists w' : State,
       Main.clearCloudConfig env (Main.mkCloud None None None) w
       = (Returns (Main.Success "Cloud configuration cleared successfully",
                   Main.mkCloud (Some JNull) (Some JNull) (Some JNull)), w')
       /\ files w' !! cloudConfigPath env = None.
Proof.
  cbv zeta. split; [vm_compute; discriminate|].
  destruct (clearCloudConfig_forgets Example.serviceDown
              (Main.mkCloud None None None) (Main.mkCloud None None None)
              (snd (Main.saveCloudConfigToFile Example.serviceDown
                      (recordOf [("apiKey", "secret"); ("endpoint", "https://x");
                                 ("modelName", "gpt-4o")]) Example.atStart)))
    as (w' & Hrun & Hfiles & _).
  - reflexivity.
  - intro Hin. apply (bool_decide_pack _) in Hin. vm_compute in Hin. exact Hin.
  - exists w'. split; [exact Hrun|]. rewrite Hfiles. apply lookup_delete_eq.
Defined.

(** ** main.js: the handlers of the Foundry endpoint *)

Section EndpointHandlers.
Context `{URL.Platform}.
Variable env : Env.
Variable exchange : nat -> RequestOptions -> list (string * string) -> Exchange.

Lemma normalizeEndpoint_returns_text (endpoint v : JSValue) :
  JS.truthy endpoint = true ->
  normalizeEndpoint endpoint = Returns v ->
  exists n : string, v = JStr n /\ n <> EmptyString.
Proof.
  intros Ht. unfold normalizeEndpoint. rewrite Ht. cbn [negb]. unfold URL.new.
  destruct (URL.parse (JS.toString endpoint)) as [u|].
  - intros E. injection E as <-. exists (origin u).
    split; [reflexivity | apply origin_nonempty].
  - destruct endpoint as [| | |text| |]; try discriminate.
    intros E. injection E as <-. exists (normalizeFallback text).
    split; [reflexivity|]. intros E.
    pose proof (normalizeFallback_http text) as Hhttp. rewrite E in Hhttp.
    discriminate.
Qed.

Lemma verifyEndpoint_total (url : JSValue) (w : State) :
  exists (b : bool) (w' : State),
    verifyEndpoint env url None w = (Returns b, w')
    /\ files w' = files w /\ dirs w' = dirs w.
Proof.
  rewrite verifyEndpoint_run.
  destruct (URL.parse (JS.toString url)); eexists _, _; repeat split.
Qed.

(** X25.  The handler of set-foundry-endpoint never throws.  A falsy
    endpoint clears the custom endpoint without any effect.  A failure --
    the endpoint cannot be normalized, or what it is normalized to does not
    answer the probe -- leaves the custom endpoint and the file system as
    they were.  A success for a truthy endpoint sets the custom endpoint to
    what [normalizeEndpoint] returned, a text that is not empty, which the
    probe answered and which the message names. *)
Theorem setFoundryEndpoint_outcomes
    (customServiceEndpoint endpoint : JSValue) (w : State) :
  exists (reply : Main.Reply) (custom' : JSValue) (w' : State),
    Main.setFoundryEndpoint env customServiceEndpoint endpoint w
    = (Returns (reply, custom'), w')
    /\ (JS.truthy endpoint = false ->
        reply = Main.Success "Custom endpoint cleared"
        /\ custom' = JNull /\ w' = w)
    /\ (forall err, reply = Main.Failure err ->
        custom' = customServiceEndpoint
        /\ files w' = files w /\ dirs w' = dirs w)
    /\ (JS.truthy endpoint = true ->
        forall message, reply = Main.Success message ->
        exists (n : string) (w1 : State),
          normalizeEndpoint endpoint = Returns (JStr n)
          /\ n <> EmptyString
          /\ verifyEndpoint env (JStr n) None w = (Returns true, w1)
          /\ custom' = JStr n
          /\ message = "Connected to: " +:+ n).
Proof.
  unfold Main.setFoundryEndpoint, tryCatch. cbv zeta.
  destruct (JS.truthy endpoint) eqn:Ht; cbn [negb].
  2:{ eexists _, _, _. split; [reflexivity|]. split; [auto|].
      split; [discriminate|]. discriminate. }
  unfold bind at 1. unfold lift.
  destruct (normalizeEndpoint endpoint) as [v|err] eqn:Hn.
  2:{ eexists _, _, _. split; [reflexivity|]. split; [discriminate|].
      split; [|discriminate]. intros err' _. auto. }
  destruct (normalizeEndpoint_returns_text endpoint v Ht Hn) as (n & -> & Hne).
  destruct (verifyEndpoint_total (JStr n) w) as (b & w1 & Hv & Hf & Hd).
  rewrite (bind_returns _ _ _ _ _ Hv).
  destruct b; cbn [negb].
  - destruct (cacheEndpoint_effect env (JStr n) w1) as (w2 & Hc & _).
    cbv beta. rewrite (bind_returns _ _ _ _ _ Hc).
    eexists _, _, _. split; [reflexivity|]. split; [discriminate|].
    split; [discriminate|]. intros _ message E. injection E as <-.
    exists n, w1. repeat split; assumption.
  - eexists _, _, _. split; [reflexivity|]. split; [discriminate|].
    split; [|discriminate]. intros err _. auto.
Qed.

(** X26.  A custom endpoint that is accepted is remembered: when the probe
    of the normalized endpoint is answered and the cache file can be
    written, the handler of set-foundry-endpoint leaves a state from which
    [readCachedEndpoint] returns the normalized endpoint -- the next
    discovery starts from it. *)
Theorem setFoundryEndpoint_caches_the_endpoint
    (customServiceEndpoint endpoint : JSValue) (n : string) (w w1 : State) :
  JS.truthy endpoint = true ->
  normalizeEndpoint endpoint = Returns (JStr n) ->
  verifyEndpoint env (JStr n) None w = (Returns true, w1) ->
  0 < clock w1 < 10 ^ 21 ->
  cacheWritable env w1 = true ->
  exists w' : State,
    Main.setFoundryEndpoint env customServiceEndpoint endpoint w
    = (Returns (Main.Success ("Connected to: " +:+ n), JStr n), w')
    /\ fst (readCachedEndpoint env w') = Returns (JStr n).
Proof.
  intros Ht Hn Hv HT Hw.
  destruct (normalizeEndpoint_returns_text endpoint _ Ht Hn) as (n' & E & Hne).
  injection E as <-.
  destruct (cacheEndpoint_effect env (JStr n) w1) as (w' & Hc & Hclock & _).
  destruct (cacheEndpoint_writes env n w1 Hne Hw) as [_ Hfiles].
  rewrite Hc in Hfiles. cbn [snd] in Hfiles.
  exists w'. split.
  - unfold Main.setFoundryEndpoint. cbv zeta. apply tryCatch_returns.
    rewrite Ht. cbn [negb]. unfold bind at 1. unfold lift. rewrite Hn.
    rewrite (bind_returns _ _ _ _ _ Hv). cbn [negb].
    apply tryCatch_returns. now rewrite (bind_returns _ _ _ _ _ Hc).
  - rewrite (readCachedEndpoint_of_text env n (clock w1) w' Hne HT).
    + rewrite Hclock, Z.sub_diag. reflexivity.
    + rewrite Hfiles. apply lookup_insert_eq.
Qed.

(** X27.  The handler of test-foundry-connection never throws.  It tests
    the first truthy one of its argument, the custom endpoint and the
    discovered endpoint; with none it answers No endpoint configured
    without any request.  When the probe is not answered it answers
    Connection failed.  When the probe is answered it awaits the listing of
    the models: if the listing is resolved it answers with success,
    whatever the list is -- the count is its length, 0 when the list could
    not be had; if the listing stays pending the handler never answers. *)
Theorem testFoundryConnection_outcomes
    (customServiceEndpoint foundryServiceEndpoint endpoint : JSValue)
    (w : State) :
  let target :=
    Main.orElse (Main.orElse endpoint customServiceEndpoint)
                foundryServiceEndpoint in
  exists (reply : Settled Main.TestReply) (w' : State),
    Main.testFoundryConnection env exchange customServiceEndpoint
      foundryServiceEndpoint endpoint w = (Returns reply, w')
    /\ (JS.truthy endpoint = true -> target = endpoint)
    /\ (JS.truthy endpoint = false -> JS.truthy customServiceEndpoint = true ->
        target = customServiceEndpoint)
    /\ (JS.truthy target = false ->
        reply = Resolved (Main.NotConnected "No endpoint configured")
        /\ w' = w)
    /\ (JS.truthy target = true ->
        forall w1,
          verifyEndpoint env target None w = (Returns false, w1) ->
          reply = Resolved (Main.NotConnected "Connection failed") /\ w' = w1)
    /\ (JS.truthy target = true ->
        forall w1,
          verifyEndpoint env target None w = (Returns true, w1) ->
          exists listing,
            getAvailableModels exchange target w1 = (Returns listing, w')
            /\ reply
               = match listing with
                 | Resolved models =>
                     Resolved
                       (Main.Connected
                          ("Connected! "
                           +:+ Str.ofN (N.of_nat (List.length models))
                           +:+ " model(s) available")
                          target (List.length models))
                 | Pending => Pending
                 end).
Proof.
  intros target. unfold Main.testFoundryConnection, tryCatch. cbv zeta.
  fold target.
  assert (H1 : JS.truthy endpoint = true -> target = endpoint).
  { intros E. unfold target, Main.orElse. now rewrite E, E. }
  assert (H2 : JS.truthy endpoint = false ->
               JS.truthy customServiceEndpoint = true ->
               target = customServiceEndpoint).
  { intros E1 E2. unfold target, Main.orElse. now rewrite E1, E2. }
  destruct (JS.truthy target) eqn:Ht; cbn [negb].
  2:{ eexists _, _. split; [reflexivity|]. split; [exact H1|].
      split; [exact H2|]. split; [auto|]. split; discriminate. }
  destruct (verifyEndpoint_total target w) as (b & w1 & Hv & _).
  rewrite (bind_returns _ _ _ _ _ Hv).
  destruct b; cbn [negb].
  - destruct (getAvailableModels_returns exchange target w1)
      as (listing & w2 & Hm & _).
    unfold await. rewrite (bind_returns _ _ _ _ _ Hm).
    exists (match listing with
            | Resolved models =>
                Resolved
                  (Main.Connected
                     ("Connected! " +:+ Str.ofN (N.of_nat (List.length models))
                      +:+ " model(s) available")
                     target (List.length models))
            | Pending => Pending
            end), w2.
    split; [destruct listing; reflexivity|]. split; [exact H1|].
    split; [exact H2|]. split; [discriminate|]. split.
    + intros _ w1' E. rewrite Hv in E. discriminate.
    + intros _ w1' E. rewrite Hv in E. injection E as <-.
      exists listing. split; [exact Hm | reflexivity].
  - eexists _, _. split; [reflexivity|]. split; [exact H1|].
    split; [exact H2|]. split; [discriminate|]. split.
    + intros _ w1' E. rewrite Hv in E. now injection E as <-.
    + intros _ w1' E. rewrite Hv in E. discriminate.
Qed.

End EndpointHandlers.

Lemma setFoundryEndpoint_caches_the_endpoint_witness :
  exists w' : State,
    @Main.setFoundryEndpoint URL.ascii (Example.serviceUp (Response 200))
      JNull (JStr "http://localhost:55329/openai/status") Example.atStart
    = (Returns (Main.Success "Connected to: http://localhost:55329",
                JStr "http://localhost:55329"), w')
    /\ fst (readCachedEndpoint (Example.serviceUp (Response 200)) w')
       = Returns (JStr "http://localhost:55329").
Proof.
  refine (@setFoundryEndpoint_caches_the_endpoint URL.ascii
            (Example.serviceUp (Response 200)) JNull
            (JStr "http://localhost:55329/openai/status")
            "http://localhost:55329" Example.atStart
            (afterRequest
               (mkRequest "localhost" (JStr "55329") "/v1/models" "GET" 3000)
               Example.atStart) _ _ _ _ _).
  - reflexivity.
  - vm_compute. reflexivity.
  - vm_compute. reflexivity.
  - split; reflexivity.
  - vm_compute. reflexivity.
Defined.

(** ** main.js: get-local-models and the initialization *)

Lemma afterRounds_files n : forall w,
  files (afterRounds n w) = files w /\ dirs (afterRounds n w) = dirs w.
Proof.
  induction n as [|n IH]; intros w; cbn [afterRounds]; [split; reflexivity|].
  destruct (IH (afterSleep 1000 (afterExec statusCmd w))) as [-> ->].
  split; reflexivity.
Qed.

Lemma pollRounds_no_launch n : List.filter isLaunch (pollRounds n) = [].
Proof. induction n as [|n IH]; [reflexivity | exact IH]. Qed.

Section LocalModels.
Context `{URL.Platform}.
Variable exchange : nat -> RequestOptions -> list (string * string) -> Exchange.

(** X28.  The handler of get-local-models never throws.  It lists the
    models of the custom endpoint if there is one, of the discovered
    endpoint otherwise; with neither it answers that the service is not
    available, without any request.  With an endpoint it awaits the
    listing: if the listing is resolved it answers with success, with the
    models or, when the list is empty -- the service could not be reached,
    for one --, with a warning; if the listing stays pending the handler
    never answers. *)
Theorem getLocalModels_outcomes
    (customServiceEndpoint foundryServiceEndpoint : JSValue) (w : State) :
  let endpoint := Main.orElse customServiceEndpoint foundryServiceEndpoint in
  exists (reply : Settled Main.ModelsReply) (w' : State),
    Main.getLocalModels exchange customServiceEndpoint
      foundryServiceEndpoint w = (Returns reply, w')
    /\ (JS.truthy customServiceEndpoint = true -> endpoint = customServiceEndpoint)
    /\ (JS.truthy customServiceEndpoint = false -> endpoint = foundryServiceEndpoint)
    /\ (JS.truthy endpoint = false ->
        reply = Resolved (Main.Unavailable "Foundry service not available")
        /\ w' = w)
    /\ (JS.truthy endpoint = true ->
        exists listing,
          getAvailableModels exchange endpoint w = (Returns listing, w')
          /\ reply
             = match listing with
               | Resolved [] =>
                   Resolved
                     (Main.NoModels
                        "No models available. Please check Foundry Local service.")
               | Resolved models => Resolved (Main.Models models)
               | Pending => Pending
               end).
Proof.
  intros endpoint. unfold Main.getLocalModels, tryCatch. cbv zeta.
  fold endpoint.
  assert (H1 : JS.truthy customServiceEndpoint = true ->
               endpoint = customServiceEndpoint).
  { intros E. unfold endpoint, Main.orElse. now rewrite E. }
  assert (H2 : JS.truthy customServiceEndpoint = false ->
               endpoint = foundryServiceEndpoint).
  { intros E. unfold endpoint, Main.orElse. now rewrite E. }
  destruct (JS.truthy endpoint) eqn:Ht; cbn [negb].
  2:{ eexists _, _. split; [reflexivity|]. split; [exact H1|].
      split; [exact H2|]. split; [auto | discriminate]. }
  destruct (getAvailableModels_returns exchange endpoint w)
    as (listing & w' & Hm & _).
  unfold await. rewrite (bind_returns _ _ _ _ _ Hm).
  exists (match listing with
          | Resolved [] =>
              Resolved
                (Main.NoModels
                   "No models available. Please check Foundry Local service.")
          | Resolved models => Resolved (Main.Models models)
          | Pending => Pending
          end), w'.
  split; [destruct listing as [[|m models]|]; reflexivity|]. split; [exact H1|].
  split; [exact H2|]. split; [discriminate|].
  intros _. exists listing. split; [exact Hm | reflexivity].
Qed.

End LocalModels.

(** *** What the discovery reports can be written *)

Lemma toText_returns (v : JSValue) (text : string) :
  JS.toText v = Returns text -> JS.convertible v = true.
Proof. unfold JS.toText. destruct (JS.convertible v); [reflexivity | discriminate]. Qed.

Lemma toText_convertible (v : JSValue) :
  JS.convertible v = true -> JS.toText v = Returns (JS.toString v).
Proof. unfold JS.toText. now intros ->. Qed.

Lemma parseStatusText_convertible (stdout : string) :
  JS.convertible (endpoint (parseStatusText stdout)) = true
  /\ JS.convertible (port (parseStatusText stdout)) = true.
Proof.
  unfold parseStatusText.
  repeat match goal with
         | |- context [match ?x with _ => _ end] => destruct x
         end; split; reflexivity.
Qed.

Lemma parseStatus_convertible (stdout : string) :
  JS.convertible (endpoint (parseStatus stdout)) = true
  /\ JS.convertible (port (parseStatus stdout)) = true.
Proof.
  pose proof (parseStatusText_convertible stdout) as Htext.
  unfold parseStatus, parseStatusJson.
  destruct (JSON.parse stdout) as [j|err]; [|exact Htext].
  destruct (JS.getProp j "port") as [p|err]; [|exact Htext].
  destruct (JS.truthyOpt p).
  - destruct (JS.toText (default JNull p)) eqn:Hp; [|exact Htext].
    split; [reflexivity | exact (toText_returns _ _ Hp)].
  - destruct (JS.truthyOpt (JS.prop j "url")); [|exact Htext].
    destruct (JS.toText _) eqn:Hu; [|exact Htext].
    split; [exact (toText_returns _ _ Hu) | reflexivity].
Qed.

Lemma queryOutcome_convertible (env : Env) (n : nat) :
  JS.convertible (endpoint (queryOutcome env n)) = true
  /\ JS.convertible (port (queryOutcome env n)) = true.
Proof.
  unfold queryOutcome. destruct (commandResult env n statusCmd).
  - apply parseStatus_convertible.
  - split; reflexivity.
Qed.

Lemma readCachedEndpoint_convertible (env : Env) (w : State) (c : JSValue) :
  fst (readCachedEndpoint env w) = Returns c -> JS.convertible c = true.
Proof.
  unfold readCachedEndpoint, tryCatch, bind, Sys.existsSync, Sys.readFileSync,
    lift, Sys.dateNow, ret.
  destruct (bool_decide _ || bool_decide _);
    [|intros E; now injection E as <-].
  destruct (files w !! cacheFile env); [|intros E; now injection E as <-].
  destruct (JSON.parse _) as [data|]; [|intros E; now injection E as <-].
  destruct (JS.getProp data "endpoint") as [e|];
    [|intros E; now injection E as <-].
  destruct (JS.getProp data "timestamp") as [t|];
    [|intros E; now injection E as <-].
  destruct (JS.truthyOpt e && JS.truthyOpt t);
    [|intros E; now injection E as <-].
  destruct (Num.ltb _ _); [|intros E; now injection E as <-].
  destruct (JS.toText (default JNull e)) eqn:He;
    intros E; injection E as <-; [exact (toText_returns _ _ He) | reflexivity].
Qed.

Section Initialization.
Context `{URL.Platform}.
Variable env : Env.
Variable exchange : nat -> RequestOptions -> list (string * string) -> Exchange.
Variable windowAlive : bool.

Lemma discoverFromCLI_convertible (w w' : State) (r : Discovery.Result) :
  discoverFromCLI env w = (Returns r, w') ->
  JS.convertible (Discovery.endpoint r) = true
  /\ JS.convertible (Discovery.port r) = true.
Proof.
  unfold discoverFromCLI, queryVerifyCache, verifyAndCache, bind.
  destruct (startFoundryService env w) as [[s|err] w1]; [|discriminate].
  cbn [Sys.sleep]. rewrite queryServiceFromCLI_run.
  destruct (queryOutcome_convertible env
              (execCount (mkState (clock w1 + 1000) (files w1) (dirs w1)
                            (execCount w1) (requestCount w1)
                            (trace w1 ++ [EvSleep 1000])))) as [He Hp].
  destruct (JS.truthy (endpoint (queryOutcome env _))); cbn [negb].
  - destruct (verifyEndpoint env _ None _) as [[[]|err] w2]; cbn [negb].
    + destruct (cacheEndpoint env _ w2) as [[[]|err] w3]; [|discriminate].
      intros E. injection E as <- _. split; assumption.
    + intros E. injection E as <- _. split; assumption.
    + discriminate.
  - intros E. injection E as <- _. split; [reflexivity | exact Hp].
Qed.

Lemma discoverFoundryService_convertible
    (w w' : State) (r : Discovery.Result) :
  discoverFoundryService env w = (Returns r, w') ->
  JS.convertible (Discovery.endpoint r) = true
  /\ JS.convertible (Discovery.port r) = true.
Proof.
  pose proof (readCachedEndpoint_convertible env w) as Hc.
  unfold discoverFoundryService, bind.
  destruct (readCachedEndpoint env w) as [[c|err] wa]; [|discriminate].
  cbn [fst] in Hc. specialize (Hc c eq_refl).
  destruct (JS.truthy c); [|apply discoverFromCLI_convertible].
  destruct (verifyEndpoint env c None wa) as [[[]|err] wb];
    [| apply discoverFromCLI_convertible | discriminate].
  intros E. injection E as <- _. split; [exact Hc | reflexivity].
Qed.

(** X29.  [initializeFoundryService] never throws: it runs
    [startFoundryService] and then [discoverFoundryService], and what
    follows depends on what the discovery gives.  Without a truthy
    endpoint it returns false, [foundryServiceEndpoint] keeps its value
    and the status sent is failed.  With one, [foundryServiceEndpoint] is
    that endpoint from then on, whatever follows, and the models are
    listed: if the listing stays pending the function never returns and
    nothing is sent; if it is resolved and the [id] of every model can be
    written into the log, the function returns true and the status sent is
    ready, with the endpoint, the models and their count; if the [id] of a
    model cannot be written, the function returns false and the status
    sent is error.  A status is sent only to a window that is there. *)
Theorem initializeFoundryService_outcomes
    (foundryServiceEndpoint : JSValue) (w : State) :
  exists (s : StartOutcome) (w1 : State) (d : Discovery.Result) (w2 : State)
         (result : Settled bool) (endpoint' : JSValue)
         (sent : list Main.InitStatus) (w' : State),
    startFoundryService env w = (Returns s, w1)
    /\ discoverFoundryService env w1 = (Returns d, w2)
    /\ Main.initializeFoundryService env exchange windowAlive
         foundryServiceEndpoint w = (Returns (result, endpoint', sent), w')
    /\ (JS.truthy (Discovery.endpoint d) = false ->
        result = Resolved false
        /\ endpoint' = foundryServiceEndpoint
        /\ w' = w2
        /\ sent = Main.notify windowAlive
                    (Main.mkInitStatus "failed"
                       "Failed to discover Foundry Local service" JNull None
                       None))
    /\ (JS.truthy (Discovery.endpoint d) = true ->
        endpoint' = Discovery.endpoint d
        /\ exists listing,
             getAvailableModels exchange (Discovery.endpoint d) w2
             = (Returns listing, w')
             /\ match listing with
                | Pending => result = Pending /\ sent = []
                | Resolved models =>
                    match Main.logIds models with
                    | Returns _ =>
                        result = Resolved true
                        /\ sent = Main.notify windowAlive
                                    (Main.mkInitStatus "ready"
                                       "Foundry Local service ready"
                                       (Discovery.endpoint d) (Some models)
                                       (Some (List.length models)))
                    | Throws err =>
                        result = Resolved false
                        /\ sent = Main.notify windowAlive
                                    (Main.mkInitStatus "error"
                                       ("Initialization error: " +:+ err)
                                       JNull None None)
                    end
                end).
Proof.
  unfold Main.initializeFoundryService. cbv zeta.
  destruct (neverThrows_startFoundryService env w) as [s Hs].
  destruct (startFoundryService env w) as [o w1] eqn:Hstart.
  cbn [fst] in Hs. subst o.
  destruct (neverThrows_discoverFoundryService env w1) as [d Hd].
  destruct (discoverFoundryService env w1) as [o w2] eqn:Hdisc.
  cbn [fst] in Hd. subst o.
  destruct (discoverFoundryService_convertible w1 w2 d Hdisc) as [He Hp].
  exists s, w1, d, w2.
  destruct (JS.truthy (Discovery.endpoint d)) eqn:Ht.
  - destruct (getAvailableModels_returns exchange (Discovery.endpoint d) w2)
      as (listing & w3 & Hm & _).
    assert (Hport : (if JS.truthy (Discovery.port d)
                     then JS.toText (Discovery.port d)
                     else Returns EmptyString)
                    = Returns (if JS.truthy (Discovery.port d)
                               then JS.toString (Discovery.port d)
                               else EmptyString)).
    { destruct (JS.truthy (Discovery.port d));
        [exact (toText_convertible _ Hp) | reflexivity]. }
    assert (Hinner :
      forall h,
        tryCatch
          (_logged <- lift (JS.toText (Discovery.endpoint d)) ;;
           _logged <- lift (if JS.truthy (Discovery.port d)
                            then JS.toText (Discovery.port d)
                            else Returns EmptyString) ;;
           listing <- getAvailableModels exchange (Discovery.endpoint d) ;;
           match listing with
           | Pending => ret (Pending, Discovery.endpoint d, [])
           | Resolved models =>
               _logged <- lift (Main.logIds models) ;;
               ret (Resolved true, Discovery.endpoint d,
                    Main.notify windowAlive
                      (Main.mkInitStatus "ready" "Foundry Local service ready"
                         (Discovery.endpoint d) (Some models)
                         (Some (List.length models))))
           end) h w2
        = match listing with
          | Pending => (Returns (Pending, Discovery.endpoint d, []), w3)
          | Resolved models =>
              match Main.logIds models with
              | Returns _ =>
                  (Returns
                     (Resolved true, Discovery.endpoint d,
                      Main.notify windowAlive
                        (Main.mkInitStatus "ready" "Foundry Local service ready"
                           (Discovery.endpoint d) (Some models)
                           (Some (List.length models)))), w3)
              | Throws err => h err w3
              end
          end).
    { intros h. unfold tryCatch. rewrite (toText_convertible _ He), Hport.
      unfold bind at 1. unfold lift at 1. unfold bind at 1. unfold lift at 1.
      rewrite (bind_returns _ _ _ _ _ Hm).
      destruct listing as [models|]; [|reflexivity].
      unfold bind, lift. destruct (Main.logIds models); reflexivity. }
    exists (match listing with
            | Pending => Pending
            | Resolved models =>
                match Main.logIds models with
                | Returns _ => Resolved true
                | Throws _ => Resolved false
                end
            end),
           (Discovery.endpoint d),
           (match listing with
            | Pending => []
            | Resolved models =>
                match Main.logIds models with
                | Returns _ =>
                    Main.notify windowAlive
                      (Main.mkInitStatus "ready" "Foundry Local service ready"
                         (Discovery.endpoint d) (Some models)
                         (Some (List.length models)))
                | Throws err =>
                    Main.notify windowAlive
                      (Main.mkInitStatus "error"
                         ("Initialization error: " +:+ err) JNull None None)
                end
            end), w3.
    split; [reflexivity|]. split; [exact Hdisc|]. split.
    { apply tryCatch_returns.
      rewrite (bind_returns _ _ _ _ _ Hstart), (bind_returns _ _ _ _ _ Hdisc).
      rewrite Ht. cbn [negb]. rewrite Hinner.
      destruct listing as [models|]; [|reflexivity].
      destruct (Main.logIds models); reflexivity. }
    split; [discriminate|]. intros _. split; [reflexivity|].
    exists listing. split; [exact Hm|].
    destruct listing as [models|]; [|split; reflexivity].
    destruct (Main.logIds models); split; reflexivity.
  - exists (Resolved false), foundryServiceEndpoint,
      (Main.notify windowAlive
         (Main.mkInitStatus "failed"
            "Failed to discover Foundry Local service" JNull None None)), w2.
    split; [reflexivity|]. split; [exact Hdisc|]. split.
    { apply tryCatch_returns.
      rewrite (bind_returns _ _ _ _ _ Hstart), (bind_returns _ _ _ _ _ Hdisc).
      rewrite Ht. reflexivity. }
    split; [|discriminate]. intros _. repeat split.
Qed.

(** X30.  When there is no cache file and the service never comes up,
    [initializeFoundryService] waits twice: it runs [startFoundryService]
    to its time-out, and [discoverFoundryService] then runs it to its
    time-out again.  The launch command is executed twice, the status
    command 123 times, and 125 seconds of delays pass before the function
    returns false with the status failed. *)
Theorem initialization_without_service
    (foundryServiceEndpoint : JSValue) (w : State) :
  files w !! cacheFile env = None ->
  cacheFile env ∉ dirs w ->
  (forall i, (i < 122)%nat ->
     reportsRunning (queryOutcome env (execCount w + i)) = false) ->
  JS.truthy (endpoint (queryOutcome env (execCount w + 122))) = false ->
  let w' :=
    afterExec statusCmd
      (afterSleep 1000
         (afterRounds 60 (afterLaunch (afterRounds 60 (afterLaunch w))))) in
  Main.initializeFoundryService env exchange windowAlive
    foundryServiceEndpoint w
  = (Returns
       (Resolved false, foundryServiceEndpoint,
        Main.notify windowAlive
          (Main.mkInitStatus "failed" "Failed to discover Foundry Local service"
             JNull None None)), w')
  /\ clock w' = clock w + 125000
  /\ execCount w' = (execCount w + 123)%nat
  /\ exists evs,
       performs w w' evs
       /\ List.length (List.filter isLaunch evs) = 2%nat.
Proof.
  intros Hfile Hdir Hno Hlast w'.
  set (w1 := afterRounds 60 (afterLaunch w)).
  set (w2 := afterRounds 60 (afterLaunch w1)).
  assert (Hcount1 : execCount w1 = (execCount w + 61)%nat).
  { unfold w1. rewrite afterRounds_execCount.
    cbn [afterLaunch afterSleep emit afterExec execCount]. lia. }
  assert (Hcount2 : execCount w2 = (execCount w + 122)%nat).
  { unfold w2. rewrite afterRounds_execCount.
    cbn [afterLaunch afterSleep emit afterExec execCount]. rewrite Hcount1. lia. }
  assert (Hstart1 : startFoundryService env w = (Returns timedOut, w1)).
  { apply startFoundryService_timeout.
    - rewrite <- (Nat.add_0_r (execCount w)). apply Hno. lia.
    - intros i Hi. unfold maxRetries in Hi.
      replace (S (execCount w) + i)%nat with (execCount w + S i)%nat by lia.
      apply Hno. lia. }
  assert (Hstart2 : startFoundryService env w1 = (Returns timedOut, w2)).
  { apply startFoundryService_timeout.
    - rewrite Hcount1. apply Hno. lia.
    - intros i Hi. unfold maxRetries in Hi. rewrite Hcount1.
      replace (S (execCount w + 61) + i)%nat
        with (execCount w + (62 + i))%nat by lia.
      apply Hno. lia. }
  assert (Hfs1 : files w1 = files w /\ dirs w1 = dirs w).
  { unfold w1. destruct (afterRounds_files 60 (afterLaunch w)) as [-> ->].
    split; reflexivity. }
  assert (Hdisc : discoverFoundryService env w1
    = (Returns (Discovery.mk JNull
                  (port (queryOutcome env (execCount w + 122))) false), w')).
  { destruct Hfs1 as [Hf1 Hd1].
    rewrite (discover_cache_miss env w1 w1).
    2:{ apply cacheCheck_absent; [now rewrite Hf1 | now rewrite Hd1]. }
    unfold discoverFromCLI. rewrite (bind_returns _ _ _ _ _ Hstart2).
    unfold queryVerifyCache. unfold bind at 1. cbn [Sys.sleep].
    fold (afterSleep 1000 w2).
    rewrite (bind_returns _ _ _ _ _
               (queryServiceFromCLI_run env (afterSleep 1000 w2))).
    cbn [afterSleep execCount]. rewrite Hcount2, Hlast. reflexivity. }
  split; [|split; [|split]].
  - unfold Main.initializeFoundryService. apply tryCatch_returns.
    rewrite (bind_returns _ _ _ _ _ Hstart1).
    rewrite (bind_returns _ _ _ _ _ Hdisc). reflexivity.
  - change w' with (afterExec statusCmd (afterSleep 1000 w2)).
    cbn [afterExec afterSleep clock]. unfold w2.
    rewrite afterRounds_clock. cbn [afterLaunch afterSleep emit afterExec clock].
    unfold w1. rewrite afterRounds_clock.
    cbn [afterLaunch afterSleep emit afterExec clock]. lia.
  - change w' with (afterExec statusCmd (afterSleep 1000 w2)).
    cbn [afterExec afterSleep execCount]. rewrite Hcount2. lia.
  - exists (([EvExecAwaited statusCmd; EvExecDetached launchCmd; EvSleep 2000]
             ++ pollRounds 60)
            ++ ([EvExecAwaited statusCmd; EvExecDetached launchCmd; EvSleep 2000]
                ++ pollRounds 60)
            ++ [EvSleep 1000; EvExecAwaited statusCmd]).
    split.
    + change w' with (afterExec statusCmd (afterSleep 1000 w2)).
      unfold performs. cbn [afterExec afterSleep trace].
      unfold w2. rewrite afterRounds_trace.
      cbn [afterLaunch afterSleep emit afterExec trace].
      unfold w1. rewrite afterRounds_trace.
      cbn [afterLaunch afterSleep emit afterExec trace].
      now rewrite <- !app_assoc.
    + rewrite !List.filter_app, !pollRounds_no_launch. reflexivity.
Qed.

End Initialization.

Lemma initialization_without_service_witness :
  exists w' : State,
    @Main.initializeFoundryService URL.ascii Example.serviceDown
      (fun _ _ _ => Idle) true JNull Example.atStart
    = (Returns
         (Resolved false, JNull,
          [Main.mkInitStatus "failed" "Failed to discover Foundry Local service"
             JNull None None]), w')
    /\ clock w' = clock Example.atStart + 125000.
Proof.
  destruct (@initialization_without_service URL.ascii Example.serviceDown
              (fun _ _ _ => Idle) true JNull Example.atStart)
    as (Hrun & Hclock & _).
  - reflexivity.
  - apply not_elem_of_empty.
  - intros i _. reflexivity.
  - reflexivity.
  - eexists. split; [exact Hrun | exact Hclock].
Defined.
